(** * Document field extraction and tax-line mapping: a shallow embedding

    The development follows four source files of the repository:

    - [lib/1099-to-1040-mapping.ts]   (modules [Form1099ToForm1040Mapper]
                                       and [Form1099Validation]),
    - [src/forms/base/abstract-form.ts] (modules [AbstractForm1040] and
      [Form1040Validation]; the form factory that the file holds as well
      is the module [Form1040Factory]),
    - [src/profile/eligibility-service.ts] (module [FormEligibilityService],
      with the profile types; the standard form that the file holds as well
      is [AbstractForm1040.Standard1040Form],
      [Standard1040FormCalculation] and [Standard1040FormValidation]),
    - [lib/azure-document-intelligence-service.ts]
                                       (module [AzureDocumentIntelligenceService]).

    Conventions of the embedding.

    - A JavaScript [number] is an exact rational ([Q]); [NaN] is a value of
      its own ([JsNaN]) wherever the code can meet one.  The infinities and
      the rounding of binary floating point are outside the model, so sums
      and products are exact.  Numeric results are compared with [==].
      Where the rounding of the code could change a result, a statement
      names the amounts for which the code is exact as well (whole numbers
      of moderate size) or leaves a margin of one cent.
    - The text of a document and the keywords searched in it are [string]s
      of 8-bit code units; there case mapping acts on the ASCII letters, and
      white space is the Latin-1 part of the [\s] class.  The names of the
      employee records are lists of UTF-16 code units ([Utf16.String16]),
      with the whole [\s] class, and they are compared under the case
      mappings of the language, which are taken as given
      ([Utf16.CaseMapping]): what is proved about them holds for every case
      mapping.
    - An object read through property names is a finite map [gmap string _];
      a missing property is [None] ([undefined]).
    - Console logging is dropped: it has no effect on any result. *)

From Stdlib Require Import QArith Qround Qabs Qminmax Lqa Lia Ascii.
From Stdlib Require Import Sorting.Sorted.
From stdpp Require Import gmap strings list pretty.

Local Open Scope Q_scope.

(** ** JavaScript values and the built-ins the code relies on *)

Module Js.

Inductive JsValue : Type :=
| JsUndefined
| JsNull
| JsNaN
| JsNumber (q : Q)
| JsString (s : string)
| JsArray (xs : list Q)
(** an object, seen through its [value] and [content] properties
    ([JsUndefined] when the property is missing) *)
| JsObject (value content : JsValue).

(** [x < y] on numbers, as a boolean. *)
Definition Qlt_bool (x y : Q) : bool := negb (Qle_bool y x).

(** ToBoolean. *)
Definition truthy (v : JsValue) : bool :=
  match v with
  | JsUndefined | JsNull | JsNaN => false
  | JsNumber q => negb (Qeq_bool q 0)
  | JsString s => negb (String.eqb s "")
  | JsArray _ | JsObject _ _ => true
  end.

(** [a || b] on values. *)
Definition jsOr (a b : JsValue) : JsValue := if truthy a then a else b.

(** [obj[key]]: a missing property reads as [undefined]. *)
Definition prop (obj : gmap string JsValue) (key : string) : JsValue :=
  default JsUndefined (obj !! key).

(** [x || 0] for an optional numeric property. *)
Definition or0 (o : option Q) : Q := default 0 o.

(** [!x] for an optional numeric property. *)
Definition falsyAmount (o : option Q) : bool :=
  match o with
  | None => true
  | Some q => Qeq_bool q 0
  end.

(** *** Characters and strings *)

Definition code (c : ascii) : nat := nat_of_ascii c.

(** The [\s] class (and what [trim] removes), below code 256. *)
Definition isWhiteSpace (c : ascii) : bool :=
  let n := code c in
  ((9 <=? n)%nat && (n <=? 13)%nat) || (n =? 32)%nat || (n =? 160)%nat.

Definition isDigit (c : ascii) : bool :=
  let n := code c in (48 <=? n)%nat && (n <=? 57)%nat.

Definition isUpper (c : ascii) : bool :=
  let n := code c in (65 <=? n)%nat && (n <=? 90)%nat.

Definition isLower (c : ascii) : bool :=
  let n := code c in (97 <=? n)%nat && (n <=? 122)%nat.

Definition isLetter (c : ascii) : bool := isUpper c || isLower c.

Definition lowerChar (c : ascii) : ascii :=
  if isUpper c then ascii_of_nat (code c + 32) else c.

Definition upperChar (c : ascii) : ascii :=
  if isLower c then ascii_of_nat (code c - 32) else c.

Fixpoint mapString (f : ascii -> ascii) (s : string) : string :=
  match s with
  | EmptyString => EmptyString
  | String c rest => String (f c) (mapString f rest)
  end.

Definition toLowerCase (s : string) : string := mapString lowerChar s.

(** [s.replace(/[...]/g, '')]: drop every character of a class. *)
Fixpoint removeChars (drop : ascii -> bool) (s : string) : string :=
  match s with
  | EmptyString => EmptyString
  | String c rest =>
      if drop c then removeChars drop rest
      else String c (removeChars drop rest)
  end.

(** [text.includes(needle)]. *)
Fixpoint includes (text needle : string) : bool :=
  String.prefix needle text ||
  match text with
  | EmptyString => false
  | String _ rest => includes rest needle
  end.

Fixpoint trimStart (s : string) : string :=
  match s with
  | String c rest => if isWhiteSpace c then trimStart rest else s
  | EmptyString => EmptyString
  end.

(** Drops trailing white space. *)
Fixpoint trimEnd (s : string) : string :=
  match s with
  | EmptyString => EmptyString
  | String c rest =>
      match trimEnd rest with
      | EmptyString => if isWhiteSpace c then EmptyString else String c EmptyString
      | rest' => String c rest'
      end
  end.

Definition trim (s : string) : string := trimEnd (trimStart s).

(** [s.replace(/\s+/g, ' ')]: each maximal run of white space becomes one
    space.  [inRun] says that the previous character was white space. *)
Fixpoint collapseFrom (inRun : bool) (s : string) : string :=
  match s with
  | EmptyString => EmptyString
  | String c rest =>
      if isWhiteSpace c then
        if inRun then collapseFrom true rest
        else String " "%char (collapseFrom true rest)
      else String c (collapseFrom false rest)
  end.

Definition collapseWhiteSpace (s : string) : string := collapseFrom false s.

(** [s.split(sep)] for a one-character separator; never the empty list. *)
Fixpoint split (sep : ascii) (s : string) : list string :=
  match s with
  | EmptyString => [EmptyString]
  | String c rest =>
      if Ascii.eqb c sep then EmptyString :: split sep rest
      else match split sep rest with
           | w :: ws => String c w :: ws
           | [] => [String c EmptyString]
           end
  end.

(** [words.includes(word)]. *)
Definition arrayIncludes (words : list string) (word : string) : bool :=
  existsb (String.eqb word) words.

(** *** [parseFloat]

    The decimal literals of the language: optional white space, an optional
    sign, digits with an optional fraction (or a fraction alone) and an
    optional exponent; what follows the literal is ignored.  [None] is
    [NaN].  The literal [Infinity] is outside the model. *)

Definition digitValue (c : ascii) : Z := Z.of_nat (code c - 48).

(** Reads a run of digits: its value after [acc], its length, the rest. *)
Fixpoint takeDigits (s : string) (acc : Z) (n : nat) : Z * nat * string :=
  match s with
  | String c rest =>
      if isDigit c then takeDigits rest (acc * 10 + digitValue c)%Z (S n)
      else (acc, n, s)
  | EmptyString => (acc, n, s)
  end.

(** The sign in front of a literal: its factor and the rest. *)
Definition takeSign (s : string) : Z * string :=
  match s with
  | String "+"%char rest => (1%Z, rest)
  | String "-"%char rest => ((-1)%Z, rest)
  | _ => (1%Z, s)
  end.

(** The exponent part, [0] when there is none or it is malformed. *)
Definition takeExponent (s : string) : Z :=
  match s with
  | String c rest =>
      if Ascii.eqb c "e"%char || Ascii.eqb c "E"%char then
        let '(sign, rest) := takeSign rest in
        let '(e, n, _) := takeDigits rest 0%Z 0%nat in
        match n with
        | O => 0%Z
        | S _ => (sign * e)%Z
        end
      else 0%Z
  | EmptyString => 0%Z
  end.

Definition parseFloat (s : string) : option Q :=
  let '(sign, s1) := takeSign (trimStart s) in
  let '(int, n1, s2) := takeDigits s1 0%Z 0%nat in
  let '(frac, n2, s3) :=
    match s2 with
    | String "."%char rest => takeDigits rest 0%Z 0%nat
    | _ => (0%Z, 0%nat, s2)
    end in
  match n1, n2 with
  | O, O => None
  | _, _ =>
      let mantissa :=
        inject_Z int + inject_Z frac / inject_Z (10 ^ Z.of_nat n2) in
      Some (inject_Z sign * mantissa * Qpower 10 (takeExponent s3))
  end.
End Js.

(** ** JavaScript strings as UTF-16 code units

    The names of the employee records are compared after
    [String.prototype.toUpperCase], which maps every letter of Unicode and
    can change the length of a string.  For them a string is the list of
    its UTF-16 code units, and the two case mappings are taken as given. *)

Module Utf16.

Abbreviation String16 := (list N).

Section CodeUnits.
Local Open Scope N_scope.

(** The [\s] class, which is also what [trim] removes: the white space and
    the line terminators of the language. *)
Definition isWhiteSpace (c : N) : bool :=
  ((9 <=? c) && (c <=? 13)) || (c =? 32) || (c =? 160) || (c =? 5760) ||
  ((8192 <=? c) && (c <=? 8202)) || (c =? 8232) || (c =? 8233) ||
  (c =? 8239) || (c =? 8287) || (c =? 12288) || (c =? 65279).

Fixpoint trimStart (s : String16) : String16 :=
  match s with
  | c :: rest => if isWhiteSpace c then trimStart rest else s
  | [] => []
  end.

(** Drops trailing white space. *)
Fixpoint trimEnd (s : String16) : String16 :=
  match s with
  | [] => []
  | c :: rest =>
      match trimEnd rest with
      | [] => if isWhiteSpace c then [] else [c]
      | rest' => c :: rest'
      end
  end.

Definition trim (s : String16) : String16 := trimEnd (trimStart s).

(** [s.replace(/\s+/g, ' ')]: each maximal run of white space becomes one
    space.  [inRun] says that the previous code unit was white space. *)
Fixpoint collapseFrom (inRun : bool) (s : String16) : String16 :=
  match s with
  | [] => []
  | c :: rest =>
      if isWhiteSpace c then
        if inRun then collapseFrom true rest
        else 32 :: collapseFrom true rest
      else c :: collapseFrom false rest
  end.

Definition collapseWhiteSpace (s : String16) : String16 := collapseFrom false s.

(** [s.split(sep)] for a separator of one code unit; never the empty list. *)
Fixpoint split (sep : N) (s : String16) : list String16 :=
  match s with
  | [] => [[]]
  | c :: rest =>
      if c =? sep then [] :: split sep rest
      else match split sep rest with
           | w :: ws => (c :: w) :: ws
           | [] => [[c]]
           end
  end.

(** [a === b] on strings. *)
Definition eqb (a b : String16) : bool := bool_decide (a = b).

(** [words.includes(word)]. *)
Definition arrayIncludes (words : list String16) (word : String16) : bool :=
  existsb (eqb word) words.

Fixpoint startsWith (text needle : String16) : bool :=
  match needle, text with
  | [], _ => true
  | n :: needle', t :: text' => (n =? t) && startsWith text' needle'
  | _ :: _, [] => false
  end.

(** [text.includes(needle)]. *)
Fixpoint includes (text needle : String16) : bool :=
  startsWith text needle ||
  match text with
  | [] => false
  | _ :: rest => includes rest needle
  end.

(** The code units of a code point: itself, or its surrogate pair. *)
Definition codeUnits (codePoint : N) : String16 :=
  if codePoint <? 65536 then [codePoint]
  else [55296 + (codePoint - 65536) / 1024; 56320 + (codePoint - 65536) mod 1024].

(** The code units of the text that a literal of this file shows: the
    literal holds the UTF-8 bytes of the text.  [pending] counts the bytes
    still to come for the code point collected in [acc]. *)
Fixpoint decode (pending : nat) (acc : N) (s : string) : String16 :=
  match s with
  | EmptyString => []
  | String c rest =>
      let b := N_of_ascii c in
      match pending with
      | O =>
          if b <? 128 then b :: decode 0 0 rest
          else if b <? 224 then decode 1 (b - 192) rest
          else if b <? 240 then decode 2 (b - 224) rest
          else decode 3 (b - 240) rest
      | S O => codeUnits (acc * 64 + (b - 128)) ++ decode 0 0 rest
      | S p => decode p (acc * 64 + (b - 128)) rest
      end
  end.

Definition utf16 (s : string) : String16 := decode 0 0 s.
End CodeUnits.

(** [String.prototype.toUpperCase] and [String.prototype.toLowerCase]: the
    case mappings of Unicode, which the code takes from the language. *)
Class CaseMapping : Type := {
  toUpperCase : String16 -> String16;
  toLowerCase : String16 -> String16
}.

Section Latin1.
Local Open Scope N_scope.

(** The two mappings on the code units below 256, as Unicode defines them:
    the letters of Basic Latin and of the Latin-1 Supplement; the sharp s
    becomes two letters, and the micro sign and the y with diaeresis leave
    the first 256 code points.  Code units from 256 on are left as they are,
    so the mappings below are those of the language on the strings of code
    units below 256. *)
Definition upperUnit (c : N) : String16 :=
  if (97 <=? c) && (c <=? 122) then [c - 32]
  else if c =? 181 then [924]
  else if c =? 223 then [83; 83]
  else if (224 <=? c) && (c <=? 254) && negb (c =? 247) then [c - 32]
  else if c =? 255 then [376]
  else [c].

Definition lowerUnit (c : N) : N :=
  if (65 <=? c) && (c <=? 90) then c + 32
  else if (192 <=? c) && (c <=? 222) && negb (c =? 215) then c + 32
  else c.

Definition latin1 : CaseMapping := {|
  toUpperCase := flat_map upperUnit;
  toLowerCase := List.map lowerUnit
|}.
End Latin1.
End Utf16.

(** ** [lib/1099-to-1040-mapping.ts] *)

Module Form1099ToForm1040Mapper.
Import Js.

Inductive FilingStatus : Type :=
| SINGLE
| MARRIED_FILING_JOINTLY
| MARRIED_FILING_SEPARATELY
| HEAD_OF_HOUSEHOLD
| QUALIFYING_SURVIVING_SPOUSE.

(** [Partial<Form1040Data>]: the numeric properties by name ([line1],
    [line2b], ...; the properties of the nested side-schedule objects under
    their dotted path, such as [scheduleA.stateTaxWithheld]), the filing
    status, and the one non-numeric side-schedule property the mapping
    writes.  The name, identifier and address properties are left out: the
    mapping fills them from text alone and no amount depends on them. *)
Record Form1040Data : Type := {
  amounts : gmap string Q;
  filingStatus : option FilingStatus;
  foreignCountry : option JsValue
}.

(** [{}] *)
Definition emptyForm : Form1040Data :=
  {| amounts := ∅; filingStatus := None; foreignCountry := None |}.

(** [form.line] *)
Definition get (f : Form1040Data) (line : string) : option Q :=
  amounts f !! line.

(** [form.line = v] *)
Definition set (line : string) (v : Q) (f : Form1040Data) : Form1040Data :=
  {| amounts := <[line := v]> (amounts f);
     filingStatus := filingStatus f;
     foreignCountry := foreignCountry f |}.

(** [form.line = v] for a [v] that may be [undefined]; the line then reads
    [undefined] again. *)
Definition setOptional (line : string) (v : option Q) (f : Form1040Data)
    : Form1040Data :=
  {| amounts := partial_alter (fun _ => v) line (amounts f);
     filingStatus := filingStatus f;
     foreignCountry := foreignCountry f |}.

Definition setForeignCountry (v : JsValue) (f : Form1040Data) : Form1040Data :=
  {| amounts := amounts f;
     filingStatus := filingStatus f;
     foreignCountry := Some v |}.

(** The 1099 document handed to the mapper: its own properties and, when
    present, the object under [extractedData]. *)
Record Form1099Data : Type := {
  extractedData : option (gmap string JsValue);
  fields : gmap string JsValue
}.

Definition actual1099Data (d : Form1099Data) : gmap string JsValue :=
  match extractedData d with
  | Some nested => nested
  | None => fields d
  end.

Definition isCleanedAway (c : ascii) : bool :=
  Ascii.eqb c "$"%char || Ascii.eqb c ","%char || isWhiteSpace c.

Fixpoint parseAmount (value : JsValue) : Q :=
  match value with
  | JsUndefined | JsNull => 0
  | JsNumber q => q
  | JsNaN => 0
  | JsString s => default 0 (parseFloat (removeChars isCleanedAway s))
  | JsObject v c =>
      match v, c with
      | JsUndefined, JsUndefined => 0
      | JsUndefined, _ => parseAmount c
      | _, _ => parseAmount v
      end
  | JsArray _ => 0
  end.

Record TaxBracket : Type := {
  min : Q;
  max : option Q;   (* [None] is [Infinity] *)
  rate : Q
}.

Definition bracket (lo hi : Q) (r : Q) : TaxBracket :=
  {| min := lo; max := Some hi; rate := r |}.

Definition lastBracket (lo : Q) (r : Q) : TaxBracket :=
  {| min := lo; max := None; rate := r |}.

Definition bracketsMarriedFilingJointly : list TaxBracket :=
  [ bracket 0 22000 0.10;
    bracket 22000 89450 0.12;
    bracket 89450 190750 0.22;
    bracket 190750 364200 0.24;
    bracket 364200 462500 0.32;
    bracket 462500 693750 0.35;
    lastBracket 693750 0.37 ].

Definition bracketsDefault : list TaxBracket :=
  [ bracket 0 11000 0.10;
    bracket 11000 44725 0.12;
    bracket 44725 95375 0.22;
    bracket 95375 182050 0.24;
    bracket 182050 231250 0.32;
    bracket 231250 578125 0.35;
    lastBracket 578125 0.37 ].

(** [Math.min(remainingIncome, bracket.max - bracket.min)] *)
Definition taxableAtThisBracket (remainingIncome : Q) (b : TaxBracket) : Q :=
  match max b with
  | Some hi => Qmin remainingIncome (hi - min b)
  | None => remainingIncome
  end.

(** The [for (const bracket of brackets)] loop, with its two variables. *)
Fixpoint bracketLoop (brackets : list TaxBracket) (tax remainingIncome : Q) : Q :=
  match brackets with
  | [] => tax
  | b :: rest =>
      if Qle_bool remainingIncome 0 then tax
      else
        let t := taxableAtThisBracket remainingIncome b in
        bracketLoop rest (tax + t * rate b) (remainingIncome - t)
  end.

(** [Math.round(x)]: the nearest integer, a half rounding up. *)
Definition mathRound (x : Q) : Z := Qfloor (x + (1 # 2)).

Definition calculateTaxLiability
    (taxableIncome : Q) (status : option FilingStatus) : Q :=
  let brackets :=
    match status with
    | Some MARRIED_FILING_JOINTLY => bracketsMarriedFilingJointly
    | _ => bracketsDefault
    end in
  let tax := bracketLoop brackets 0 taxableIncome in
  inject_Z (mathRound (tax * 100)) / 100.

Definition STANDARD_DEDUCTION_2023 (status : FilingStatus) : Q :=
  match status with
  | SINGLE => 13850
  | MARRIED_FILING_JOINTLY => 27700
  | MARRIED_FILING_SEPARATELY => 13850
  | HEAD_OF_HOUSEHOLD => 20800
  | QUALIFYING_SURVIVING_SPOUSE => 27700
  end.

Definition getStandardDeduction (status : option FilingStatus) : Q :=
  match status with
  | Some st => STANDARD_DEDUCTION_2023 st
  | None => STANDARD_DEDUCTION_2023 SINGLE
  end.

Definition calculateTotalIncome (f : Form1040Data) : Q :=
  or0 (get f "line1") + or0 (get f "line2b") + or0 (get f "line3b") +
  or0 (get f "line4b") + or0 (get f "line5b") + or0 (get f "line6b") +
  or0 (get f "line7") + or0 (get f "line8").

(** The statements of [recalculateForm1040Totals], one function each. *)

(** Line 9: [form.line9 = this.calculateTotalIncome(form)] *)
Definition totalIncomeStep (f : Form1040Data) : Form1040Data :=
  set "line9" (calculateTotalIncome f) f.

(** Line 11: [form.line11 = form.line9] *)
Definition adjustedGrossIncomeStep (f : Form1040Data) : Form1040Data :=
  setOptional "line11" (get f "line9") f.

(** Line 12:
    [if (!form.line12 && form.filingStatus) form.line12 = getStandardDeduction(...)] *)
Definition standardDeductionStep (f : Form1040Data) : Form1040Data :=
  match filingStatus f with
  | Some st =>
      if falsyAmount (get f "line12")
      then set "line12" (getStandardDeduction (Some st)) f
      else f
  | None => f
  end.

(** Line 15:
    [Math.max(0, (line11 || 0) - (line12 || 0) - (line13 || 0))] *)
Definition taxableIncomeStep (f : Form1040Data) : Form1040Data :=
  set "line15"
    (Qmax 0 (or0 (get f "line11") - or0 (get f "line12") - or0 (get f "line13")))
    f.

(** Line 16: [this.calculateTaxLiability(form.line15 || 0, form.filingStatus)] *)
Definition taxLiabilityStep (f : Form1040Data) : Form1040Data :=
  set "line16" (calculateTaxLiability (or0 (get f "line15")) (filingStatus f)) f.

(** Line 24: [(line16 || 0) + (line17 || 0) + (line23 || 0)] *)
Definition totalTaxStep (f : Form1040Data) : Form1040Data :=
  set "line24"
    (or0 (get f "line16") + or0 (get f "line17") + or0 (get f "line23")) f.

(** Line 32: [(line25a || 0) + (line25b || 0) + (line25c || 0) + (line25d || 0)] *)
Definition totalPaymentsStep (f : Form1040Data) : Form1040Data :=
  set "line32"
    (or0 (get f "line25a") + or0 (get f "line25b") +
     or0 (get f "line25c") + or0 (get f "line25d")) f.

(** Lines 33, 34 and 37: refund or amount owed. *)
Definition refundOrAmountOwedStep (f : Form1040Data) : Form1040Data :=
  let totalTax := or0 (get f "line24") in
  let totalPayments := or0 (get f "line32") in
  if Qlt_bool totalTax totalPayments then
    let refund := totalPayments - totalTax in
    set "line37" 0 (set "line34" refund (set "line33" refund f))
  else
    set "line37" (totalTax - totalPayments) (set "line34" 0 (set "line33" 0 f)).

Definition recalculateForm1040Totals (f : Form1040Data) : Form1040Data :=
  let f := totalIncomeStep f in
  let f := adjustedGrossIncomeStep f in
  let f := standardDeductionStep f in
  let f := taxableIncomeStep f in
  let f := taxLiabilityStep f in
  let f := totalTaxStep f in
  let f := totalPaymentsStep f in
  refundOrAmountOwedStep f.

(** [if (v > 0) form.line = (form.line || 0) + v] *)
Definition addTo (line : string) (v : Q) (f : Form1040Data) : Form1040Data :=
  if Qlt_bool 0 v then set line (or0 (get f line) + v) f else f.

(** Box 9: [if (v > 0) form.amtAdjustments.privateActivityBondInterest = v] *)
Definition assignTo (line : string) (v : Q) (f : Form1040Data) : Form1040Data :=
  if Qlt_bool 0 v then set line v f else f.

(** Box 11: [if (v > 0) form.line2b = Math.max(0, (form.line2b || 0) - v)] *)
Definition reduceBy (line : string) (v : Q) (f : Form1040Data) : Form1040Data :=
  if Qlt_bool 0 v then set line (Qmax 0 (or0 (get f line) - v)) f else f.

(** Box 6, with the country it comes from. *)
Definition addForeignTax (d : gmap string JsValue) (v : Q) (f : Form1040Data)
    : Form1040Data :=
  if Qlt_bool 0 v then
    let f := set "foreignTaxCredit.foreignTaxPaid"
               (or0 (get f "foreignTaxCredit.foreignTaxPaid") + v) f in
    setForeignCountry (jsOr (prop d "foreignCountry") (JsString "Unknown")) f
  else f.

Definition federalTaxWithheldValue (d : gmap string JsValue) : JsValue :=
  jsOr (jsOr (prop d "federalTaxWithheld") (prop d "FederalIncomeTaxWithheld"))
       (prop d "FederalIncomeTaxWithheld").

(** The income part of [map1099ToForm1040], statement by statement, before
    the totals are recomputed. *)
Definition mapIncome (d : gmap string JsValue) (f : Form1040Data) : Form1040Data :=
  let amount key := parseAmount (prop d key) in
  let f := addTo "line2b" (amount "interestIncome") f in
  let f := addTo "line2b" (amount "interestOnUSavingsBonds") f in
  let f := addTo "line2a" (amount "taxExemptInterest") f in
  let f := assignTo "amtAdjustments.privateActivityBondInterest"
             (amount "specifiedPrivateActivityBondInterest") f in
  let f := addTo "line2b" (amount "marketDiscount") f in
  let f := reduceBy "line2b" (amount "bondPremium") f in
  let f := addTo "scheduleA.stateTaxWithheld" (amount "stateTaxWithheld") f in
  let f := addTo "stateData.interestIncome" (amount "stateInterest") f in
  let f := addTo "schedule1.earlyWithdrawalPenalty"
             (amount "earlyWithdrawalPenalty") f in
  let f := addTo "scheduleA.investmentExpenses" (amount "investmentExpenses") f in
  let f := addForeignTax d (amount "foreignTaxPaid") f in
  let f := addTo "line3b" (amount "ordinaryDividends") f in
  let f := addTo "line3a" (amount "qualifiedDividends") f in
  let f := addTo "line7" (amount "totalCapitalGain") f in
  let f := addTo "line8" (amount "rents") f in
  let f := addTo "line8" (amount "royalties") f in
  let f := addTo "line8" (amount "otherIncome") f in
  let f := addTo "line8" (amount "nonemployeeCompensation") f in
  addTo "line25a" (parseAmount (federalTaxWithheldValue d)) f.

Definition map1099ToForm1040
    (form1099Data : Form1099Data) (existingForm1040 : Form1040Data)
    : Form1040Data :=
  recalculateForm1040Totals
    (mapIncome (actual1099Data form1099Data) existingForm1040).
End Form1099ToForm1040Mapper.

(** ** [src/forms/base/abstract-form.ts] *)

Module AbstractForm1040.
Import Js.
Import Form1099ToForm1040Mapper (FilingStatus, Form1040Data, TaxBracket, get,
  filingStatus, taxableAtThisBracket, bracketLoop, mathRound).

(** The abstract methods a concrete form supplies. *)
Class Form1040Methods : Type := {
  getStandardDeduction : option FilingStatus -> Q;
  getTaxBrackets : option FilingStatus -> list TaxBracket
}.

Section CommonMethods.
Context `{Form1040Methods}.
Variable formData : Form1040Data.

Definition calculateTotalIncome : Q :=
  or0 (get formData "line1") + or0 (get formData "line2b") +
  or0 (get formData "line3b") + or0 (get formData "line4b") +
  or0 (get formData "line5b") + or0 (get formData "line6b") +
  or0 (get formData "line7") + or0 (get formData "line8").

Definition calculateAGI : Q :=
  let totalIncome := calculateTotalIncome in
  totalIncome - or0 (get formData "line10").

Definition calculateTaxableIncome : Q :=
  let agi := calculateAGI in
  let standardDeduction := getStandardDeduction (filingStatus formData) in
  let deductions := Qmax standardDeduction (or0 (get formData "line12")) in
  let qbiDeduction := or0 (get formData "line13") in
  Qmax 0 (agi - deductions - qbiDeduction).

Definition calculateTaxLiability
    (taxableIncome : Q) (status : option FilingStatus) : Q :=
  let brackets := getTaxBrackets status in
  let tax := bracketLoop brackets 0 taxableIncome in
  inject_Z (mathRound (tax * 100)) / 100.
End CommonMethods.

(** The standard form ([Standard1040Form], in
    [src/profile/eligibility-service.ts]) and its 2023 configuration. *)
Module Standard1040Form.
Import Form1099ToForm1040Mapper (SINGLE, MARRIED_FILING_JOINTLY,
  MARRIED_FILING_SEPARATELY, HEAD_OF_HOUSEHOLD, QUALIFYING_SURVIVING_SPOUSE,
  bracket, lastBracket).

Definition standardDeductions (status : FilingStatus) : Q :=
  match status with
  | SINGLE => 13850
  | MARRIED_FILING_JOINTLY => 27700
  | MARRIED_FILING_SEPARATELY => 13850
  | HEAD_OF_HOUSEHOLD => 20800
  | QUALIFYING_SURVIVING_SPOUSE => 27700
  end.

Definition jointBrackets : list TaxBracket :=
  [ bracket 0 22000 0.10; bracket 22000 89450 0.12; bracket 89450 190750 0.22;
    bracket 190750 364200 0.24; bracket 364200 462500 0.32;
    bracket 462500 693750 0.35; lastBracket 693750 0.37 ].

Definition taxBrackets (status : FilingStatus) : list TaxBracket :=
  match status with
  | SINGLE =>
      [ bracket 0 11000 0.10; bracket 11000 44725 0.12; bracket 44725 95375 0.22;
        bracket 95375 182050 0.24; bracket 182050 231250 0.32;
        bracket 231250 578125 0.35; lastBracket 578125 0.37 ]
  | MARRIED_FILING_JOINTLY => jointBrackets
  | MARRIED_FILING_SEPARATELY =>
      [ bracket 0 11000 0.10; bracket 11000 44725 0.12; bracket 44725 95375 0.22;
        bracket 95375 182050 0.24; bracket 182050 231250 0.32;
        bracket 231250 346875 0.35; lastBracket 346875 0.37 ]
  | HEAD_OF_HOUSEHOLD =>
      [ bracket 0 15700 0.10; bracket 15700 59850 0.12; bracket 59850 95350 0.22;
        bracket 95350 182050 0.24; bracket 182050 231250 0.32;
        bracket 231250 578100 0.35; lastBracket 578100 0.37 ]
  | QUALIFYING_SURVIVING_SPOUSE => jointBrackets
  end.

(** [config.standardDeductions[status] || config.standardDeductions[SINGLE]],
    and the same for the brackets. *)
#[export] Instance methods : Form1040Methods := {
  getStandardDeduction status := standardDeductions (default SINGLE status);
  getTaxBrackets status := taxBrackets (default SINGLE status)
}.
End Standard1040Form.
End AbstractForm1040.

(** ** [lib/azure-document-intelligence-service.ts] *)

Module AzureDocumentIntelligenceService.
Import Js.

(** [ExtractedFieldData] *)
Abbreviation ExtractedFieldData := (gmap string JsValue).

Definition isCurrencyMark (c : ascii) : bool :=
  Ascii.eqb c "$"%char || Ascii.eqb c ","%char.

(** [parseAmount]; [None] is [NaN], which only a [NaN] argument gives. *)
Definition parseAmount (value : JsValue) : option Q :=
  match value with
  | JsNumber q => Some q
  | JsNaN => None
  | JsString s => Some (default 0 (parseFloat (removeChars isCurrencyMark s)))
  | _ => Some 0
  end.

(** [this.parseAmount(v) || 0] *)
Definition amountOr0 (value : JsValue) : Q := default 0 (parseAmount value).

(** *** Reconciliation of the 1099-MISC fields *)

Definition criticalFields : list string :=
  [ "otherIncome"; "fishingBoatProceeds"; "medicalHealthPayments";
    "rents"; "royalties"; "federalTaxWithheld" ].

(** The body of the [for (const field of criticalFields)] loop. *)
Definition correctCriticalField (structuredData ocrData : ExtractedFieldData)
    (correctedData : ExtractedFieldData) (field : string) : ExtractedFieldData :=
  let structuredValue := amountOr0 (prop structuredData field) in
  let ocrValue := amountOr0 (prop ocrData field) in
  if Qlt_bool 100 (Qabs (structuredValue - ocrValue)) then
    <[field := JsNumber ocrValue]> correctedData
  else if (Qeq_bool structuredValue 0 || negb (truthy (prop structuredData field)))
          && Qlt_bool 0 ocrValue then
    <[field := JsNumber ocrValue]> correctedData
  else correctedData.

(** Pattern 1: other income found under fishing boat proceeds.  The
    comparisons are false on [NaN]. *)
Definition correctOtherIncomeFishingSwap (structuredData ocrData : ExtractedFieldData)
    (correctedData : ExtractedFieldData) : ExtractedFieldData :=
  if truthy (prop structuredData "fishingBoatProceeds")
     && negb (truthy (prop structuredData "otherIncome"))
     && truthy (prop ocrData "otherIncome")
     && truthy (prop ocrData "fishingBoatProceeds") then
    match parseAmount (prop structuredData "fishingBoatProceeds"),
          parseAmount (prop ocrData "otherIncome"),
          parseAmount (prop ocrData "fishingBoatProceeds") with
    | Some structuredFishing, Some ocrOther, Some ocrFishing =>
        if Qlt_bool (Qabs (structuredFishing - ocrOther)) 100
           && negb (Qeq_bool ocrFishing structuredFishing) then
          <["fishingBoatProceeds" := JsNumber ocrFishing]>
            (<["otherIncome" := JsNumber ocrOther]> correctedData)
        else correctedData
    | _, _, _ => correctedData
    end
  else correctedData.

Definition adjacentBoxPairs : list (string * string) :=
  [ ("rents", "royalties");
    ("royalties", "otherIncome");
    ("otherIncome", "federalTaxWithheld");
    ("federalTaxWithheld", "fishingBoatProceeds");
    ("fishingBoatProceeds", "medicalHealthPayments") ].

(** Pattern 2: the body of the loop over [adjacentBoxPairs]. *)
Definition correctAdjacentSwap (structuredData ocrData : ExtractedFieldData)
    (correctedData : ExtractedFieldData) (pair : string * string)
    : ExtractedFieldData :=
  let '(field1, field2) := pair in
  let struct1 := amountOr0 (prop structuredData field1) in
  let struct2 := amountOr0 (prop structuredData field2) in
  let ocr1 := amountOr0 (prop ocrData field1) in
  let ocr2 := amountOr0 (prop ocrData field2) in
  if Qlt_bool 0 struct1 && Qlt_bool 0 struct2
     && Qlt_bool 0 ocr1 && Qlt_bool 0 ocr2 then
    if Qlt_bool (Qabs (struct1 - ocr2)) 100
       && Qlt_bool (Qabs (struct2 - ocr1)) 100 then
      <[field2 := JsNumber ocr2]> (<[field1 := JsNumber ocr1]> correctedData)
    else correctedData
  else correctedData.

(** The first pass alone: the loop over the critical fields. *)
Definition correctCriticalFields (structuredData ocrData : ExtractedFieldData)
    : ExtractedFieldData :=
  foldl (correctCriticalField structuredData ocrData) structuredData criticalFields.

(** [validateAndCorrect1099MiscFields(structuredData, ocrText)].  The second
    argument here is what the first statement of the source computes from
    the text, [this.extract1099MiscFieldsFromOCR(ocrText, {fullText})]: the
    text-pattern readings. *)
Definition validateAndCorrect1099MiscFields
    (structuredData ocrData : ExtractedFieldData) : ExtractedFieldData :=
  let correctedData := correctCriticalFields structuredData ocrData in
  let correctedData :=
    correctOtherIncomeFishingSwap structuredData ocrData correctedData in
  foldl (correctAdjacentSwap structuredData ocrData) correctedData adjacentBoxPairs.

(** *** Classification from the recognised text *)

(** [for (const indicator of indicators) if (text.includes(indicator)) score++] *)
Fixpoint countIndicators (text : string) (indicators : list string) : nat :=
  match indicators with
  | [] => 0
  | indicator :: rest =>
      (if includes text indicator then 1 else 0) + countIndicators text rest
  end.

Definition w2Indicators : list string :=
  [ "form w-2"; "wage and tax statement"; "wages, tips, other compensation";
    "federal income tax withheld"; "social security wages"; "medicare wages" ].

Definition form1099Indicators : list string :=
  [ "form 1099"; "1099-"; "payer"; "recipient"; "tin" ].

Definition detectFormType (ocrText : string) : string :=
  let text := toLowerCase ocrText in
  let w2Score := countIndicators text w2Indicators in
  let form1099Score := countIndicators text form1099Indicators in
  if (form1099Score <? w2Score)%nat then "W2"
  else if (0 <? form1099Score)%nat then "1099"
  else "UNKNOWN".

Record FormPattern : Type := {
  type : string;
  indicators : list string
}.

Definition formTypePatterns : list FormPattern :=
  [ {| type := "FORM_1099_DIV";
       indicators :=
         [ "form 1099-div"; "dividends and distributions"; "ordinary dividends";
           "qualified dividends"; "total capital gain distributions";
           "capital gain distributions" ] |};
    {| type := "FORM_1099_INT";
       indicators :=
         [ "form 1099-int"; "interest income"; "early withdrawal penalty";
           "interest on u.s. treasury obligations"; "investment expenses" ] |};
    {| type := "FORM_1099_MISC";
       indicators :=
         [ "form 1099-misc"; "miscellaneous income"; "nonemployee compensation";
           "rents"; "royalties"; "fishing boat proceeds" ] |};
    {| type := "FORM_1099_NEC";
       indicators := [ "form 1099-nec"; "nonemployee compensation"; "nec" ] |} ].

(** [bestMatch], a pair of a type and its score. *)
Definition scoreFormPattern (text : string) (bestMatch : string * nat)
    (formPattern : FormPattern) : string * nat :=
  let score := countIndicators text (indicators formPattern) in
  if (bestMatch.2 <? score)%nat then (type formPattern, score) else bestMatch.

Definition detectSpecific1099Type (ocrText : string) : string :=
  let text := toLowerCase ocrText in
  let bestMatch :=
    foldl (scoreFormPattern text) ("FORM_1099_MISC", 0%nat) formTypePatterns in
  bestMatch.1.

Definition analyzeDocumentTypeFromOCR (ocrText : string) : string :=
  let formType := detectFormType ocrText in
  if String.eqb formType "W2" then "W2"
  else if String.eqb formType "1099" then detectSpecific1099Type ocrText
  else "UNKNOWN".

(** *** Text-pattern extraction of the 1099-INT fields

    The regular expressions of [extract1099IntFieldsFromOCR] are matched by
    hand-written matchers that follow the backtracking order of the engine. *)

(** One element of a field label: a character, or [c?]. *)
Inductive LabelAtom : Type :=
| Lit (c : ascii)
| Opt (c : ascii).

(** Reads a label as the source writes it: [\c?] is an optional character,
    [\c] an escaped one, anything else stands for itself. *)
Fixpoint compileLabel (label : string) : list LabelAtom :=
  match label with
  | EmptyString => []
  | String c rest =>
      if Ascii.eqb c "\"%char then
        match rest with
        | String e tail =>
            match tail with
            | String q rest' =>
                if Ascii.eqb q "?"%char then Opt e :: compileLabel rest'
                else Lit e :: compileLabel tail
            | EmptyString => [Lit e]
            end
        | EmptyString => []
        end
      else Lit c :: compileLabel rest
  end.

(** Character equality under the [i] flag. *)
Definition sameCharIgnoreCase (a b : ascii) : bool :=
  Ascii.eqb (upperChar a) (upperChar b).

(** Matches the label at the start of [s]; the rest of [s] on success. *)
Fixpoint matchLabel (label : list LabelAtom) (s : string) : option string :=
  match label with
  | [] => Some s
  | Lit c :: label' =>
      match s with
      | String x rest =>
          if sameCharIgnoreCase x c then matchLabel label' rest else None
      | EmptyString => None
      end
  | Opt c :: label' =>
      match s with
      | String x rest =>
          if sameCharIgnoreCase x c then
            match matchLabel label' rest with
            | Some r => Some r
            | None => matchLabel label' s
            end
          else matchLabel label' s
      | EmptyString => matchLabel label' s
      end
  end.

(** Matches a literal at the start of [s]; the rest of [s] on success. *)
Fixpoint matchLiteral (literal s : string) : option string :=
  match literal with
  | EmptyString => Some s
  | String c literal' =>
      match s with
      | String x rest =>
          if sameCharIgnoreCase x c then matchLiteral literal' rest else None
      | EmptyString => None
      end
  end.

(** [box\s+label] at the start of [s].  Every label begins with a letter, so
    the greedy [\s+] takes the whole run of white space. *)
Definition matchBoxLabel (boxNumber : string) (label : list LabelAtom)
    (s : string) : option string :=
  match matchLiteral boxNumber s with
  | Some (String c rest) =>
      if isWhiteSpace c then matchLabel label (trimStart rest) else None
  | _ => None
  end.

(** The lookahead [(?=next\s+|$)]. *)
Definition atSectionEnd (nextBoxNumber : string) (s : string) : bool :=
  match s with
  | EmptyString => true
  | _ =>
      match matchLiteral nextBoxNumber s with
      | Some (String c _) => isWhiteSpace c
      | _ => false
      end
  end.

(** The lazy group [([\s\S]*?)] in front of the lookahead. *)
Fixpoint takeSection (nextBoxNumber : string) (s : string) : string :=
  if atSectionEnd nextBoxNumber s then EmptyString
  else
    match s with
    | EmptyString => EmptyString
    | String c rest => String c (takeSection nextBoxNumber rest)
    end.

(** [ocrText.match(sectionPattern)]: group 1 of the leftmost match. *)
Fixpoint sectionMatch (boxNumber : string) (label : list LabelAtom)
    (nextBoxNumber : string) (s : string) : option string :=
  match matchBoxLabel boxNumber label s with
  | Some rest => Some (takeSection nextBoxNumber rest)
  | None =>
      match s with
      | EmptyString => None
      | String _ rest => sectionMatch boxNumber label nextBoxNumber rest
      end
  end.

Definition isAmountChar (c : ascii) : bool := isDigit c || Ascii.eqb c ","%char.

Fixpoint takeWhile (p : ascii -> bool) (s : string) : string :=
  match s with
  | String c rest => if p c then String c (takeWhile p rest) else EmptyString
  | EmptyString => EmptyString
  end.

Fixpoint dropWhile (p : ascii -> bool) (s : string) : string :=
  match s with
  | String c rest => if p c then dropWhile p rest else s
  | EmptyString => EmptyString
  end.

(** [\d{0,2}] at the start of [s]. *)
Definition takeTwoDigits (s : string) : string :=
  match s with
  | String a rest =>
      if isDigit a then
        match rest with
        | String b _ => if isDigit b then String a (String b EmptyString)
                        else String a EmptyString
        | EmptyString => String a EmptyString
        end
      else EmptyString
  | EmptyString => EmptyString
  end.

(** [[0-9,]+\.?\d{0,2}] at the start of [s], which begins with [[0-9,]]. *)
Definition takeAmount (s : string) : string :=
  let run := takeWhile isAmountChar s in
  match dropWhile isAmountChar s with
  | String c rest =>
      if Ascii.eqb c "."%char then run +:+ String c (takeTwoDigits rest)
      else run +:+ takeTwoDigits (String c rest)
  | EmptyString => run
  end.

(** [section.match(/([0-9,]+\.?\d{0,2})/)]: group 1 of the leftmost match. *)
Fixpoint valueMatch (section : string) : option string :=
  match section with
  | EmptyString => None
  | String c rest =>
      if isAmountChar c then Some (takeAmount section) else valueMatch rest
  end.

(** A [number] result as a value. *)
Definition numberValue (n : option Q) : JsValue :=
  match n with
  | Some q => JsNumber q
  | None => JsNaN
  end.

Definition isComma (c : ascii) : bool := Ascii.eqb c ","%char.

Definition extractFieldValue (ocrText : string)
    (boxNumber fieldLabel nextBoxNumber : string) : JsValue :=
  match sectionMatch boxNumber (compileLabel fieldLabel) nextBoxNumber ocrText with
  | None => JsNumber 0
  | Some section =>
      match valueMatch section with
      | Some matched => numberValue (parseFloat (removeChars isComma matched))
      | None => JsNumber 0
      end
  end.

Definition isNameChar (c : ascii) : bool := isLetter c || isWhiteSpace c.

Definition isWordChar (c : ascii) : bool :=
  isLetter c || isDigit c || Ascii.eqb c "-"%char.

(** [[A-Za-z][A-Za-z\s]*[A-Za-z]] at the start of [s]: the greedy middle part
    gives back its trailing white space to end on a letter. *)
Definition matchWords (s : string) : option string :=
  match s with
  | String c rest =>
      if isLetter c then
        match trimEnd (takeWhile isNameChar rest) with
        | EmptyString => None
        | more => Some (String c more)
        end
      else None
  | EmptyString => None
  end.

(** [[A-Za-z0-9\-]+] at the start of [s]. *)
Definition matchToken (s : string) : option string :=
  match takeWhile isWordChar s with
  | EmptyString => None
  | token => Some token
  end.

(** [s.match(/([A-Za-z][A-Za-z\s]*[A-Za-z]|[A-Za-z0-9\-]+)/)]: group 1 of
    the leftmost match, the first alternative tried first. *)
Fixpoint textMatch (s : string) : option string :=
  match matchWords s with
  | Some m => Some m
  | None =>
      match matchToken s with
      | Some m => Some m
      | None =>
          match s with
          | EmptyString => None
          | String _ rest => textMatch rest
          end
      end
  end.

Definition extractTextFieldValue (ocrText : string)
    (boxNumber fieldLabel nextBoxNumber : string) : JsValue :=
  match sectionMatch boxNumber (compileLabel fieldLabel) nextBoxNumber ocrText with
  | None => JsString ""
  | Some section =>
      match textMatch (trim section) with
      | Some matched => JsString (trim matched)
      | None => JsString ""
      end
  end.

(** What [extractPersonalInfoFromOCR] returns, as far as this extractor
    reads it. *)
Module PersonalInfo.
Record t : Type := {
  name : option string;
  tin : option string;
  address : option string;
  payerName : option string;
  payerTIN : option string
}.
End PersonalInfo.

(** [if (info) data.key = info] *)
Definition assignIfPresent (key : string) (info : option string)
    (data : ExtractedFieldData) : ExtractedFieldData :=
  match info with
  | Some text => if String.eqb text "" then data else <[key := JsString text]> data
  | None => data
  end.

(** [extract1099IntFieldsFromOCR(ocrText, baseData)]; [personalInfo] is the
    result of [this.extractPersonalInfoFromOCR(ocrText)]. *)
Definition extract1099IntFieldsFromOCR (personalInfo : PersonalInfo.t)
    (ocrText : string) (baseData : ExtractedFieldData) : ExtractedFieldData :=
  let data := baseData in
  let data := assignIfPresent "recipientName" (PersonalInfo.name personalInfo) data in
  let data := assignIfPresent "recipientTIN" (PersonalInfo.tin personalInfo) data in
  let data := assignIfPresent "recipientAddress" (PersonalInfo.address personalInfo) data in
  let data := assignIfPresent "payerName" (PersonalInfo.payerName personalInfo) data in
  let data := assignIfPresent "payerTIN" (PersonalInfo.payerTIN personalInfo) data in
  let data := <["interestIncome" :=
    extractFieldValue ocrText "1" "Interest income" "2"]> data in
  let data := <["earlyWithdrawalPenalty" :=
    extractFieldValue ocrText "2" "Early withdrawal penalty" "3"]> data in
  let data := <["interestOnUSavingsBonds" :=
    extractFieldValue ocrText "3"
      "Interest on U\.?S\.? Savings Bonds and Treasury obligations" "4"]> data in
  let data := <["federalTaxWithheld" :=
    extractFieldValue ocrText "4" "Federal income tax withheld" "5"]> data in
  let data := <["investmentExpenses" :=
    extractFieldValue ocrText "5" "Investment expenses" "6"]> data in
  let data := <["foreignTaxPaid" :=
    extractFieldValue ocrText "6" "Foreign tax paid" "7"]> data in
  let data := <["foreignCountry" :=
    extractTextFieldValue ocrText "7" "Foreign country or U\.?S\.? possession" "8"]>
    data in
  let data := <["taxExemptInterest" :=
    extractFieldValue ocrText "8" "Tax-exempt interest" "9"]> data in
  let data := <["specifiedPrivateActivityBondInterest" :=
    extractFieldValue ocrText "9" "Specified private activity bond interest" "10"]>
    data in
  let data := <["marketDiscount" :=
    extractFieldValue ocrText "10" "Market discount" "11"]> data in
  let data := <["bondPremium" :=
    extractFieldValue ocrText "11" "Bond premium" "13"]> data in
  let data := <["stateTaxWithheld" :=
    extractFieldValue ocrText "13" "State tax withheld" "14"]> data in
  let data := <["statePayerNumber" :=
    extractTextFieldValue ocrText "14" "State/Payer's state no\." "15"]> data in
  <["stateInterest" := extractFieldValue ocrText "15" "State interest" "16"]> data.

(** The numeric fields of the interest statement, with the box number, the
    label and the number of the box that ends the section. *)
Definition numericFields1099Int : list (string * (string * string * string)) :=
  [ ("interestIncome", ("1", "Interest income", "2"));
    ("earlyWithdrawalPenalty", ("2", "Early withdrawal penalty", "3"));
    ("interestOnUSavingsBonds",
     ("3", "Interest on U\.?S\.? Savings Bonds and Treasury obligations", "4"));
    ("federalTaxWithheld", ("4", "Federal income tax withheld", "5"));
    ("investmentExpenses", ("5", "Investment expenses", "6"));
    ("foreignTaxPaid", ("6", "Foreign tax paid", "7"));
    ("taxExemptInterest", ("8", "Tax-exempt interest", "9"));
    ("specifiedPrivateActivityBondInterest",
     ("9", "Specified private activity bond interest", "10"));
    ("marketDiscount", ("10", "Market discount", "11"));
    ("bondPremium", ("11", "Bond premium", "13"));
    ("stateTaxWithheld", ("13", "State tax withheld", "14"));
    ("stateInterest", ("15", "State interest", "16")) ].

(** *** Selection of the primary employee record *)

Section PrimaryRecord.
Import Utf16.
Context `{CaseMapping}.

Record EmployeeRecord : Type := {
  name : option String16;
  ssn : option String16;
  address : option String16;
  confidence : Q;
  sourceText : String16
}.

(** Truthiness of an optional string. *)
Definition present (text : option String16) : bool :=
  match text with
  | Some t => negb (eqb t [])
  | None => false
  end.

Definition normalizeNameForMatching (name : String16) : String16 :=
  collapseWhiteSpace (toUpperCase (trim name)).

(** The test inside the [for (const record of employeeRecords)] loop: the
    record has a name that equals the target after normalisation, or holds
    every word of the target. *)
Definition matchesTarget (normalizedTarget : String16) (record : EmployeeRecord)
    : bool :=
  match name record with
  | Some recordName =>
      negb (eqb recordName []) &&
      (let normalizedRecordName := normalizeNameForMatching recordName in
       eqb normalizedRecordName normalizedTarget ||
       (let targetWords := split 32 normalizedTarget in
        let recordWords := split 32 normalizedRecordName in
        forallb (arrayIncludes recordWords) targetWords))
  | None => false
  end.

Definition calculateNameSimilarity (name1 name2 : String16) : Q :=
  let normalized1 := normalizeNameForMatching name1 in
  let normalized2 := normalizeNameForMatching name2 in
  if eqb normalized1 normalized2 then 1
  else
    let words1 := split 32 normalized1 in
    let words2 := split 32 normalized2 in
    let matchingWords := length (List.filter (arrayIncludes words2) words1) in
    let totalWords := Nat.max (length words1) (length words2) in
    inject_Z (Z.of_nat matchingWords) / inject_Z (Z.of_nat totalWords).

Definition looksLikeCompany (name : String16) : bool :=
  includes (toLowerCase name) (utf16 "inc") ||
  includes (toLowerCase name) (utf16 "llc") ||
  includes (toLowerCase name) (utf16 "corp").

(** [finalScore] of a record. *)
Definition finalScore (targetEmployeeName : option String16)
    (record : EmployeeRecord) : Q :=
  let score := confidence record in
  let score := if present (name record) then score + 10 else score in
  let score := if present (ssn record) then score + 20 else score in
  let score := if present (address record) then score + 15 else score in
  let score :=
    match name record with
    | Some n =>
        if present (Some n) && (length n <? 6)%nat then score - 10
        else score
    | None => score
    end in
  let score :=
    match name record with
    | Some n =>
        if present (Some n) && negb (looksLikeCompany n) then score + 5
        else score
    | None => score
    end in
  match targetEmployeeName, name record with
  | Some target, Some n =>
      if present (Some target) && present (Some n)
      then score + calculateNameSimilarity target n * 30
      else score
  | _, _ => score
  end.

(** [scoredRecords.sort((a, b) => b.finalScore - a.finalScore)]: a stable
    sort, highest score first.  A record goes in front of the records that do
    not score strictly higher. *)
Fixpoint insertByScore (x : EmployeeRecord * Q)
    (sorted : list (EmployeeRecord * Q)) : list (EmployeeRecord * Q) :=
  match sorted with
  | [] => [x]
  | y :: rest =>
      if Qlt_bool x.2 y.2 then y :: insertByScore x rest
      else x :: y :: rest
  end.

Definition sortByFinalScore (scored : list (EmployeeRecord * Q))
    : list (EmployeeRecord * Q) :=
  foldr insertByScore [] scored.

(** The target-name search of [selectPrimaryEmployeeRecord]. *)
Definition findByTargetName (employeeRecords : list EmployeeRecord)
    (targetEmployeeName : option String16) : option EmployeeRecord :=
  match targetEmployeeName with
  | Some target =>
      if present (Some target) then
        List.find (matchesTarget (normalizeNameForMatching target)) employeeRecords
      else None
  | None => None
  end.

(** [selectPrimaryEmployeeRecord]; the result is the chosen record (the
    source returns it with its [finalScore] added when it comes from the
    scoring). *)
Definition selectPrimaryEmployeeRecord (employeeRecords : list EmployeeRecord)
    (targetEmployeeName : option String16) : option EmployeeRecord :=
  match employeeRecords with
  | [] => None
  | [record] => Some record
  | _ =>
      match findByTargetName employeeRecords targetEmployeeName with
      | Some record => Some record
      | None =>
          let scoredRecords :=
            List.map (fun record => (record, finalScore targetEmployeeName record))
                     employeeRecords in
          match sortByFinalScore scoredRecords with
          | selected :: _ => Some selected.1
          | [] => None
          end
      end
  end.
End PrimaryRecord.
End AzureDocumentIntelligenceService.

(** ** [lib/1099-to-1040-mapping.ts]: validation before the mapping, and the
    taxpayer identification number *)

Module Form1099Validation.
Import Js.

(** The result of [validate1099DataForMapping]. *)
Record MappingValidation : Type := {
  isValid : bool;
  errors : list string;
  warnings : list string
}.

(** The properties whose presence counts as income data. *)
Definition incomeFields : list string :=
  [ "interestIncome"; "ordinaryDividends"; "qualifiedDividends";
    "totalCapitalGain"; "rents"; "royalties"; "otherIncome";
    "nonemployeeCompensation" ].

(** [data.interestIncome || data.ordinaryDividends || ...] *)
Definition hasIncomeData (form1099Data : gmap string JsValue) : JsValue :=
  let field key := prop form1099Data key in
  jsOr (jsOr (jsOr (jsOr (jsOr (jsOr (jsOr
    (field "interestIncome") (field "ordinaryDividends"))
    (field "qualifiedDividends")) (field "totalCapitalGain"))
    (field "rents")) (field "royalties")) (field "otherIncome"))
    (field "nonemployeeCompensation").

(** [if (!data.key) list.push(text)] *)
Definition pushIfMissing (form1099Data : gmap string JsValue) (key text : string)
    (messages : list string) : list string :=
  if truthy (prop form1099Data key) then messages else messages ++ [text].

Definition validate1099DataForMapping (form1099Data : gmap string JsValue)
    : MappingValidation :=
  let errors :=
    if truthy (hasIncomeData form1099Data) then []
    else ["No income data found in 1099 form"] in
  let warnings := [] in
  let warnings :=
    pushIfMissing form1099Data "recipientName"
      "Recipient name not found - personal info may not be auto-populated"
      warnings in
  let warnings :=
    pushIfMissing form1099Data "recipientTIN"
      "Recipient TIN not found - SSN field may not be auto-populated" warnings in
  let warnings :=
    pushIfMissing form1099Data "recipientAddress"
      "Recipient address not found - address fields may not be auto-populated"
      warnings in
  let warnings :=
    pushIfMissing form1099Data "payerName"
      "Payer name not found - may be needed for verification" warnings in
  let warnings :=
    pushIfMissing form1099Data "payerTIN"
      "Payer TIN not found - may be needed for verification" warnings in
  let warnings :=
    pushIfMissing form1099Data "federalTaxWithheld"
      "Federal tax withheld not found - no withholdings will be applied"
      warnings in
  {| isValid := Nat.eqb (length errors) 0;
     errors := errors;
     warnings := warnings |}.

(** [s.slice(from, to)] for [0 <= from <= to]. *)
Definition slice (from to : nat) (s : string) : string :=
  String.substring from (to - from) s.

(** [formatSSN(ssn)], for the string the signature asks for. *)
Definition formatSSN (ssn : string) : string :=
  if String.eqb ssn "" then ""
  else
    let cleaned := removeChars (fun c => negb (isDigit c)) ssn in
    if (String.length cleaned =? 9)%nat then
      slice 0 3 cleaned +:+ "-" +:+ slice 3 5 cleaned +:+ "-"
      +:+ String.substring 5 (String.length cleaned - 5) cleaned
    else cleaned.
End Form1099Validation.

(** ** [src/forms/base/abstract-form.ts]: the common validation *)

Module Form1040Validation.
Import Js.
Import Form1099ToForm1040Mapper (Form1040Data, get).

(** The properties of [Form1040Data] that the validation reads beside the
    record of amounts: the texts, [None] for a missing one, and the two
    entries of the bank account, of which only the truthiness is read. *)
Record FormTexts : Type := {
  firstName : option string;
  lastName : option string;
  ssn : option string;
  address : option string;
  spouseFirstName : option string;
  spouseLastName : option string;
  spouseSSN : option string;
  line35a : JsValue;
  line35c : JsValue
}.

Record FormValidationIssue : Type := {
  field : string;
  message : string;
  code : string
}.

Record FormValidationResult : Type := {
  isValid : bool;
  errors : list FormValidationIssue;
  warnings : list FormValidationIssue
}.

(** [!text?.trim()] *)
Definition blank (text : option string) : bool :=
  match text with
  | Some s => String.eqb (trim s) ""
  | None => true
  end.

(** [n] digits at the start of [s], and what follows them. *)
Fixpoint digitsThen (n : nat) (s : string) : option string :=
  match n with
  | O => Some s
  | S n' =>
      match s with
      | String c rest => if isDigit c then digitsThen n' rest else None
      | EmptyString => None
      end
  end.

(** [-?] at the start of [s]: what follows the hyphen, when there is one. *)
Definition optionalHyphen (s : string) : string :=
  match s with
  | String "-"%char rest => rest
  | _ => s
  end.

(** [/^\d{3}-?\d{2}-?\d{4}$/.test(s)].  A digit cannot stand where the
    hyphen is tried, so the match never has to give the hyphen back. *)
Definition matchesSSN (s : string) : bool :=
  match digitsThen 3 s with
  | Some s1 =>
      match digitsThen 2 (optionalHyphen s1) with
      | Some s2 =>
          match digitsThen 4 (optionalHyphen s2) with
          | Some EmptyString => true
          | _ => false
          end
      | None => false
      end
  | None => false
  end.

Definition issue (field message code : string) : FormValidationIssue :=
  {| field := field; message := message; code := code |}.

(** The two tests on the identification number: required, then well
    formed. *)
Definition ssnIssues (ssn : option string) : list FormValidationIssue :=
  match ssn with
  | Some text =>
      if String.eqb (trim text) "" then
        [issue "ssn" "Social Security Number is required" "REQUIRED_FIELD"]
      else if negb (matchesSSN text) then
        [issue "ssn" "Invalid Social Security Number format" "INVALID_FORMAT"]
      else []
  | None => [issue "ssn" "Social Security Number is required" "REQUIRED_FIELD"]
  end.

Definition validateCommonFields (texts : FormTexts) (formData : Form1040Data)
    : FormValidationResult :=
  let errors := [] in
  let warnings := [] in
  let errors :=
    if blank (firstName texts)
    then errors ++ [issue "firstName" "First name is required" "REQUIRED_FIELD"]
    else errors in
  let errors :=
    if blank (lastName texts)
    then errors ++ [issue "lastName" "Last name is required" "REQUIRED_FIELD"]
    else errors in
  let errors := errors ++ ssnIssues (ssn texts) in
  let warnings :=
    if blank (address texts)
    then warnings ++ [issue "address" "Address is recommended for tax filing"
                            "RECOMMENDED_FIELD"]
    else warnings in
  let errors :=
    if Qlt_bool (or0 (get formData "line1")) 0
    then errors ++ [issue "line1" "Wages cannot be negative" "INVALID_VALUE"]
    else errors in
  let warnings :=
    if Qlt_bool 1000000 (or0 (get formData "line1"))
    then warnings ++
         [issue "line1"
                "High income may require additional forms or professional review"
                "HIGH_VALUE_WARNING"]
    else warnings in
  {| isValid := Nat.eqb (length errors) 0;
     errors := errors;
     warnings := warnings |}.
End Form1040Validation.

(** ** [Standard1040Form]: the validation *)

Module Standard1040FormValidation.
Import Js.
Import Form1099ToForm1040Mapper (Form1040Data, get, filingStatus,
  MARRIED_FILING_JOINTLY).
Import Form1040Validation.

(** [(line1 || 0) > 0 || (line2b || 0) > 0 || ...] *)
Definition hasIncome (formData : Form1040Data) : bool :=
  Qlt_bool 0 (or0 (get formData "line1")) ||
  Qlt_bool 0 (or0 (get formData "line2b")) ||
  Qlt_bool 0 (or0 (get formData "line3b")) ||
  Qlt_bool 0 (or0 (get formData "line7")).

(** [formData.filingStatus === FilingStatus.MARRIED_FILING_JOINTLY] *)
Definition filesJointly (formData : Form1040Data) : bool :=
  match filingStatus formData with
  | Some MARRIED_FILING_JOINTLY => true
  | _ => false
  end.

(** The error about the bank account. *)
Definition bankError : FormValidationIssue :=
  issue "refund" "Bank account information required for direct deposit"
        "MISSING_BANK_INFO".

Definition validateStandardFormFields (texts : FormTexts)
    (formData : Form1040Data) : FormValidationResult :=
  let errors := [] in
  let warnings := [] in
  let warnings :=
    if negb (hasIncome formData)
    then warnings ++
         [issue "income" "No income reported - please verify this is correct"
                "NO_INCOME_WARNING"]
    else warnings in
  let errors :=
    if Qlt_bool 0 (or0 (get formData "line33"))
       && Qlt_bool 0 (or0 (get formData "line34"))
    then
      if negb (truthy (line35a texts)) || negb (truthy (line35c texts))
      then errors ++ [bankError]
      else errors
    else errors in
  let errors :=
    if filesJointly formData then
      let errors :=
        if blank (spouseFirstName texts)
        then errors ++
             [issue "spouseFirstName" "Spouse first name required for joint filing"
                    "REQUIRED_SPOUSE_INFO"]
        else errors in
      let errors :=
        if blank (spouseLastName texts)
        then errors ++
             [issue "spouseLastName" "Spouse last name required for joint filing"
                    "REQUIRED_SPOUSE_INFO"]
        else errors in
      if blank (spouseSSN texts)
      then errors ++
           [issue "spouseSSN" "Spouse SSN required for joint filing"
                  "REQUIRED_SPOUSE_INFO"]
      else errors
    else errors in
  {| isValid := Nat.eqb (length errors) 0;
     errors := errors;
     warnings := warnings |}.

Definition validateForm (texts : FormTexts) (formData : Form1040Data)
    : FormValidationResult :=
  let commonValidation := validateCommonFields texts formData in
  let specificValidation := validateStandardFormFields texts formData in
  {| isValid := isValid commonValidation && isValid specificValidation;
     errors := errors commonValidation ++ errors specificValidation;
     warnings := warnings commonValidation ++ warnings specificValidation |}.
End Standard1040FormValidation.

(** ** [Standard1040Form]: the tax calculation *)

Module Standard1040FormCalculation.
Import Js.
Import Form1099ToForm1040Mapper (FilingStatus, SINGLE, MARRIED_FILING_JOINTLY,
  MARRIED_FILING_SEPARATELY, HEAD_OF_HOUSEHOLD, QUALIFYING_SURVIVING_SPOUSE,
  Form1040Data, get, filingStatus).
Import AbstractForm1040 AbstractForm1040.Standard1040Form.

(** An entry of [formData.dependents]; the list itself is given beside the
    record of amounts, [None] when the property is missing. *)
Record Dependent : Type := {
  qualifiesForCTC : bool
}.

(** [config.childTaxCredit] *)
Definition maxCredit : Q := 2000.

Definition phaseoutThreshold (status : FilingStatus) : Q :=
  match status with
  | SINGLE => 200000
  | MARRIED_FILING_JOINTLY => 400000
  | MARRIED_FILING_SEPARATELY => 200000
  | HEAD_OF_HOUSEHOLD => 200000
  | QUALIFYING_SURVIVING_SPOUSE => 400000
  end.

Record FormCalculationResult : Type := {
  totalIncome : Q;
  adjustedGrossIncome : Q;
  taxableIncome : Q;
  taxLiability : Q;
  totalCredits : Q;
  totalWithholdings : Q;
  refundAmount : Q;
  amountOwed : Q
}.

Section Methods.
Variable formData : Form1040Data.
Variable dependents : option (list Dependent).

(** [agi > phaseoutThreshold]; without a filing status the threshold is
    [undefined] and the comparison is false. *)
Definition abovePhaseout (agi : Q) : bool :=
  match filingStatus formData with
  | Some status => Qlt_bool (phaseoutThreshold status) agi
  | None => false
  end.

(** [dependents?.filter(dep => dep.qualifiesForCTC).length || 0] *)
Definition qualifyingChildren : nat :=
  match dependents with
  | Some deps => length (List.filter qualifiesForCTC deps)
  | None => 0%nat
  end.

Definition calculateChildTaxCredit : Q :=
  let agi := calculateAGI formData in
  if abovePhaseout agi then 0
  else
    Qmin (inject_Z (Z.of_nat qualifyingChildren) * maxCredit) (maxCredit * 3).

Definition calculateTax : FormCalculationResult :=
  let totalIncome := calculateTotalIncome formData in
  let adjustedGrossIncome := calculateAGI formData in
  let taxableIncome := calculateTaxableIncome formData in
  let baseTaxLiability :=
    calculateTaxLiability taxableIncome (filingStatus formData) in
  let additionalTax := or0 (get formData "line17") in
  let grossTaxLiability := baseTaxLiability + additionalTax in
  let childTaxCredit := calculateChildTaxCredit in
  let otherCredits := or0 (get formData "line20") in
  let totalCredits := childTaxCredit + otherCredits in
  let netTaxLiability := Qmax 0 (grossTaxLiability - totalCredits) in
  let otherTaxes := or0 (get formData "line23") in
  let totalTax := netTaxLiability + otherTaxes in
  let totalWithholdings :=
    or0 (get formData "line25a") + or0 (get formData "line25b") +
    or0 (get formData "line25c") + or0 (get formData "line25d") in
  let overpaid := Qmax 0 (totalWithholdings - totalTax) in
  let amountOwed := Qmax 0 (totalTax - totalWithholdings) in
  {| totalIncome := totalIncome;
     adjustedGrossIncome := adjustedGrossIncome;
     taxableIncome := taxableIncome;
     taxLiability := totalTax;
     totalCredits := totalCredits;
     totalWithholdings := totalWithholdings;
     refundAmount := overpaid;
     amountOwed := amountOwed |}.
End Methods.
End Standard1040FormCalculation.

(** ** The profile types and [FormEligibilityService], in
    [src/profile/eligibility-service.ts] *)

Module FormEligibilityService.
Import Js.

Inductive ResidencyStatus : Type :=
| US_CITIZEN
| US_RESIDENT_ALIEN
| NON_RESIDENT_ALIEN
| DUAL_STATUS_ALIEN.

Inductive FormType : Type :=
| FORM_1040
| FORM_1040_SR
| FORM_1040_NR
| FORM_1040_EZ.

#[export] Instance ResidencyStatus_eq_dec : EqDecision ResidencyStatus.
Proof. solve_decision. Defined.

#[export] Instance FormType_eq_dec : EqDecision FormType.
Proof. solve_decision. Defined.

(** The string behind each enum member, as template literals print it. *)
Definition residencyStatusText (status : ResidencyStatus) : string :=
  match status with
  | US_CITIZEN => "US_CITIZEN"
  | US_RESIDENT_ALIEN => "US_RESIDENT_ALIEN"
  | NON_RESIDENT_ALIEN => "NON_RESIDENT_ALIEN"
  | DUAL_STATUS_ALIEN => "DUAL_STATUS_ALIEN"
  end.

Definition formTypeText (formType : FormType) : string :=
  match formType with
  | FORM_1040 => "FORM_1040"
  | FORM_1040_SR => "FORM_1040_SR"
  | FORM_1040_NR => "FORM_1040_NR"
  | FORM_1040_EZ => "FORM_1040_EZ"
  end.

(** [Object.values(FormType)] *)
Definition formTypes : list FormType :=
  [ FORM_1040; FORM_1040_SR; FORM_1040_NR; FORM_1040_EZ ].

(** [UserProfileData], the properties the service reads and writes.  [age]
    is [None] when it is [undefined] or [null], and a number other than
    [NaN] otherwise; the two form types are [None] when they are missing.
    The time stamp [lastProfileUpdate] is outside the model. *)
Record UserProfileData : Type := {
  age : option Q;
  residencyStatus : ResidencyStatus;
  eligibleFor1040 : bool;
  eligibleFor1040SR : bool;
  eligibleFor1040NR : bool;
  preferredFormType : option FormType;
  lastUsedFormType : option FormType
}.

Record FormEligibilityReason : Type := {
  formType : FormType;
  reason : string;
  priority : Z;
  isAutomatic : bool
}.

Record FormEligibilityResult : Type := {
  eligibleForms : list FormType;
  recommendedForm : FormType;
  reasons : list FormEligibilityReason;
  warnings : list string
}.

(** [FormRequirements]; the ages are whole numbers. *)
Record FormRequirements : Type := {
  minAge : option Z;
  maxAge : option Z;
  requiredResidencyStatus : option (list ResidencyStatus);
  excludedResidencyStatus : option (list ResidencyStatus)
}.

Definition FORM_REQUIREMENTS (formType : FormType) : FormRequirements :=
  match formType with
  | FORM_1040 =>
      {| minAge := None; maxAge := None;
         requiredResidencyStatus :=
           Some [US_CITIZEN; US_RESIDENT_ALIEN; DUAL_STATUS_ALIEN];
         excludedResidencyStatus := None |}
  | FORM_1040_SR =>
      {| minAge := Some 65%Z; maxAge := None;
         requiredResidencyStatus :=
           Some [US_CITIZEN; US_RESIDENT_ALIEN; DUAL_STATUS_ALIEN];
         excludedResidencyStatus := None |}
  | FORM_1040_NR =>
      {| minAge := None; maxAge := None;
         requiredResidencyStatus := Some [NON_RESIDENT_ALIEN];
         excludedResidencyStatus := None |}
  | FORM_1040_EZ =>
      {| minAge := None; maxAge := Some 65%Z;
         requiredResidencyStatus := Some [US_CITIZEN; US_RESIDENT_ALIEN];
         excludedResidencyStatus := None |}
  end.

(** [list.includes(x)] on enum members. *)
Definition includesMember `{EqDecision A} (xs : list A) (x : A) : bool :=
  bool_decide (x ∈ xs).

(** An automatic reason. *)
Definition automatic (formType : FormType) (reason : string) (priority : Z)
    : FormEligibilityReason :=
  {| formType := formType; reason := reason; priority := priority;
     isAutomatic := true |}.

(** The two variables of [checkFormEligibility]. *)
Definition Verdict : Type := bool * list FormEligibilityReason.

(** [reasons.push(...)], and the same with [isEligible = false]. *)
Definition note (r : FormEligibilityReason) (v : Verdict) : Verdict :=
  (v.1, v.2 ++ [r]).

Definition reject (r : FormEligibilityReason) (v : Verdict) : Verdict :=
  (false, v.2 ++ [r]).

Definition checkMinAge (profile : UserProfileData) (formType : FormType)
    (v : Verdict) : Verdict :=
  match minAge (FORM_REQUIREMENTS formType), age profile with
  | Some minimum, Some years =>
      if Qlt_bool years (inject_Z minimum) then
        reject (automatic formType
                  ("Minimum age requirement not met (" +:+ pretty minimum +:+ ")")
                  10) v
      else
        note (automatic formType
                ("Meets minimum age requirement (" +:+ pretty minimum +:+ "+)")
                8) v
  | _, _ => v
  end.

Definition checkMaxAge (profile : UserProfileData) (formType : FormType)
    (v : Verdict) : Verdict :=
  match maxAge (FORM_REQUIREMENTS formType), age profile with
  | Some maximum, Some years =>
      if Qlt_bool (inject_Z maximum) years then
        reject (automatic formType
                  ("Maximum age exceeded (" +:+ pretty maximum +:+ ")") 10) v
      else v
  | _, _ => v
  end.

Definition checkRequiredResidency (profile : UserProfileData)
    (formType : FormType) (v : Verdict) : Verdict :=
  match requiredResidencyStatus (FORM_REQUIREMENTS formType) with
  | Some required =>
      if includesMember required (residencyStatus profile) then
        note (automatic formType
                ("Residency status " +:+ residencyStatusText (residencyStatus profile)
                 +:+ " is eligible") 7) v
      else
        reject (automatic formType
                  ("Residency status "
                   +:+ residencyStatusText (residencyStatus profile)
                   +:+ " not eligible") 10) v
  | None => v
  end.

Definition checkExcludedResidency (profile : UserProfileData)
    (formType : FormType) (v : Verdict) : Verdict :=
  match excludedResidencyStatus (FORM_REQUIREMENTS formType) with
  | Some excluded =>
      if includesMember excluded (residencyStatus profile) then
        reject (automatic formType
                  ("Residency status "
                   +:+ residencyStatusText (residencyStatus profile)
                   +:+ " is excluded") 10) v
      else v
  | None => v
  end.

(** [profile.age !== undefined && profile.age !== null && profile.age >= 65] *)
Definition isSenior (profile : UserProfileData) : bool :=
  match age profile with
  | Some years => Qle_bool 65 years
  | None => false
  end.

(** The [switch (formType)] at the end of [checkFormEligibility]. *)
Definition checkFormSpecific (profile : UserProfileData) (formType : FormType)
    (v : Verdict) : Verdict :=
  match formType with
  | FORM_1040_SR =>
      if isSenior profile then
        note (automatic formType "Senior form recommended for age 65+" 9) v
      else v
  | FORM_1040_NR =>
      if bool_decide (residencyStatus profile = NON_RESIDENT_ALIEN) then
        note (automatic formType "Required form for non-resident aliens" 10) v
      else v
  | FORM_1040 =>
      if v.1 then
        note (automatic formType "Standard form available to most taxpayers" 5) v
      else v
  | FORM_1040_EZ =>
      reject (automatic formType
                "Form 1040-EZ is no longer available (use Form 1040)" 1) v
  end.

Definition checkFormEligibility (profile : UserProfileData) (formType : FormType)
    : Verdict :=
  let v : Verdict := (true, []) in
  let v := checkMinAge profile formType v in
  let v := checkMaxAge profile formType v in
  let v := checkRequiredResidency profile formType v in
  let v := checkExcludedResidency profile formType v in
  checkFormSpecific profile formType v.

(** [eligibleForms[0] || FormType.FORM_1040] *)
Definition firstOr1040 (eligibleForms : list FormType) : FormType :=
  match eligibleForms with
  | first :: _ => first
  | [] => FORM_1040
  end.

(** [wanted && eligibleForms.includes(wanted)]: the wanted form type when the
    test holds. *)
Definition wantedAndEligible (wanted : option FormType)
    (eligibleForms : list FormType) : option FormType :=
  match wanted with
  | Some formType =>
      if includesMember eligibleForms formType then Some formType else None
  | None => None
  end.

(** [determineRecommendedForm]; the reasons are not read. *)
Definition determineRecommendedForm (eligibleForms : list FormType)
    (reasons : list FormEligibilityReason) (profile : UserProfileData)
    : FormType :=
  match wantedAndEligible (preferredFormType profile) eligibleForms with
  | Some preferred => preferred
  | None =>
      match wantedAndEligible (lastUsedFormType profile) eligibleForms with
      | Some lastUsed => lastUsed
      | None =>
          if bool_decide (residencyStatus profile = NON_RESIDENT_ALIEN)
             && includesMember eligibleForms FORM_1040_NR then FORM_1040_NR
          else if isSenior profile && includesMember eligibleForms FORM_1040_SR
          then FORM_1040_SR
          else if includesMember eligibleForms FORM_1040 then FORM_1040
          else firstOr1040 eligibleForms
      end
  end.

(** [reasons.sort((a, b) => b.priority - a.priority)]: a stable sort, highest
    priority first. *)
Fixpoint insertByPriority (r : FormEligibilityReason)
    (sorted : list FormEligibilityReason) : list FormEligibilityReason :=
  match sorted with
  | [] => [r]
  | s :: rest =>
      if (priority r <? priority s)%Z then s :: insertByPriority r rest
      else r :: s :: rest
  end.

Definition sortByPriority (reasons : list FormEligibilityReason)
    : list FormEligibilityReason :=
  foldr insertByPriority [] reasons.

(** The three lists of [determineEligibility] while it goes through the form
    types. *)
Record Tally : Type := {
  tallyForms : list FormType;
  tallyReasons : list FormEligibilityReason;
  tallyWarnings : list string
}.

(** The body of the [for (const formType of Object.values(FormType))] loop. *)
Definition tallyForm (profile : UserProfileData) (t : Tally) (formType : FormType)
    : Tally :=
  let eligibility := checkFormEligibility profile formType in
  if eligibility.1 then
    {| tallyForms := tallyForms t ++ [formType];
       tallyReasons := tallyReasons t ++ eligibility.2;
       tallyWarnings := tallyWarnings t |}
  else
    match eligibility.2 with
    | first :: _ =>
        {| tallyForms := tallyForms t;
           tallyReasons := tallyReasons t;
           tallyWarnings :=
             tallyWarnings t ++
             ["Not eligible for " +:+ formTypeText formType +:+ ": "
              +:+ reason first] |}
    | [] => t
    end.

Definition determineEligibility (profile : UserProfileData)
    : FormEligibilityResult :=
  let t :=
    foldl (tallyForm profile)
          {| tallyForms := []; tallyReasons := []; tallyWarnings := [] |}
          formTypes in
  {| eligibleForms := tallyForms t;
     recommendedForm :=
       determineRecommendedForm (tallyForms t) (tallyReasons t) profile;
     reasons := sortByPriority (tallyReasons t);
     warnings := tallyWarnings t |}.

Definition updateProfileEligibility (profile : UserProfileData)
    : UserProfileData :=
  let eligibility := determineEligibility profile in
  {| age := age profile;
     residencyStatus := residencyStatus profile;
     eligibleFor1040 := includesMember (eligibleForms eligibility) FORM_1040;
     eligibleFor1040SR := includesMember (eligibleForms eligibility) FORM_1040_SR;
     eligibleFor1040NR := includesMember (eligibleForms eligibility) FORM_1040_NR;
     preferredFormType := Some (recommendedForm eligibility);
     lastUsedFormType := lastUsedFormType profile |}.

(** The result of [shouldRecommendFormSwitch]. *)
Record FormSwitch : Type := {
  shouldSwitch : bool;
  switchTo : option FormType;
  switchReason : option string
}.

(** [old.age < 65 && new.age >= 65], both ages known. *)
Definition turned65 (oldProfile newProfile : UserProfileData) : bool :=
  match age oldProfile, age newProfile with
  | Some before, Some now => Qlt_bool before 65 && Qle_bool 65 now
  | _, _ => false
  end.

Definition shouldRecommendFormSwitch (oldProfile newProfile : UserProfileData)
    : FormSwitch :=
  let oldEligibility := determineEligibility oldProfile in
  let newEligibility := determineEligibility newProfile in
  if negb (bool_decide (recommendedForm oldEligibility
                        = recommendedForm newEligibility)) then
    {| shouldSwitch := true;
       switchTo := Some (recommendedForm newEligibility);
       switchReason :=
         Some ("Profile changes suggest "
               +:+ formTypeText (recommendedForm newEligibility)
               +:+ " would be more appropriate") |}
  else if turned65 oldProfile newProfile
          && includesMember (eligibleForms newEligibility) FORM_1040_SR then
    {| shouldSwitch := true;
       switchTo := Some FORM_1040_SR;
       switchReason :=
         Some "You are now eligible for Form 1040-SR (Senior form) with larger print and simplified layout" |}
  else if negb (bool_decide (residencyStatus oldProfile = NON_RESIDENT_ALIEN))
          && bool_decide (residencyStatus newProfile = NON_RESIDENT_ALIEN) then
    {| shouldSwitch := true;
       switchTo := Some FORM_1040_NR;
       switchReason := Some "Non-resident aliens must use Form 1040-NR" |}
  else {| shouldSwitch := false; switchTo := None; switchReason := None |}.
End FormEligibilityService.

(** ** [Form1040Factory], in [src/forms/base/abstract-form.ts] *)

Module Form1040Factory.
Import Js FormEligibilityService.
Import Form1099ToForm1040Mapper (Form1040Data).

(** [FormCreationOptions]; a missing [taxYear] is 2023 and a missing
    [autoDetectForm] is [true]. *)
Record FormCreationOptions : Type := {
  optionFormType : option FormType;
  optionTaxYear : option Z;
  optionUserProfile : option UserProfileData;
  optionAutoDetectForm : option bool
}.

(** No option given: [{}]. *)
Definition noOptions : FormCreationOptions :=
  {| optionFormType := None; optionTaxYear := None;
     optionUserProfile := None; optionAutoDetectForm := None |}.

(** A form instance: every instance the factory makes is a
    [Standard1040Form], given by its data and its tax year. *)
Record FormInstance : Type := {
  instanceData : Form1040Data;
  instanceTaxYear : Z
}.

(** [form.getFormType()]: the [formType] of the metadata the constructor of
    [Standard1040Form] sets. *)
Definition getFormType (form : FormInstance) : FormType := FORM_1040.

(** [form.getFormData()] *)
Definition getFormData (form : FormInstance) : Form1040Data := instanceData form.

Record FormCreationResult : Type := {
  form : FormInstance;
  resultFormType : FormType;
  isRecommended : bool;
  alternativeForms : list FormType;
  resultWarnings : list string
}.

Definition isFormTypeSupported (formType : FormType) : bool :=
  includesMember [FORM_1040] formType.

Definition getSupportedFormTypes : list FormType := [FORM_1040].

(** Every case of the [switch] builds a [Standard1040Form]. *)
Definition createFormInstance (formType : FormType) (formData : Form1040Data)
    (taxYear : Z) : FormInstance :=
  match formType with
  | FORM_1040 | FORM_1040_SR | FORM_1040_NR | FORM_1040_EZ =>
      {| instanceData := formData; instanceTaxYear := taxYear |}
  end.

(** The variables of [createForm] that its statements update. *)
Record Selection : Type := {
  selectedFormType : option FormType;
  selectionRecommended : bool;
  selectionAlternatives : list FormType;
  selectionWarnings : list string
}.

(** Auto-detection from the profile, when no form type is given. *)
Definition autoDetect (options : FormCreationOptions) (s : Selection) : Selection :=
  match selectedFormType s, optionUserProfile options with
  | None, Some userProfile =>
      if default true (optionAutoDetectForm options) then
        let eligibility := determineEligibility userProfile in
        {| selectedFormType := Some (recommendedForm eligibility);
           selectionRecommended := true;
           selectionAlternatives :=
             List.filter
               (fun f => negb (bool_decide (f = recommendedForm eligibility)))
               (eligibleForms eligibility);
           selectionWarnings := selectionWarnings s ++ warnings eligibility |}
      else s
  | _, _ => s
  end.

(** The default, when there is still no form type. *)
Definition defaultTo1040 (s : Selection) : Selection :=
  match selectedFormType s with
  | Some _ => s
  | None =>
      {| selectedFormType := Some FORM_1040;
         selectionRecommended := selectionRecommended s;
         selectionAlternatives := selectionAlternatives s;
         selectionWarnings :=
           selectionWarnings s ++
           ["No form type specified, defaulting to standard Form 1040"] |}
  end.

(** A form type that is not supported is replaced by the standard form. *)
Definition replaceUnsupported (s : Selection) : Selection :=
  match selectedFormType s with
  | Some formType =>
      if isFormTypeSupported formType then s
      else
        {| selectedFormType := Some FORM_1040;
           selectionRecommended := selectionRecommended s;
           selectionAlternatives := selectionAlternatives s;
           selectionWarnings :=
             selectionWarnings s ++
             ["Form type " +:+ formTypeText formType
              +:+ " not yet implemented, using standard Form 1040"] |}
  | None => s
  end.

(** The eligibility warning for the form type that was selected. *)
Definition warnIfNotEligible (options : FormCreationOptions)
    (formType : FormType) (warnings : list string) : list string :=
  match optionUserProfile options with
  | Some userProfile =>
      if includesMember (eligibleForms (determineEligibility userProfile)) formType
      then warnings
      else warnings ++
           ["User may not be eligible for " +:+ formTypeText formType
            +:+ ", please review form selection"]
  | None => warnings
  end.

Definition createForm (formData : Form1040Data) (options : FormCreationOptions)
    : FormCreationResult :=
  let taxYear := default 2023%Z (optionTaxYear options) in
  let s := {| selectedFormType := optionFormType options;
              selectionRecommended := false;
              selectionAlternatives := [];
              selectionWarnings := [] |} in
  let s := autoDetect options s in
  let s := defaultTo1040 s in
  let s := replaceUnsupported s in
  let formType := default FORM_1040 (selectedFormType s) in
  {| form := createFormInstance formType formData taxYear;
     resultFormType := formType;
     isRecommended := selectionRecommended s;
     alternativeForms := selectionAlternatives s;
     resultWarnings := warnIfNotEligible options formType (selectionWarnings s) |}.

(** The result of [recommendFormType]. *)
Record Recommendation : Type := {
  recommended : FormType;
  supportedEligibleForms : list FormType;
  recommendationReasons : list string
}.

Definition recommendFormType (userProfile : UserProfileData) : Recommendation :=
  let eligibility := determineEligibility userProfile in
  let supportedEligibleForms :=
    List.filter isFormTypeSupported (eligibleForms eligibility) in
  let recommendedForm :=
    if isFormTypeSupported (recommendedForm eligibility)
    then recommendedForm eligibility
    else firstOr1040 supportedEligibleForms in
  {| recommended := recommendedForm;
     supportedEligibleForms := supportedEligibleForms;
     recommendationReasons :=
       List.map reason
         (List.filter (fun r => bool_decide (formType r = recommendedForm))
                      (reasons eligibility)) |}.

(** [migrateFormData(sourceForm, targetFormType, taxYear)]; a missing
    [taxYear] is 2023. *)
Definition migrateFormData (sourceForm : FormInstance) (targetFormType : FormType)
    (taxYear : option Z) : FormCreationResult :=
  let sourceData := getFormData sourceForm in
  let result :=
    createForm sourceData
      {| optionFormType := Some targetFormType;
         optionTaxYear := Some (default 2023%Z taxYear);
         optionUserProfile := None;
         optionAutoDetectForm := Some false |} in
  {| form := form result;
     resultFormType := resultFormType result;
     isRecommended := isRecommended result;
     alternativeForms := alternativeForms result;
     resultWarnings :=
       resultWarnings result ++
       ["Form data migrated from " +:+ formTypeText (getFormType sourceForm)
        +:+ " to " +:+ formTypeText targetFormType] |}.

(** The result of [validateFormCompatibility]. *)
Record Compatibility : Type := {
  isCompatible : bool;
  issues : list string;
  recommendations : list string
}.

Definition validateFormCompatibility (formType : FormType)
    (userProfile : UserProfileData) : Compatibility :=
  let eligibility := determineEligibility userProfile in
  let isCompatible := includesMember (eligibleForms eligibility) formType in
  let issues :=
    if isCompatible then []
    else ["User is not eligible for " +:+ formTypeText formType] in
  let recommendations :=
    if isCompatible then []
    else
      match eligibleForms eligibility with
      | _ :: _ =>
          ["Consider using " +:+ formTypeText (recommendedForm eligibility)
           +:+ " instead"]
      | [] => []
      end in
  let issues :=
    if bool_decide (formType = FORM_1040_SR)
       && Qlt_bool (or0 (age userProfile)) 65
    then issues ++ ["Form 1040-SR is designed for taxpayers 65 and older"]
    else issues in
  let issues :=
    if bool_decide (formType = FORM_1040_NR)
       && negb (bool_decide (residencyStatus userProfile = NON_RESIDENT_ALIEN))
    then issues ++ ["Form 1040-NR is only for non-resident aliens"]
    else issues in
  {| isCompatible := isCompatible;
     issues := issues;
     recommendations := recommendations |}.
End Form1040Factory.

(** ** Vocabulary for the statements about the tax form *)

Module TaxFormReadings.
Import Js Form1099ToForm1040Mapper.

(** A line is present and holds a given amount. *)
Definition lineIs (f : Form1040Data) (line : string) (q : Q) : Prop :=
  exists v, get f line = Some v /\ v == q.

(** The derived lines of the form: total income (9), adjusted gross income
    (11), taxable income (15), bracket liability (16), total tax (24), total
    payments (32), refund (33) and amount owed (37). *)
Record DerivedTotals : Type := {
  totalIncome : Q;
  adjustedGrossIncome : Q;
  taxableIncome : Q;
  taxLiability : Q;
  totalTax : Q;
  totalPayments : Q;
  refund : Q;
  amountOwed : Q
}.

Definition derivedTotals (f : Form1040Data) : DerivedTotals :=
  {| totalIncome := or0 (get f "line9");
     adjustedGrossIncome := or0 (get f "line11");
     taxableIncome := or0 (get f "line15");
     taxLiability := or0 (get f "line16");
     totalTax := or0 (get f "line24");
     totalPayments := or0 (get f "line32");
     refund := or0 (get f "line33");
     amountOwed := or0 (get f "line37") |}.

(** The same totals, number by number. *)
Definition sameTotals (a b : DerivedTotals) : Prop :=
  totalIncome a == totalIncome b /\
  adjustedGrossIncome a == adjustedGrossIncome b /\
  taxableIncome a == taxableIncome b /\
  taxLiability a == taxLiability b /\
  totalTax a == totalTax b /\
  totalPayments a == totalPayments b /\
  refund a == refund b /\
  amountOwed a == amountOwed b.

(** [v > 0 ? v : 0]: what an additive rule contributes. *)
Definition positivePart (v : Q) : Q := if Qlt_bool 0 v then v else 0.

(** Line 12 after the standard-deduction step of the recomputation. *)
Definition deductionLine (f : Form1040Data) : option Q :=
  match filingStatus f with
  | Some st =>
      if falsyAmount (get f "line12") then Some (getStandardDeduction (Some st))
      else get f "line12"
  | None => get f "line12"
  end.

(** The sum of the withholding and payment lines 25a to 25d. *)
Definition paymentLines (f : Form1040Data) : Q :=
  or0 (get f "line25a") + or0 (get f "line25b") +
  or0 (get f "line25c") + or0 (get f "line25d").

(** The lines [recalculateForm1040Totals] writes. *)
Definition derivedLines : list string :=
  [ "line9"; "line11"; "line12"; "line15"; "line16"; "line24"; "line32";
    "line33"; "line34"; "line37" ].

(** A form without amounts, for a filer with the given filing status. *)
Definition newForm (status : option FilingStatus) : Form1040Data :=
  {| amounts := ∅; filingStatus := status; foreignCountry := None |}.

(** The form of the wage-statement scenario: wages on line 1, federal
    withholding on line 25a, filing status SINGLE. *)
Definition wageStatementForm : Form1040Data :=
  {| amounts := <["line1" := 50000]> (<["line25a" := 6000]> ∅);
     filingStatus := Some SINGLE;
     foreignCountry := None |}.

(** A form whose income stays below the standard deduction, with a little
    taxable interest already on line 2b. *)
Definition lowIncomeForm : Form1040Data :=
  {| amounts := <["line1" := 5000]> (<["line2b" := 30]> ∅);
     filingStatus := Some SINGLE;
     foreignCountry := None |}.

(** A document given by its own properties. *)
Definition document (properties : gmap string JsValue) : Form1099Data :=
  {| extractedData := None; fields := properties |}.

(** The amount the mapper reads under a property of the document. *)
Definition amountOf (d : Form1099Data) (key : string) : Q :=
  parseAmount (prop (actual1099Data d) key).

(** What the additive rules of a document put on line 2b: boxes 1, 3 and 10. *)
Definition taxableInterestAdded (d : Form1099Data) : Q :=
  positivePart (amountOf d "interestIncome") +
  positivePart (amountOf d "interestOnUSavingsBonds") +
  positivePart (amountOf d "marketDiscount").

(** The bond premium of a document does not exceed the taxable interest the
    same document adds (so, in particular, a document without bond
    premium). *)
Definition premiumCovered (d : Form1099Data) : Prop :=
  positivePart (amountOf d "bondPremium") <= taxableInterestAdded d.

(** Every amount of a document is a whole number of currency units, of at
    most a million millions: the sums of such amounts are exact in the
    binary floating point of the code as they are here. *)
Definition wholeAmounts (d : Form1099Data) : Prop :=
  forall key,
    exists z : Z, (Z.abs z <= 1000000000000)%Z /\ amountOf d key == inject_Z z.

(** What the rules of a document add to total income: its taxable interest
    less its bond premium, ordinary dividends, capital gain distributions,
    and the four kinds of additional income. *)
Definition incomeAdded (d : Form1099Data) : Q :=
  taxableInterestAdded d - positivePart (amountOf d "bondPremium") +
  positivePart (amountOf d "ordinaryDividends") +
  positivePart (amountOf d "totalCapitalGain") +
  (positivePart (amountOf d "rents") + positivePart (amountOf d "royalties") +
   positivePart (amountOf d "otherIncome") +
   positivePart (amountOf d "nonemployeeCompensation")).

(** What a document adds to the payments: its federal tax withheld. *)
Definition withholdingAdded (d : Form1099Data) : Q :=
  positivePart (parseAmount (federalTaxWithheldValue (actual1099Data d))).

(** The lines the income rules write. *)
Definition mappedLines : list string :=
  [ "line2b"; "line2a"; "amtAdjustments.privateActivityBondInterest";
    "scheduleA.stateTaxWithheld"; "stateData.interestIncome";
    "schedule1.earlyWithdrawalPenalty"; "scheduleA.investmentExpenses";
    "foreignTaxCredit.foreignTaxPaid"; "line3b"; "line3a"; "line7"; "line8";
    "line25a" ].

(** The two documents of the order-dependence example: interest income
    alone, and a bond premium alone. *)
Definition interestDocument : Form1099Data :=
  document {[ "interestIncome" := JsNumber 100 ]}.

Definition premiumDocument : Form1099Data :=
  document {[ "bondPremium" := JsNumber 50 ]}.

(** An interest statement whose bond premium is covered by its interest, and
    a dividend statement with withholding, read from formatted text. *)
Definition coveredInterestDocument : Form1099Data :=
  document (<["interestIncome" := JsNumber 60000]>
              {[ "bondPremium" := JsNumber 1500 ]}).

Definition dividendDocument : Form1099Data :=
  document (<["ordinaryDividends" := JsString "$2,400.00"]>
              {[ "federalTaxWithheld" := JsNumber 9000 ]}).
End TaxFormReadings.

(** ** Vocabulary for the statements about extraction and reconciliation *)

Module ExtractionReadings.
Import Js AzureDocumentIntelligenceService.
Import Utf16 (utf16).

(** A reading is present when the property exists. *)
Definition isPresent (v : JsValue) : bool :=
  match v with
  | JsUndefined => false
  | _ => true
  end.

(** The reconciliation rule for one critical field as the specification
    words it: (1) structured absent or zero and text-pattern present and
    positive: the text-pattern value; (2) both present and more than 100
    apart: the text-pattern value; (3) otherwise the structured value. *)
Definition reconcileAsStated (structured textPattern : JsValue) : JsValue :=
  let structuredValue := amountOr0 structured in
  let textValue := amountOr0 textPattern in
  if (negb (isPresent structured) || Qeq_bool structuredValue 0)
     && isPresent textPattern && Qlt_bool 0 textValue then
    JsNumber textValue
  else if isPresent structured && isPresent textPattern
          && Qlt_bool 100 (Qabs (structuredValue - textValue)) then
    JsNumber textValue
  else structured.

(** What the loop over the critical fields leaves under one field, given
    what was there. *)
Definition criticalFieldResult (structuredData ocrData : ExtractedFieldData)
    (field : string) (current : option JsValue) : option JsValue :=
  let structuredValue := amountOr0 (prop structuredData field) in
  let ocrValue := amountOr0 (prop ocrData field) in
  if Qlt_bool 100 (Qabs (structuredValue - ocrValue)) then Some (JsNumber ocrValue)
  else if (Qeq_bool structuredValue 0 || negb (truthy (prop structuredData field)))
          && Qlt_bool 0 ocrValue then Some (JsNumber ocrValue)
  else current.

(** Two readings within the threshold of each other: they do not differ by
    more than 100. *)
Definition withinThreshold (x y : Q) : Prop := Qabs (x - y) <= 100.

(** The swap signature of the specification for a pair of fields. *)
Definition swapSignature (structuredData ocrData : ExtractedFieldData)
    (fieldA fieldB : string) : Prop :=
  withinThreshold (amountOr0 (prop structuredData fieldA))
                  (amountOr0 (prop ocrData fieldB)) /\
  withinThreshold (amountOr0 (prop structuredData fieldB))
                  (amountOr0 (prop ocrData fieldA)).

(** The number the corrections store for a field: the amount of its
    text-pattern reading, which is 0 when the text has no reading for the
    field. *)
Definition textReading (ocrData : ExtractedFieldData) (field : string) : JsValue :=
  JsNumber (amountOr0 (prop ocrData field)).

(** A field holds its text-pattern reading. *)
Definition holdsTextReading (ocrData correctedData : ExtractedFieldData)
    (field : string) : Prop :=
  correctedData !! field = Some (textReading ocrData field).

(** Structured readings with a rent above the threshold, and the
    text-pattern readings of a text in which no pattern finds an amount. *)
Definition rentOnlyStructured : ExtractedFieldData :=
  {[ "rents" := JsNumber 500 ]}.

Definition noAmountText : ExtractedFieldData :=
  {[ "fullText" := JsString "Form 1099-MISC Miscellaneous Income" ]}.

(** Box 3 and box 5 exchanged by the structured reader, small amounts. *)
Definition swappedStructured : ExtractedFieldData :=
  <["otherIncome" := JsNumber 20]> {[ "fishingBoatProceeds" := JsNumber 50 ]}.

Definition swappedText : ExtractedFieldData :=
  <["otherIncome" := JsNumber 50]> {[ "fishingBoatProceeds" := JsNumber 20 ]}.

(** Rents and royalties exchanged by the structured reader. *)
Definition adjacentStructured : ExtractedFieldData :=
  <["rents" := JsNumber 12500]> {[ "royalties" := JsNumber 35000 ]}.

Definition adjacentText : ExtractedFieldData :=
  <["rents" := JsNumber 35000]> {[ "royalties" := JsNumber 12500 ]}.

(** Other income read under fishing boat proceeds, box 3 left empty. *)
Definition displacedStructured : ExtractedFieldData :=
  {[ "fishingBoatProceeds" := JsNumber 80 ]}.

Definition displacedText : ExtractedFieldData :=
  <["otherIncome" := JsNumber 80]> {[ "fishingBoatProceeds" := JsNumber 30 ]}.

(** A text with one wage-statement phrase and one information-return
    word. *)
Definition tiedText : string := "Form W-2 payer".

(** The four 1099 subtypes. *)
Definition subtypes1099 : list string :=
  [ "FORM_1099_DIV"; "FORM_1099_INT"; "FORM_1099_MISC"; "FORM_1099_NEC" ].

(** The pattern of the default subtype. *)
Definition miscPattern : FormPattern :=
  {| type := "FORM_1099_MISC";
     indicators :=
       [ "form 1099-misc"; "miscellaneous income"; "nonemployee compensation";
         "rents"; "royalties"; "fishing boat proceeds" ] |}.

(** The hit counts of the classifier. *)
Definition w2Score (ocrText : string) : nat :=
  countIndicators (toLowerCase ocrText) w2Indicators.

Definition form1099Score (ocrText : string) : nat :=
  countIndicators (toLowerCase ocrText) form1099Indicators.

(** The indicator score of a 1099 subtype. *)
Definition subtypeScore (ocrText : string) (formPattern : FormPattern) : nat :=
  countIndicators (toLowerCase ocrText) (indicators formPattern).

(** The first element of a scored list has the highest score. *)
Definition headIsHighest (scored : list (EmployeeRecord * Q)) : Prop :=
  match scored with
  | [] => True
  | h :: _ => forall y, y ∈ scored -> y.2 <= h.2
  end.

Section NameMatches.
Import Utf16.
Context `{CaseMapping}.

(** The match of a record with a target name, as the specification words
    it: the record has a name, and the normalised name is the normalised
    target (an exact match) or holds every word of it (a word-subset
    match). *)
Definition exactMatch (target : String16) (record : EmployeeRecord) : Prop :=
  exists recordName,
    name record = Some recordName /\ recordName <> [] /\
    normalizeNameForMatching recordName = normalizeNameForMatching target.

Definition wordSubsetMatch (target : String16) (record : EmployeeRecord) : Prop :=
  exists recordName,
    name record = Some recordName /\ recordName <> [] /\
    forall word,
      word ∈ split 32 (normalizeNameForMatching target) ->
      word ∈ split 32 (normalizeNameForMatching recordName).

Definition namesMatch (target : String16) (record : EmployeeRecord) : Prop :=
  exactMatch target record \/ wordSubsetMatch target record.

(** [points] when the test holds. *)
Definition bonus (test : bool) (points : Q) : Q := if test then points else 0.

(** The composite score, as the specification words it: the confidence,
    the completeness bonuses for a name, an identifier and an address, the
    penalty for a name of fewer than six code units, and the bonus for the
    similarity of the name to the target; the code adds a bonus for a name
    that does not look like the name of a company. *)
Definition compositeScore (target : option String16) (record : EmployeeRecord)
    : Q :=
  let named := present (name record) in
  let nameOf := default [] (name record) in
  confidence record
  + bonus named 10 + bonus (present (ssn record)) 20
  + bonus (present (address record)) 15
  - bonus (named && (length nameOf <? 6)%nat) 10
  + bonus (named && negb (looksLikeCompany nameOf)) 5
  + bonus (present target && named)
          (calculateNameSimilarity (default [] target) nameOf * 30).
End NameMatches.

(** Two wage-statement blocks of one document: the first is complete, the
    second is the one the caller asks for. *)
Definition firstBlock : EmployeeRecord :=
  {| name := Some (utf16 "Alex Morgan"); ssn := Some (utf16 "123-45-6789");
     address := Some (utf16 "1 Main Street, Springfield, IL 62701");
     confidence := 100; sourceText := utf16 "Alex Morgan" |}.

Definition secondBlock : EmployeeRecord :=
  {| name := Some (utf16 "Jordan  Blake"); ssn := None;
     address := Some (utf16 "2 Oak Avenue, Shelbyville, IL 62565");
     confidence := 70; sourceText := utf16 "Jordan  Blake" |}.

(** A block with a name in capitals and accented letters, and a block read
    with high confidence that holds a short name and nothing else. *)
Definition accentedBlock : EmployeeRecord :=
  {| name := Some (utf16 "JOSÉ GARCÍA"); ssn := None; address := None;
     confidence := 60; sourceText := utf16 "JOSÉ GARCÍA" |}.

Definition sparseBlock : EmployeeRecord :=
  {| name := Some (utf16 "Al"); ssn := None; address := None;
     confidence := 90; sourceText := utf16 "Al" |}.

(** A block without identifier, and a block that names a company. *)
Definition plainBlock : EmployeeRecord :=
  {| name := Some (utf16 "Alex Morgan"); ssn := None;
     address := Some (utf16 "1 Main Street, Springfield, IL 62701");
     confidence := 80; sourceText := utf16 "Alex Morgan" |}.

Definition companyBlock : EmployeeRecord :=
  {| name := Some (utf16 "Acme Corp"); ssn := None;
     address := Some (utf16 "9 Mill Road, Springfield, IL 62701");
     confidence := 72; sourceText := utf16 "Acme Corp" |}.

(** A text that shows box 4 alone: no pattern of any other box matches. *)
Definition withholdingOnlyText : string :=
  "Form 1099-INT 4 Federal income tax withheld $ 12.00".

(** No personal information found. *)
Definition noPersonalInfo : PersonalInfo.t :=
  {| PersonalInfo.name := None; PersonalInfo.tin := None;
     PersonalInfo.address := None; PersonalInfo.payerName := None;
     PersonalInfo.payerTIN := None |}.
End ExtractionReadings.

(** ** Vocabulary for the statements about the bracket tables *)

Module TaxTableReadings.
Import Js Form1099ToForm1040Mapper.

(** A bracket is well formed: its rate is between [bottom] and [top], and
    its upper end, when it has one, is not below its lower end. *)
Definition wellFormed (bottom top : Q) (b : TaxBracket) : Prop :=
  bottom <= rate b /\ rate b <= top /\
  match max b with
  | Some hi => min b <= hi
  | None => True
  end.

(** A table of brackets with rates from [bottom] to [top] that has an
    unbounded bracket, so that no income is left untaxed. *)
Definition rateTable (bottom top : Q) (brackets : list TaxBracket) : Prop :=
  Forall (wellFormed bottom top) brackets /\
  Exists (fun b => max b = None) brackets.

(** Two tables with the same rates, rising from [floor], whose brackets
    follow each other from [lo1] and from [lo2] and end with an unbounded
    bracket; every threshold of the second table is at or above the
    matching threshold of the first. *)
Inductive Wider (floor lo1 lo2 : Q) : list TaxBracket -> list TaxBracket -> Prop :=
| wider_last (r : Q) :
    floor <= r ->
    Wider floor lo1 lo2 [lastBracket lo1 r] [lastBracket lo2 r]
| wider_cons (hi1 hi2 r : Q) (rest1 rest2 : list TaxBracket) :
    floor <= r -> lo1 <= hi1 -> lo2 <= hi2 -> hi1 <= hi2 ->
    Wider r hi1 hi2 rest1 rest2 ->
    Wider floor lo1 lo2 (bracket lo1 hi1 r :: rest1) (bracket lo2 hi2 r :: rest2).

(** The rounding to cents at the end of [calculateTaxLiability]. *)
Definition toCents (tax : Q) : Q := inject_Z (mathRound (tax * 100)) / 100.

(** The table the mapper picks for a filing status. *)
Definition mapperTable (status : option FilingStatus) : list TaxBracket :=
  match status with
  | Some MARRIED_FILING_JOINTLY => bracketsMarriedFilingJointly
  | _ => bracketsDefault
  end.
End TaxTableReadings.

(** ** Vocabulary for the statements about one document *)

Module MappingReadings.
Import Js Form1099ToForm1040Mapper TaxFormReadings.

(** A statement with a negative amount alone, and the properties of a
    document that shows interest on savings bonds and nothing else. *)
Definition refundedRentDocument : Form1099Data :=
  document {[ "rents" := JsNumber (-5) ]}.

Definition savingsBondData : gmap string JsValue :=
  {[ "interestOnUSavingsBonds" := JsNumber 100 ]}.
End MappingReadings.

(** ** Vocabulary for the invariants of the reconciliation *)

Module ReconciliationReadings.
Import Js AzureDocumentIntelligenceService ExtractionReadings.

(** From one state of the corrected data to a later one, a field keeps its
    value or, if it is a critical field, takes its text-pattern reading. *)
Definition writesText (ocrData before after : ExtractedFieldData) : Prop :=
  forall field : string,
    after !! field = before !! field \/
    (field ∈ criticalFields /\ after !! field = Some (textReading ocrData field)).
End ReconciliationReadings.

(** ** Vocabulary for the statements about the form eligibility *)

Module EligibilityReadings.
Import Js FormEligibilityService Form1040Factory.

(** Whether a known age is below 65. *)
Definition knownBelow65 (profile : UserProfileData) : bool :=
  match age profile with
  | Some years => Qlt_bool years 65
  | None => false
  end.

(** Every reason of a verdict is about the given form. *)
Definition about (formType' : FormType) (v : Verdict) : Prop :=
  Forall (fun r => formType r = formType') v.2.

(** A profile with the given age and residency status, without eligibility
    flags and without a preferred or last used form. *)
Definition newProfile (years : option Q) (status : ResidencyStatus)
    : UserProfileData :=
  {| age := years; residencyStatus := status;
     eligibleFor1040 := false; eligibleFor1040SR := false;
     eligibleFor1040NR := false;
     preferredFormType := None; lastUsedFormType := None |}.

(** The options that ask for one form type. *)
Definition askFor (formType : FormType) : FormCreationOptions :=
  {| optionFormType := Some formType; optionTaxYear := None;
     optionUserProfile := None; optionAutoDetectForm := None |}.
End EligibilityReadings.

(** ** Vocabulary for the statements about the identification number *)

Module IdentificationReadings.
Import Js Form1099Validation Form1040Validation.

(** The digits of a text. *)
Definition digitsOf (s : string) : string :=
  removeChars (fun c => negb (isDigit c)) s.

(** A text of digits only. *)
Fixpoint allDigits (s : string) : bool :=
  match s with
  | EmptyString => true
  | String c rest => isDigit c && allDigits rest
  end.

(** The texts of a filer whose identification number the mapper has
    formatted. *)
Definition jordanBlake : FormTexts :=
  {| firstName := Some "Jordan"; lastName := Some "Blake";
     ssn := Some (formatSSN "123 45 6789"); address := None;
     spouseFirstName := None; spouseLastName := None; spouseSSN := None;
     line35a := JsUndefined; line35c := JsUndefined |}.
End IdentificationReadings.

(** * Properties *)

Import Js.

(** ** Numbers *)

Lemma Qlt_bool_true (x y : Q) : Qlt_bool x y = true <-> x < y.
Proof.
  unfold Qlt_bool. rewrite negb_true_iff.
  destruct (Qle_bool y x) eqn:E.
  - apply Qle_bool_iff in E. split; [discriminate | intros L; lra].
  - split; [intros _ | reflexivity].
    destruct (Qlt_le_dec x y) as [L | L]; [exact L |].
    apply Qle_bool_iff in L. congruence.
Qed.

Lemma Qlt_bool_false (x y : Q) : Qlt_bool x y = false <-> y <= x.
Proof.
  destruct (Qlt_bool x y) eqn:E.
  - apply Qlt_bool_true in E. split; [discriminate | intros L; lra].
  - split; [intros _ | reflexivity].
    destruct (Qlt_le_dec x y) as [L | L]; [| exact L].
    apply Qlt_bool_true in L. congruence.
Qed.

Lemma Qmax_0_nonneg (x : Q) : 0 <= Qmax 0 x.
Proof. apply Q.le_max_l. Qed.

Lemma Qmax_0_of_nonpos (x : Q) : x <= 0 -> Qmax 0 x == 0.
Proof. intros L. apply Q.max_l. exact L. Qed.

Lemma Qmax_0_of_nonneg (x : Q) : 0 <= x -> Qmax 0 x == x.
Proof. intros L. apply Q.max_r. exact L. Qed.

(** ** The tax form: reading a line after a write *)

Section MapperFacts.
Import Form1099ToForm1040Mapper.

Lemma get_set_eq line v f : get (set line v f) line = Some v.
Proof. unfold get, set. simpl. apply lookup_insert_eq. Qed.

Lemma get_set_ne line line' v f :
  line <> line' -> get (set line v f) line' = get f line'.
Proof. intros N. unfold get, set. simpl. apply lookup_insert_ne. exact N. Qed.

Lemma filingStatus_set line v f : filingStatus (set line v f) = filingStatus f.
Proof. reflexivity. Qed.

Lemma get_setOptional_eq line v f : get (setOptional line v f) line = v.
Proof. unfold get, setOptional. simpl. apply lookup_partial_alter_eq. Qed.

Lemma get_setOptional_ne line line' v f :
  line <> line' -> get (setOptional line v f) line' = get f line'.
Proof.
  intros N. unfold get, setOptional. simpl.
  apply lookup_partial_alter_ne. exact N.
Qed.

Lemma filingStatus_setOptional line v f :
  filingStatus (setOptional line v f) = filingStatus f.
Proof. reflexivity. Qed.

End MapperFacts.

Section TaxComputation.
Import Form1099ToForm1040Mapper TaxFormReadings.

(** *** The recomputation, statement by statement *)

Lemma get_totalIncomeStep f line :
  get (totalIncomeStep f) line =
  if decide (line = "line9") then Some (calculateTotalIncome f) else get f line.
Proof.
  unfold totalIncomeStep. case_decide as E.
  - subst. apply get_set_eq.
  - apply get_set_ne. congruence.
Qed.

Lemma get_adjustedGrossIncomeStep f line :
  get (adjustedGrossIncomeStep f) line =
  if decide (line = "line11") then get f "line9" else get f line.
Proof.
  unfold adjustedGrossIncomeStep. case_decide as E.
  - subst. apply get_setOptional_eq.
  - apply get_setOptional_ne. congruence.
Qed.

Lemma get_standardDeductionStep f line :
  get (standardDeductionStep f) line =
  if decide (line = "line12") then deductionLine f else get f line.
Proof.
  unfold standardDeductionStep, deductionLine.
  destruct (filingStatus f) as [st |].
  - destruct (falsyAmount (get f "line12")); case_decide as E; subst;
      first [ apply get_set_eq | apply get_set_ne; congruence | reflexivity ].
  - case_decide as E; subst; reflexivity.
Qed.

Lemma get_taxableIncomeStep f line :
  get (taxableIncomeStep f) line =
  if decide (line = "line15")
  then Some (Qmax 0 (or0 (get f "line11") - or0 (get f "line12")
                     - or0 (get f "line13")))
  else get f line.
Proof.
  unfold taxableIncomeStep. case_decide as E.
  - subst. apply get_set_eq.
  - apply get_set_ne. congruence.
Qed.

Lemma get_taxLiabilityStep f line :
  get (taxLiabilityStep f) line =
  if decide (line = "line16")
  then Some (calculateTaxLiability (or0 (get f "line15")) (filingStatus f))
  else get f line.
Proof.
  unfold taxLiabilityStep. case_decide as E.
  - subst. apply get_set_eq.
  - apply get_set_ne. congruence.
Qed.

Lemma get_totalTaxStep f line :
  get (totalTaxStep f) line =
  if decide (line = "line24")
  then Some (or0 (get f "line16") + or0 (get f "line17") + or0 (get f "line23"))
  else get f line.
Proof.
  unfold totalTaxStep. case_decide as E.
  - subst. apply get_set_eq.
  - apply get_set_ne. congruence.
Qed.

Lemma get_totalPaymentsStep f line :
  get (totalPaymentsStep f) line =
  if decide (line = "line32") then Some (paymentLines f) else get f line.
Proof.
  unfold totalPaymentsStep, paymentLines. case_decide as E.
  - subst. apply get_set_eq.
  - apply get_set_ne. congruence.
Qed.

Lemma get_refundOrAmountOwedStep f line :
  get (refundOrAmountOwedStep f) line =
  let totalTax := or0 (get f "line24") in
  let totalPayments := or0 (get f "line32") in
  if decide (line = "line37")
  then Some (if Qlt_bool totalTax totalPayments then 0
             else totalTax - totalPayments)
  else if decide (line = "line34")
  then Some (if Qlt_bool totalTax totalPayments then totalPayments - totalTax
             else 0)
  else if decide (line = "line33")
  then Some (if Qlt_bool totalTax totalPayments then totalPayments - totalTax
             else 0)
  else get f line.
Proof.
  cbv zeta. unfold refundOrAmountOwedStep.
  destruct (Qlt_bool _ _); repeat case_decide; subst;
    repeat first [ rewrite get_set_eq | rewrite get_set_ne by congruence ];
    reflexivity.
Qed.

Lemma filingStatus_recalculate f :
  filingStatus (recalculateForm1040Totals f) = filingStatus f.
Proof.
  unfold recalculateForm1040Totals, refundOrAmountOwedStep, totalPaymentsStep,
    totalTaxStep, taxLiabilityStep, taxableIncomeStep.
  cbv zeta. destruct (Qlt_bool _ _); rewrite !filingStatus_set;
    unfold standardDeductionStep;
    destruct (filingStatus (adjustedGrossIncomeStep (totalIncomeStep f))) eqn:E;
    try destruct (falsyAmount _); rewrite ?filingStatus_set; reflexivity.
Qed.

Lemma filingStatus_standardDeductionStep f :
  filingStatus (standardDeductionStep f) = filingStatus f.
Proof.
  unfold standardDeductionStep.
  destruct (filingStatus f) eqn:E; [destruct (falsyAmount _) |];
    rewrite ?filingStatus_set; congruence.
Qed.

Lemma deductionLine_same f g :
  filingStatus g = filingStatus f -> get g "line12" = get f "line12" ->
  deductionLine g = deductionLine f.
Proof. intros Hs Hl. unfold deductionLine. rewrite Hs, Hl. reflexivity. Qed.

Ltac decide_lines :=
  repeat first
    [ rewrite decide_True by reflexivity
    | rewrite decide_False by discriminate ].

Ltac read_status :=
  repeat first
    [ rewrite filingStatus_standardDeductionStep
    | progress unfold totalIncomeStep, adjustedGrossIncomeStep,
        taxableIncomeStep, taxLiabilityStep, totalTaxStep, totalPaymentsStep
    | rewrite filingStatus_set
    | rewrite filingStatus_setOptional ].

Ltac read_recalculated :=
  repeat
    (first
       [ rewrite get_refundOrAmountOwedStep
       | rewrite get_totalPaymentsStep
       | rewrite get_totalTaxStep
       | rewrite get_taxLiabilityStep
       | rewrite get_taxableIncomeStep
       | rewrite get_standardDeductionStep
       | rewrite get_adjustedGrossIncomeStep
       | rewrite get_totalIncomeStep ];
     cbv zeta; decide_lines).

Lemma deductionLine_after_agi f :
  deductionLine (adjustedGrossIncomeStep (totalIncomeStep f)) = deductionLine f.
Proof.
  apply deductionLine_same; [reflexivity |]. read_recalculated. reflexivity.
Qed.

Lemma paymentLines_before_step f :
  paymentLines
    (totalTaxStep (taxLiabilityStep (taxableIncomeStep (standardDeductionStep
       (adjustedGrossIncomeStep (totalIncomeStep f))))))
  = paymentLines f.
Proof. unfold paymentLines. read_recalculated. reflexivity. Qed.

(** Every derived line after [recalculateForm1040Totals], in terms of the
    form the function is given. *)
Lemma recalculate_lines (f : Form1040Data) :
  let f' := recalculateForm1040Totals f in
  let taxable :=
    Qmax 0 (calculateTotalIncome f - or0 (deductionLine f) - or0 (get f "line13")) in
  let liability := calculateTaxLiability taxable (filingStatus f) in
  let tax := liability + or0 (get f "line17") + or0 (get f "line23") in
  let payments := paymentLines f in
  get f' "line9" = Some (calculateTotalIncome f) /\
  get f' "line11" = Some (calculateTotalIncome f) /\
  get f' "line12" = deductionLine f /\
  get f' "line15" = Some taxable /\
  get f' "line16" = Some liability /\
  get f' "line24" = Some tax /\
  get f' "line32" = Some payments /\
  get f' "line33" = Some (if Qlt_bool tax payments then payments - tax else 0) /\
  get f' "line37" = Some (if Qlt_bool tax payments then 0 else tax - payments).
Proof.
  cbv zeta. unfold recalculateForm1040Totals. cbv zeta.
  repeat split; read_recalculated;
    rewrite ?paymentLines_before_step; read_recalculated;
    rewrite ?deductionLine_after_agi; read_status; reflexivity.
Qed.

Lemma lineIs_of_get f line v q : get f line = Some v -> v == q -> lineIs f line q.
Proof. intros G E. exists v. split; assumption. Qed.

(** C1. The wage-statement scenario: wages 50,000.00 on line 1, federal
    withholding 6,000.00 on line 25a, filing status SINGLE.  The
    recomputation applies the standard deduction 13,850 and leaves taxable
    income 36,150.00, bracket liability 4,118.00 (1,100 in the 10% bracket and
    3,018 in the 12% bracket), total payments 6,000.00, refund 1,882.00 and
    amount owed 0. *)
Theorem C1_wage_statement_scenario :
  let f' := recalculateForm1040Totals wageStatementForm in
  getStandardDeduction (filingStatus wageStatementForm) == 13850 /\
  lineIs f' "line12" 13850 /\
  lineIs f' "line15" 36150 /\
  bracketLoop bracketsDefault 0 36150 == 1100 + (36150 - 11000) * 0.12 /\
  calculateTaxLiability 36150 (Some SINGLE) == 4118 /\
  lineIs f' "line16" 4118 /\
  lineIs f' "line24" 4118 /\
  lineIs f' "line32" 6000 /\
  lineIs f' "line33" 1882 /\
  lineIs f' "line37" 0.
Proof.
  cbv zeta.
  repeat split;
    try (eapply lineIs_of_get; [vm_compute; reflexivity | vm_compute; reflexivity]);
    vm_compute; reflexivity.
Qed.

(** C2. After the recomputation, for every form: total tax (line 24) is the
    liability plus lines 17 and 23, total payments (line 32) is the sum of
    lines 25a to 25d; when the payments are strictly greater than the total
    tax the refund (line 33) is their difference and the amount owed (line
    37) is 0; otherwise the refund is 0 and the amount owed is total tax
    minus payments.  The two are never both nonzero and neither is
    negative. *)
Theorem C2_refund_or_amount_owed (f : Form1040Data) :
  let f' := recalculateForm1040Totals f in
  exists liability totalTax totalPayments refund amountOwed : Q,
    get f' "line16" = Some liability /\
    get f' "line24" = Some totalTax /\
    get f' "line32" = Some totalPayments /\
    get f' "line33" = Some refund /\
    get f' "line37" = Some amountOwed /\
    totalTax == liability + or0 (get f "line17") + or0 (get f "line23") /\
    totalPayments == paymentLines f /\
    (totalTax < totalPayments ->
       refund == totalPayments - totalTax /\ amountOwed == 0) /\
    (~ totalTax < totalPayments ->
       refund == 0 /\ amountOwed == totalTax - totalPayments) /\
    (refund == 0 \/ amountOwed == 0) /\
    0 <= refund /\ 0 <= amountOwed.
Proof.
  cbv zeta.
  destruct (recalculate_lines f)
    as (_ & _ & _ & _ & H16 & H24 & H32 & H33 & H37).
  cbv zeta in *.
  eexists _, _, _, _, _.
  split; [exact H16 |]. split; [exact H24 |]. split; [exact H32 |].
  split; [exact H33 |]. split; [exact H37 |].
  split; [reflexivity |]. split; [reflexivity |].
  match goal with
  | |- context [Qlt_bool ?a ?b] => destruct (Qlt_bool a b) eqn:E
  end.
  - apply Qlt_bool_true in E.
    split; [intros _; split; reflexivity |].
    split; [intros N; contradiction |].
    split; [right; reflexivity |].
    split; [lra | lra].
  - apply Qlt_bool_false in E.
    split; [intros L; lra |].
    split; [intros _; split; reflexivity |].
    split; [left; reflexivity |].
    split; [lra | lra].
Qed.

(** *** The mapping rules, line by line *)

Lemma get_addTo_eq line v f :
  get (addTo line v f) line =
  if Qlt_bool 0 v then Some (or0 (get f line) + v) else get f line.
Proof. unfold addTo. destruct (Qlt_bool 0 v); [apply get_set_eq | reflexivity]. Qed.

Lemma get_addTo_ne line line' v f :
  line <> line' -> get (addTo line v f) line' = get f line'.
Proof.
  intros N. unfold addTo. destruct (Qlt_bool 0 v); [| reflexivity].
  apply get_set_ne. exact N.
Qed.

Lemma get_assignTo_ne line line' v f :
  line <> line' -> get (assignTo line v f) line' = get f line'.
Proof.
  intros N. unfold assignTo. destruct (Qlt_bool 0 v); [| reflexivity].
  apply get_set_ne. exact N.
Qed.

Lemma get_reduceBy_eq line v f :
  get (reduceBy line v f) line =
  if Qlt_bool 0 v then Some (Qmax 0 (or0 (get f line) - v)) else get f line.
Proof. unfold reduceBy. destruct (Qlt_bool 0 v); [apply get_set_eq | reflexivity]. Qed.

Lemma get_reduceBy_ne line line' v f :
  line <> line' -> get (reduceBy line v f) line' = get f line'.
Proof.
  intros N. unfold reduceBy. destruct (Qlt_bool 0 v); [| reflexivity].
  apply get_set_ne. exact N.
Qed.

Lemma get_addForeignTax_ne d line' v f :
  "foreignTaxCredit.foreignTaxPaid" <> line' ->
  get (addForeignTax d v f) line' = get f line'.
Proof.
  intros N. unfold addForeignTax. destruct (Qlt_bool 0 v); [| reflexivity].
  unfold get, setForeignCountry. simpl. apply lookup_insert_ne. exact N.
Qed.

Lemma filingStatus_addTo line v f : filingStatus (addTo line v f) = filingStatus f.
Proof. unfold addTo. destruct (Qlt_bool 0 v); reflexivity. Qed.

Lemma filingStatus_assignTo line v f :
  filingStatus (assignTo line v f) = filingStatus f.
Proof. unfold assignTo. destruct (Qlt_bool 0 v); reflexivity. Qed.

Lemma filingStatus_reduceBy line v f :
  filingStatus (reduceBy line v f) = filingStatus f.
Proof. unfold reduceBy. destruct (Qlt_bool 0 v); reflexivity. Qed.

Lemma filingStatus_addForeignTax d v f :
  filingStatus (addForeignTax d v f) = filingStatus f.
Proof. unfold addForeignTax. destruct (Qlt_bool 0 v); reflexivity. Qed.

Lemma filingStatus_mapIncome d f : filingStatus (mapIncome d f) = filingStatus f.
Proof.
  unfold mapIncome. cbv zeta.
  repeat first
    [ rewrite filingStatus_addTo
    | rewrite filingStatus_addForeignTax
    | rewrite filingStatus_reduceBy
    | rewrite filingStatus_assignTo ].
  reflexivity.
Qed.

Ltac read_rules :=
  repeat first
    [ rewrite get_addTo_ne by discriminate
    | rewrite get_assignTo_ne by discriminate
    | rewrite get_reduceBy_ne by discriminate
    | rewrite get_addForeignTax_ne by discriminate ].

(** The recomputation writes the derived lines only. *)
Lemma recalculate_other_lines (f : Form1040Data) (line : string) :
  line ∉ derivedLines ->
  get (recalculateForm1040Totals f) line = get f line.
Proof.
  unfold derivedLines. rewrite !not_elem_of_cons.
  intros (N9 & N11 & N12 & N15 & N16 & N24 & N32 & N33 & N34 & N37 & _).
  unfold recalculateForm1040Totals. cbv zeta.
  rewrite get_refundOrAmountOwedStep. cbv zeta.
  rewrite !decide_False by assumption.
  rewrite get_totalPaymentsStep, decide_False by assumption.
  rewrite get_totalTaxStep, decide_False by assumption.
  rewrite get_taxLiabilityStep, decide_False by assumption.
  rewrite get_taxableIncomeStep, decide_False by assumption.
  rewrite get_standardDeductionStep, decide_False by assumption.
  rewrite get_adjustedGrossIncomeStep, decide_False by assumption.
  rewrite get_totalIncomeStep, decide_False by assumption.
  reflexivity.
Qed.

Ltac not_derived := apply (bool_decide_unpack _); vm_compute; exact I.

(** Line 2b after the income rules of one document. *)
Lemma mapIncome_line2b (d : gmap string JsValue) (f : Form1040Data) :
  let amount key := Form1099ToForm1040Mapper.parseAmount (prop d key) in
  get (mapIncome d f) "line2b" =
  get (reduceBy "line2b" (amount "bondPremium")
         (addTo "line2b" (amount "marketDiscount")
            (addTo "line2b" (amount "interestOnUSavingsBonds")
               (addTo "line2b" (amount "interestIncome") f)))) "line2b".
Proof.
  cbv zeta. unfold mapIncome. cbv zeta.
  repeat first
    [ rewrite get_reduceBy_eq
    | rewrite get_addTo_eq
    | progress read_rules ].
  reflexivity.
Qed.

(** C3. Taxable income is never negative, for every form and filing status:
    the recomputation of the mapper leaves on line 15 the excess of total
    income over the deductions, clamped at zero (so it is 0 when the
    deductions reach the income), and so does [calculateTaxableIncome] of
    the abstract form, whatever the concrete form supplies as standard
    deduction.  The bond-premium rule, when it fires, leaves on line 2b the
    prior amount less the premium clamped at zero, and leaves the form
    untouched when it does not fire; line 2b is still that non-negative
    amount after the whole mapping of the document. *)
Theorem C3_taxable_income_and_reduced_line_not_negative :
  (forall f : Form1040Data,
     exists taxable : Q,
       get (recalculateForm1040Totals f) "line15" = Some taxable /\
       0 <= taxable /\
       taxable ==
         Qmax 0 (calculateTotalIncome f - or0 (deductionLine f)
                 - or0 (get f "line13")) /\
       (calculateTotalIncome f <= or0 (deductionLine f) + or0 (get f "line13") ->
        taxable == 0)) /\
  (forall (methods : AbstractForm1040.Form1040Methods) (formData : Form1040Data),
     0 <= AbstractForm1040.calculateTaxableIncome formData /\
     (AbstractForm1040.calculateAGI formData <=
        Qmax (AbstractForm1040.getStandardDeduction (filingStatus formData))
             (or0 (get formData "line12"))
        + or0 (get formData "line13") ->
      AbstractForm1040.calculateTaxableIncome formData == 0)) /\
  (forall (bondPremium : Q) (f : Form1040Data),
     (0 < bondPremium ->
      exists reduced : Q,
        get (reduceBy "line2b" bondPremium f) "line2b" = Some reduced /\
        0 <= reduced /\
        reduced == Qmax 0 (or0 (get f "line2b") - bondPremium)) /\
     (~ 0 < bondPremium -> reduceBy "line2b" bondPremium f = f)) /\
  (forall (d : Form1099Data) (f : Form1040Data),
     0 < Form1099ToForm1040Mapper.parseAmount
           (prop (actual1099Data d) "bondPremium") ->
     exists reduced : Q,
       get (map1099ToForm1040 d f) "line2b" = Some reduced /\ 0 <= reduced).
Proof.
  split; [| split; [| split]].
  - intros f.
    destruct (recalculate_lines f) as (_ & _ & _ & H15 & _). cbv zeta in H15.
    eexists. split; [exact H15 |]. split; [apply Qmax_0_nonneg |].
    split; [reflexivity |].
    intros L. apply Qmax_0_of_nonpos. lra.
  - intros methods formData.
    unfold AbstractForm1040.calculateTaxableIncome. cbv zeta.
    split; [apply Qmax_0_nonneg |].
    intros L. apply Qmax_0_of_nonpos. lra.
  - intros bondPremium f. split.
    + intros P. apply Qlt_bool_true in P.
      rewrite get_reduceBy_eq, P.
      eexists. split; [reflexivity |]. split; [apply Qmax_0_nonneg | reflexivity].
    + intros N. unfold reduceBy.
      destruct (Qlt_bool 0 bondPremium) eqn:E; [| reflexivity].
      apply Qlt_bool_true in E. contradiction.
  - intros d f P. apply Qlt_bool_true in P.
    unfold map1099ToForm1040.
    rewrite recalculate_other_lines by not_derived.
    rewrite mapIncome_line2b. cbv zeta.
    rewrite get_reduceBy_eq, P.
    eexists. split; [reflexivity | apply Qmax_0_nonneg].
Qed.

Lemma C3_witness_low_income_and_large_premium :
  lineIs (recalculateForm1040Totals lowIncomeForm) "line15" 0 /\
  (let methods := AbstractForm1040.Standard1040Form.methods in
   AbstractForm1040.calculateTaxableIncome lowIncomeForm == 0) /\
  lineIs (reduceBy "line2b" 50 lowIncomeForm) "line2b" 0 /\
  lineIs (map1099ToForm1040 premiumDocument lowIncomeForm) "line2b" 0.
Proof.
  pose proof C3_taxable_income_and_reduced_line_not_negative
    as (Hrecompute & Habstract & Hrule & Hmapping).
  split; [| split; [| split]].
  - destruct (Hrecompute lowIncomeForm) as (taxable & Hget & _ & _ & Hzero).
    exists taxable. split; [exact Hget |].
    apply Hzero. vm_compute. discriminate.
  - cbv zeta.
    apply (proj2 (Habstract AbstractForm1040.Standard1040Form.methods
                    lowIncomeForm)).
    vm_compute. discriminate.
  - destruct (proj1 (Hrule 50 lowIncomeForm)) as (reduced & Hget & _ & Hvalue);
      [vm_compute; reflexivity |].
    exists reduced. split; [exact Hget |].
    rewrite Hvalue. vm_compute. reflexivity.
  - destruct (Hmapping premiumDocument lowIncomeForm)
      as (reduced & Hget & Hnonneg); [vm_compute; reflexivity |].
    exists reduced. split; [exact Hget |].
    assert (E : get (map1099ToForm1040 premiumDocument lowIncomeForm) "line2b"
                = Some 0) by (vm_compute; reflexivity).
    rewrite E in Hget. injection Hget as <-. reflexivity.
Defined.

(** *** Two documents, in either order *)

(** C4, as stated, fails: interest income 100 in one document and a bond
    premium 50 in another.  Interest first, the premium reduces line 2b to
    50; premium first, it is floored at 0 on the empty line and the interest
    then gives 100.  Total income is 50 in one order and 100 in the other. *)
Lemma C4_counterexample_premium_before_interest :
  totalIncome (derivedTotals
     (map1099ToForm1040 premiumDocument
        (map1099ToForm1040 interestDocument emptyForm))) == 50 /\
  totalIncome (derivedTotals
     (map1099ToForm1040 interestDocument
        (map1099ToForm1040 premiumDocument emptyForm))) == 100 /\
  ~ sameTotals
      (derivedTotals
         (map1099ToForm1040 premiumDocument
            (map1099ToForm1040 interestDocument emptyForm)))
      (derivedTotals
         (map1099ToForm1040 interestDocument
            (map1099ToForm1040 premiumDocument emptyForm))).
Proof.
  split; [vm_compute; reflexivity |].
  split; [vm_compute; reflexivity |].
  intros (H & _). vm_compute in H. discriminate H.
Qed.

(** The computations respect equality of rational numbers. *)

Lemma Qlt_bool_same (a b c d : Q) :
  a == b -> c == d -> Qlt_bool a c = Qlt_bool b d.
Proof. intros E1 E2. unfold Qlt_bool. rewrite E1, E2. reflexivity. Qed.

Lemma taxableAtThisBracket_same (x y : Q) (b : TaxBracket) :
  x == y -> taxableAtThisBracket x b == taxableAtThisBracket y b.
Proof.
  intros E. unfold taxableAtThisBracket.
  destruct (Form1099ToForm1040Mapper.max b); [rewrite E; reflexivity | exact E].
Qed.

Lemma bracketLoop_same (brackets : list TaxBracket) :
  forall tax tax' remaining remaining' : Q,
    tax == tax' -> remaining == remaining' ->
    bracketLoop brackets tax remaining == bracketLoop brackets tax' remaining'.
Proof.
  induction brackets as [| b rest IH]; intros tax tax' r r' Et Er; simpl.
  - exact Et.
  - rewrite (Qleb_comp r r' Er 0 0 (Qeq_refl 0)).
    destruct (Qle_bool r' 0); [exact Et |].
    apply IH.
    + rewrite Et, (taxableAtThisBracket_same r r' b Er). reflexivity.
    + rewrite Er at 1. rewrite (taxableAtThisBracket_same r r' b Er). reflexivity.
Qed.

Lemma calculateTaxLiability_same (x y : Q) (status : option FilingStatus) :
  x == y -> calculateTaxLiability x status == calculateTaxLiability y status.
Proof.
  intros E. unfold calculateTaxLiability, mathRound. cbv zeta.
  assert (B : forall brackets,
             bracketLoop brackets 0 x == bracketLoop brackets 0 y).
  { intros brackets. apply bracketLoop_same; [reflexivity | exact E]. }
  destruct status as [[] |]; rewrite B; reflexivity.
Qed.

(** The derived totals depend on the form through its total income, its
    deduction line, lines 13, 17 and 23, its payments and its filing status. *)
Lemma recalculate_sameTotals (f g : Form1040Data) :
  filingStatus f = filingStatus g ->
  calculateTotalIncome f == calculateTotalIncome g ->
  or0 (deductionLine f) == or0 (deductionLine g) ->
  or0 (get f "line13") == or0 (get g "line13") ->
  or0 (get f "line17") == or0 (get g "line17") ->
  or0 (get f "line23") == or0 (get g "line23") ->
  paymentLines f == paymentLines g ->
  sameTotals (derivedTotals (recalculateForm1040Totals f))
             (derivedTotals (recalculateForm1040Totals g)).
Proof.
  intros Hs Hi Hd H13 H17 H23 Hp.
  destruct (recalculate_lines f)
    as (F9 & F11 & _ & F15 & F16 & F24 & F32 & F33 & F37).
  destruct (recalculate_lines g)
    as (G9 & G11 & _ & G15 & G16 & G24 & G32 & G33 & G37).
  cbv zeta in *.
  unfold sameTotals, derivedTotals.
  cbn [totalIncome adjustedGrossIncome taxableIncome taxLiability totalTax
       totalPayments refund amountOwed].
  rewrite F9, F11, F15, F16, F24, F32, F33, F37.
  rewrite G9, G11, G15, G16, G24, G32, G33, G37.
  repeat match goal with
         | |- context [or0 (Some ?x)] => change (or0 (Some x)) with x
         end.
  assert (E15 : Qmax 0 (calculateTotalIncome f - or0 (deductionLine f)
                        - or0 (get f "line13"))
                == Qmax 0 (calculateTotalIncome g - or0 (deductionLine g)
                           - or0 (get g "line13"))).
  { rewrite Hi, Hd, H13. reflexivity. }
  pose proof (calculateTaxLiability_same _ _ (filingStatus g) E15) as E16.
  rewrite <- Hs in E16 at 1.
  set (lf := calculateTaxLiability _ (filingStatus f)) in *.
  set (lg := calculateTaxLiability _ (filingStatus g)) in *.
  assert (E24 : lf + or0 (get f "line17") + or0 (get f "line23")
                == lg + or0 (get g "line17") + or0 (get g "line23")).
  { rewrite E16, H17, H23. reflexivity. }
  rewrite (Qlt_bool_same _ _ _ _ E24 Hp).
  repeat split; try assumption.
  - match goal with |- context [if ?c then _ else _] => destruct c end;
      [rewrite E24, Hp |]; reflexivity.
  - match goal with |- context [if ?c then _ else _] => destruct c end;
      [| rewrite E24, Hp]; reflexivity.
Qed.

(** *** What one document adds *)

Lemma positivePart_nonneg (v : Q) : 0 <= positivePart v.
Proof.
  unfold positivePart. destruct (Qlt_bool 0 v) eqn:E; [| lra].
  apply Qlt_bool_true in E. lra.
Qed.

Lemma or0_addTo_eq line v f :
  or0 (get (addTo line v f) line) == or0 (get f line) + positivePart v.
Proof.
  rewrite get_addTo_eq. unfold positivePart.
  destruct (Qlt_bool 0 v); simpl; lra.
Qed.

Lemma or0_reduceBy_eq line v f :
  0 <= or0 (get f line) - positivePart v ->
  or0 (get (reduceBy line v f) line) == or0 (get f line) - positivePart v.
Proof.
  rewrite get_reduceBy_eq. unfold positivePart.
  destruct (Qlt_bool 0 v); simpl; intros L; [| lra].
  apply Qmax_0_of_nonneg. exact L.
Qed.

Ltac read_added :=
  repeat first
    [ progress read_rules
    | rewrite or0_addTo_eq ].

Lemma mapIncome_line2b_value (d : Form1099Data) (f : Form1040Data) :
  0 <= or0 (get f "line2b") -> premiumCovered d ->
  or0 (get (mapIncome (actual1099Data d) f) "line2b") ==
  or0 (get f "line2b") + taxableInterestAdded d
  - positivePart (amountOf d "bondPremium").
Proof.
  intros L C. unfold premiumCovered, taxableInterestAdded, amountOf in *.
  rewrite mapIncome_line2b. cbv zeta.
  rewrite or0_reduceBy_eq; read_added; lra.
Qed.

Lemma mapIncome_line3b_value (a : gmap string JsValue) (f : Form1040Data) :
  or0 (get (mapIncome a f) "line3b") ==
  or0 (get f "line3b")
  + positivePart (Form1099ToForm1040Mapper.parseAmount (prop a "ordinaryDividends")).
Proof. unfold mapIncome. cbv zeta. read_added. reflexivity. Qed.

Lemma mapIncome_line7_value (a : gmap string JsValue) (f : Form1040Data) :
  or0 (get (mapIncome a f) "line7") ==
  or0 (get f "line7")
  + positivePart (Form1099ToForm1040Mapper.parseAmount (prop a "totalCapitalGain")).
Proof. unfold mapIncome. cbv zeta. read_added. reflexivity. Qed.

Lemma mapIncome_line8_value (a : gmap string JsValue) (f : Form1040Data) :
  let amount key := Form1099ToForm1040Mapper.parseAmount (prop a key) in
  or0 (get (mapIncome a f) "line8") ==
  or0 (get f "line8")
  + (positivePart (amount "rents") + positivePart (amount "royalties") +
     positivePart (amount "otherIncome") +
     positivePart (amount "nonemployeeCompensation")).
Proof. unfold mapIncome. cbv zeta. read_added. lra. Qed.

Lemma mapIncome_line25a_value (a : gmap string JsValue) (f : Form1040Data) :
  or0 (get (mapIncome a f) "line25a") ==
  or0 (get f "line25a")
  + positivePart (Form1099ToForm1040Mapper.parseAmount (federalTaxWithheldValue a)).
Proof. unfold mapIncome. cbv zeta. read_added. reflexivity. Qed.

(** The income rules write the mapped lines only. *)
Lemma mapIncome_other_lines (a : gmap string JsValue) (f : Form1040Data)
    (line : string) :
  line ∉ mappedLines -> get (mapIncome a f) line = get f line.
Proof.
  unfold mappedLines. rewrite !not_elem_of_cons.
  intros (N1 & N2 & N3 & N4 & N5 & N6 & N7 & N8 & N9 & N10 & N11 & N12 & N13 & _).
  unfold mapIncome. cbv zeta.
  repeat first
    [ rewrite get_addTo_ne by congruence
    | rewrite get_assignTo_ne by congruence
    | rewrite get_reduceBy_ne by congruence
    | rewrite get_addForeignTax_ne by congruence ].
  reflexivity.
Qed.

Ltac not_mapped := apply (bool_decide_unpack _); vm_compute; exact I.

Lemma calculateTotalIncome_recalculate (f : Form1040Data) :
  calculateTotalIncome (recalculateForm1040Totals f) = calculateTotalIncome f.
Proof.
  unfold calculateTotalIncome.
  rewrite !recalculate_other_lines by not_derived. reflexivity.
Qed.

Lemma paymentLines_recalculate (f : Form1040Data) :
  paymentLines (recalculateForm1040Totals f) = paymentLines f.
Proof.
  unfold paymentLines.
  rewrite !recalculate_other_lines by not_derived. reflexivity.
Qed.

Lemma calculateTotalIncome_mapIncome (d : Form1099Data) (f : Form1040Data) :
  0 <= or0 (get f "line2b") -> premiumCovered d ->
  calculateTotalIncome (mapIncome (actual1099Data d) f) ==
  calculateTotalIncome f + incomeAdded d.
Proof.
  intros L C. unfold calculateTotalIncome, incomeAdded, amountOf.
  rewrite (mapIncome_line2b_value d f L C).
  rewrite mapIncome_line3b_value, mapIncome_line7_value, mapIncome_line8_value.
  rewrite !mapIncome_other_lines by not_mapped.
  unfold amountOf. lra.
Qed.

Lemma paymentLines_mapIncome (d : Form1099Data) (f : Form1040Data) :
  paymentLines (mapIncome (actual1099Data d) f) ==
  paymentLines f + withholdingAdded d.
Proof.
  unfold paymentLines, withholdingAdded.
  rewrite mapIncome_line25a_value.
  rewrite !mapIncome_other_lines by not_mapped. lra.
Qed.

Lemma line2b_nonneg_after_map (d : Form1099Data) (f : Form1040Data) :
  0 <= or0 (get f "line2b") -> premiumCovered d ->
  0 <= or0 (get (map1099ToForm1040 d f) "line2b").
Proof.
  intros L C. unfold map1099ToForm1040.
  rewrite recalculate_other_lines by not_derived.
  rewrite (mapIncome_line2b_value d f L C).
  unfold premiumCovered in C. lra.
Qed.

Lemma deductionLine_mapIncome (a : gmap string JsValue) (f : Form1040Data) :
  deductionLine (mapIncome a f) = deductionLine f.
Proof.
  apply deductionLine_same; [apply filingStatus_mapIncome |].
  apply mapIncome_other_lines. not_mapped.
Qed.

(** The form on which the second document's totals are recomputed, in terms
    of the starting form and the two documents. *)
Lemma second_mapping_inputs (d1 d2 : Form1099Data) (f : Form1040Data) :
  0 <= or0 (get f "line2b") -> premiumCovered d1 -> premiumCovered d2 ->
  let h := mapIncome (actual1099Data d2) (map1099ToForm1040 d1 f) in
  filingStatus h = filingStatus f /\
  calculateTotalIncome h == calculateTotalIncome f + incomeAdded d1 + incomeAdded d2 /\
  get h "line12" = deductionLine f /\
  get h "line13" = get f "line13" /\
  get h "line17" = get f "line17" /\
  get h "line23" = get f "line23" /\
  paymentLines h == paymentLines f + withholdingAdded d1 + withholdingAdded d2.
Proof.
  intros L C1 C2. cbv zeta.
  assert (S : filingStatus (map1099ToForm1040 d1 f) = filingStatus f).
  { unfold map1099ToForm1040.
    rewrite filingStatus_recalculate. apply filingStatus_mapIncome. }
  split; [rewrite filingStatus_mapIncome; exact S |].
  split.
  { rewrite calculateTotalIncome_mapIncome;
      [| apply line2b_nonneg_after_map; assumption | exact C2].
    unfold map1099ToForm1040. rewrite calculateTotalIncome_recalculate.
    rewrite calculateTotalIncome_mapIncome by assumption. reflexivity. }
  split.
  { rewrite mapIncome_other_lines by not_mapped.
    unfold map1099ToForm1040.
    destruct (recalculate_lines (mapIncome (actual1099Data d1) f))
      as (_ & _ & H12 & _).
    cbv zeta in H12. rewrite H12. apply deductionLine_mapIncome. }
  split.
  { rewrite mapIncome_other_lines by not_mapped. unfold map1099ToForm1040.
    rewrite recalculate_other_lines by not_derived.
    apply mapIncome_other_lines. not_mapped. }
  split.
  { rewrite mapIncome_other_lines by not_mapped. unfold map1099ToForm1040.
    rewrite recalculate_other_lines by not_derived.
    apply mapIncome_other_lines. not_mapped. }
  split.
  { rewrite mapIncome_other_lines by not_mapped. unfold map1099ToForm1040.
    rewrite recalculate_other_lines by not_derived.
    apply mapIncome_other_lines. not_mapped. }
  rewrite paymentLines_mapIncome. unfold map1099ToForm1040.
  rewrite paymentLines_recalculate, paymentLines_mapIncome. reflexivity.
Qed.

(** Two documents whose bond premiums are covered give the same derived
    totals in either order, on every form whose line 2b is not negative. *)
Lemma map_order_independent (d1 d2 : Form1099Data) (f : Form1040Data) :
  0 <= or0 (get f "line2b") -> premiumCovered d1 -> premiumCovered d2 ->
  sameTotals
    (derivedTotals (map1099ToForm1040 d2 (map1099ToForm1040 d1 f)))
    (derivedTotals (map1099ToForm1040 d1 (map1099ToForm1040 d2 f))).
Proof.
  intros L C1 C2.
  destruct (second_mapping_inputs d1 d2 f L C1 C2)
    as (As & Ai & A12 & A13 & A17 & A23 & Ap).
  destruct (second_mapping_inputs d2 d1 f L C2 C1)
    as (Bs & Bi & B12 & B13 & B17 & B23 & Bp).
  cbv zeta in *.
  unfold map1099ToForm1040 at 1 3.
  apply recalculate_sameTotals.
  - congruence.
  - rewrite Ai, Bi. lra.
  - rewrite (deductionLine_same
               (mapIncome (actual1099Data d1) (map1099ToForm1040 d2 f))
               (mapIncome (actual1099Data d2) (map1099ToForm1040 d1 f)));
      [reflexivity | congruence | congruence].
  - rewrite A13, B13. reflexivity.
  - rewrite A17, B17. reflexivity.
  - rewrite A23, B23. reflexivity.
  - rewrite Ap, Bp. lra.
Qed.

(** C4, amended.  On a form without amounts (for a filer of any filing
    status, or none), two documents give the same derived totals in either
    order whenever, in each document, every amount is a whole number of
    currency units, so that the sums of the code are exact, and the bond
    premium does not exceed the taxable interest the same document adds, so
    that the floor at zero of the bond-premium rule does not bind. *)
Theorem C4_order_independent_when_premium_covered
    (status : option FilingStatus) (d1 d2 : Form1099Data) :
  wholeAmounts d1 -> wholeAmounts d2 ->
  premiumCovered d1 -> premiumCovered d2 ->
  sameTotals
    (derivedTotals
       (map1099ToForm1040 d2 (map1099ToForm1040 d1 (newForm status))))
    (derivedTotals
       (map1099ToForm1040 d1 (map1099ToForm1040 d2 (newForm status)))).
Proof.
  intros _ _ C1 C2. apply map_order_independent; [| exact C1 | exact C2].
  unfold get, newForm. simpl. rewrite lookup_empty. simpl. lra.
Qed.

Lemma C4_witness_covered_premium_and_dividends :
  wholeAmounts coveredInterestDocument /\
  wholeAmounts dividendDocument /\
  premiumCovered coveredInterestDocument /\
  premiumCovered dividendDocument /\
  sameTotals
    (derivedTotals
       (map1099ToForm1040 dividendDocument
          (map1099ToForm1040 coveredInterestDocument (newForm (Some SINGLE)))))
    (derivedTotals
       (map1099ToForm1040 coveredInterestDocument
          (map1099ToForm1040 dividendDocument (newForm (Some SINGLE))))).
Proof.
  assert (W1 : wholeAmounts coveredInterestDocument).
  { intros key. unfold amountOf, prop.
    cbn [actual1099Data coveredInterestDocument document extractedData fields].
    destruct (decide (key = "interestIncome")) as [-> | N1];
      [exists 60000%Z; split; [lia | reflexivity] |].
    rewrite lookup_insert_ne by congruence.
    destruct (decide (key = "bondPremium")) as [-> | N2];
      [exists 1500%Z; split; [lia | reflexivity] |].
    rewrite lookup_singleton_ne by congruence.
    exists 0%Z. split; [lia | reflexivity]. }
  assert (W2 : wholeAmounts dividendDocument).
  { intros key. unfold amountOf, prop.
    cbn [actual1099Data dividendDocument document extractedData fields].
    destruct (decide (key = "ordinaryDividends")) as [-> | N1];
      [exists 2400%Z; split; [lia | vm_compute; reflexivity] |].
    rewrite lookup_insert_ne by congruence.
    destruct (decide (key = "federalTaxWithheld")) as [-> | N2];
      [exists 9000%Z; split; [lia | reflexivity] |].
    rewrite lookup_singleton_ne by congruence.
    exists 0%Z. split; [lia | reflexivity]. }
  assert (C1 : premiumCovered coveredInterestDocument)
    by (vm_compute; discriminate).
  assert (C2 : premiumCovered dividendDocument) by (vm_compute; discriminate).
  split; [exact W1 |]. split; [exact W2 |].
  split; [exact C1 |]. split; [exact C2 |].
  exact (C4_order_independent_when_premium_covered
           (Some SINGLE) coveredInterestDocument dividendDocument W1 W2 C1 C2).
Defined.

(** The totals of that example: income 60,900, taxable income 47,050,
    liability 5,658.50, payments 9,000, refund 3,341.50. *)
Example covered_premium_and_dividends_totals :
  let t := derivedTotals
             (map1099ToForm1040 dividendDocument
                (map1099ToForm1040 coveredInterestDocument
                   (newForm (Some SINGLE)))) in
  totalIncome t == 60900 /\ taxableIncome t == 47050 /\
  taxLiability t == 5658.50 /\ totalPayments t == 9000 /\
  refund t == 3341.50 /\ amountOwed t == 0.
Proof. cbv zeta. repeat split; vm_compute; reflexivity. Qed.

(** *** The bracket tables and the liability *)

Section BracketTables.
Import Form1099ToForm1040Mapper TaxTableReadings.

Lemma Qle_bool_true (x y : Q) : Qle_bool x y = true <-> x <= y.
Proof. apply Qle_bool_iff. Qed.

Lemma Qle_bool_false (x y : Q) : Qle_bool x y = false <-> y < x.
Proof.
  destruct (Qle_bool x y) eqn:E.
  - apply Qle_bool_iff in E. split; [discriminate | intros L; lra].
  - split; [intros _ | reflexivity].
    destruct (Qlt_le_dec y x) as [L | L]; [exact L |].
    apply Qle_bool_iff in L. congruence.
Qed.

(** What a bracket takes of the remaining income, when that is positive. *)
Lemma taxableAtThisBracket_bounds bottom top (r : Q) (b : TaxBracket) :
  wellFormed bottom top b -> 0 <= r ->
  0 <= taxableAtThisBracket r b /\ taxableAtThisBracket r b <= r.
Proof.
  intros (_ & _ & W) Hr. unfold taxableAtThisBracket.
  destruct (max b) as [hi |]; [| lra].
  destruct (Q.min_spec r (hi - min b)) as [[L E] | [L E]]; rewrite E; lra.
Qed.

Lemma taxableAtThisBracket_monotone bottom top (r1 r2 : Q) (b : TaxBracket) :
  wellFormed bottom top b -> r1 <= r2 ->
  taxableAtThisBracket r1 b <= taxableAtThisBracket r2 b /\
  r1 - taxableAtThisBracket r1 b <= r2 - taxableAtThisBracket r2 b.
Proof.
  intros (_ & _ & W) Hr. unfold taxableAtThisBracket.
  destruct (max b) as [hi |]; [| lra].
  destruct (Q.min_spec r1 (hi - min b)) as [[L1 E1] | [L1 E1]]; rewrite E1;
    destruct (Q.min_spec r2 (hi - min b)) as [[L2 E2] | [L2 E2]]; rewrite E2;
    lra.
Qed.

(** The loop never takes tax back. *)
Lemma bracketLoop_grows bottom top (brackets : list TaxBracket) :
  0 <= bottom -> Forall (wellFormed bottom top) brackets ->
  forall tax r, tax <= bracketLoop brackets tax r.
Proof.
  intros Hb. induction 1 as [| b rest Wb _ IH]; intros tax r; simpl; [lra |].
  destruct (Qle_bool r 0) eqn:E; [lra |].
  apply Qle_bool_false in E.
  destruct (taxableAtThisBracket_bounds bottom top r b Wb) as [T0 _]; [lra |].
  destruct Wb as (Rb & _ & _).
  eapply Qle_trans; [| apply IH]. nra.
Qed.

Lemma bracketLoop_monotone bottom top (brackets : list TaxBracket) :
  0 <= bottom -> Forall (wellFormed bottom top) brackets ->
  forall tax1 tax2 r1 r2,
    tax1 <= tax2 -> r1 <= r2 ->
    bracketLoop brackets tax1 r1 <= bracketLoop brackets tax2 r2.
Proof.
  intros Hb W. induction W as [| b rest Wb Wrest IH];
    intros tax1 tax2 r1 r2 Ht Hr; simpl; [exact Ht |].
  destruct (Qle_bool r1 0) eqn:E1.
  - destruct (Qle_bool r2 0) eqn:E2; [exact Ht |].
    apply Qle_bool_false in E2.
    destruct (taxableAtThisBracket_bounds bottom top r2 b Wb) as [T0 _]; [lra |].
    eapply Qle_trans; [| apply (bracketLoop_grows bottom top rest Hb Wrest)].
    destruct Wb as (Rb & _ & _). nra.
  - apply Qle_bool_false in E1.
    assert (E2 : Qle_bool r2 0 = false) by (apply Qle_bool_false; lra).
    rewrite E2.
    destruct (taxableAtThisBracket_monotone bottom top r1 r2 b Wb Hr) as [M1 M2].
    destruct (taxableAtThisBracket_bounds bottom top r1 b Wb) as [T0 _]; [lra |].
    apply IH; [| exact M2].
    destruct Wb as (Rb & _ & _). nra.
Qed.

(** With no income left, the loop is over. *)
Lemma bracketLoop_done (brackets : list TaxBracket) (tax r : Q) :
  r <= 0 -> bracketLoop brackets tax r = tax.
Proof.
  intros Hr. destruct brackets as [| b rest]; [reflexivity |]. simpl.
  apply Qle_bool_true in Hr. rewrite Hr. reflexivity.
Qed.

Lemma bracketLoop_upper bottom top (brackets : list TaxBracket) :
  0 <= bottom -> bottom <= top -> Forall (wellFormed bottom top) brackets ->
  forall tax r, 0 <= r -> bracketLoop brackets tax r <= tax + top * r.
Proof.
  intros Hb Hbt W. induction W as [| b rest Wb Wrest IH]; intros tax r Hr; simpl.
  - nra.
  - destruct (Qle_bool r 0) eqn:E.
    + apply Qle_bool_true in E. assert (r == 0) as -> by lra. lra.
    + destruct (taxableAtThisBracket_bounds bottom top r b Wb Hr) as [T0 T1].
      eapply Qle_trans; [apply IH; lra |].
      destruct Wb as (Rb & Rt & _). nra.
Qed.

Lemma bracketLoop_lower bottom top (brackets : list TaxBracket) :
  0 <= bottom -> Forall (wellFormed bottom top) brackets ->
  Exists (fun b => max b = None) brackets ->
  forall tax r, 0 <= r -> tax + bottom * r <= bracketLoop brackets tax r.
Proof.
  intros Hb W. induction W as [| b rest Wb Wrest IH]; intros U tax r Hr.
  - apply Exists_nil in U. contradiction.
  - simpl. destruct (Qle_bool r 0) eqn:E.
    + apply Qle_bool_true in E. nra.
    + apply Qle_bool_false in E.
      destruct (taxableAtThisBracket_bounds bottom top r b Wb Hr) as [T0 T1].
      pose proof Wb as (Rb & _ & _).
      unfold taxableAtThisBracket in *.
      destruct (max b) as [hi |] eqn:M.
      * apply Exists_cons in U as [U | U]; [congruence |].
        eapply Qle_trans; [| apply (IH U); lra]. nra.
      * rewrite bracketLoop_done by lra. nra.
Qed.

(** Rounding to cents: within half a cent, and monotone. *)
Lemma toCents_bounds (tax : Q) :
  tax - (1 # 200) < toCents tax /\ toCents tax <= tax + (1 # 200).
Proof.
  unfold toCents, mathRound.
  pose proof (Qfloor_le (tax * 100 + (1 # 2))) as L.
  pose proof (Qlt_floor (tax * 100 + (1 # 2))) as U.
  rewrite inject_Z_plus in U. change (inject_Z 1) with 1 in U.
  set (n := inject_Z (Qfloor (tax * 100 + (1 # 2)))) in *.
  unfold Qdiv. change (/ 100) with (1 # 100).
  split; lra.
Qed.

Lemma toCents_monotone (tax1 tax2 : Q) :
  tax1 <= tax2 -> toCents tax1 <= toCents tax2.
Proof.
  intros H. unfold toCents, mathRound.
  assert (Z : (Qfloor (tax1 * 100 + (1 # 2)) <= Qfloor (tax2 * 100 + (1 # 2)))%Z)
    by (apply Qfloor_resp_le; lra).
  rewrite Zle_Qle in Z. unfold Qdiv. change (/ 100) with (1 # 100). lra.
Qed.

Lemma toCents_0 : toCents 0 == 0.
Proof. vm_compute. reflexivity. Qed.

(** Income that is not positive counts as no income. *)
Lemma bracketLoop_positive_part (brackets : list TaxBracket) (tax r : Q) :
  bracketLoop brackets tax r == bracketLoop brackets tax (Qmax 0 r).
Proof.
  destruct (Qlt_le_dec 0 r) as [L | L].
  - apply bracketLoop_same; [reflexivity |].
    symmetry. apply Qmax_0_of_nonneg. lra.
  - rewrite !bracketLoop_done; [reflexivity | | exact L].
    rewrite Qmax_0_of_nonpos by exact L. lra.
Qed.

(** One bounded bracket, for a taxable income [x] of which the part above
    [lo] remains. *)
Lemma bracketLoop_bracket (lo hi r : Q) (rest : list TaxBracket) (tax x : Q) :
  lo <= hi ->
  bracketLoop (bracket lo hi r :: rest) tax (Qmax 0 (x - lo))
  == bracketLoop rest (tax + r * (Qmax 0 (x - lo) - Qmax 0 (x - hi)))
       (Qmax 0 (x - hi)).
Proof.
  intros H. destruct (Qlt_le_dec lo x) as [L | L].
  - simpl. assert (Em : Qmax 0 (x - lo) == x - lo)
      by (apply Qmax_0_of_nonneg; lra).
    assert (E : Qle_bool (Qmax 0 (x - lo)) 0 = false)
      by (apply Qle_bool_false; lra).
    rewrite E. unfold taxableAtThisBracket, bracket. cbn [max min rate].
    destruct (Qlt_le_dec hi x) as [L' | L'].
    + assert (Eh : Qmax 0 (x - hi) == x - hi)
        by (apply Qmax_0_of_nonneg; lra).
      assert (Et : Qmin (Qmax 0 (x - lo)) (hi - lo) == hi - lo)
        by (apply Q.min_r; lra).
      apply bracketLoop_same; rewrite Et, Em, Eh; lra.
    + assert (Eh : Qmax 0 (x - hi) == 0)
        by (apply Qmax_0_of_nonpos; lra).
      assert (Et : Qmin (Qmax 0 (x - lo)) (hi - lo) == x - lo)
        by (rewrite Q.min_l; lra).
      apply bracketLoop_same; rewrite Et, Em, Eh; lra.
  - assert (Em : Qmax 0 (x - lo) == 0) by (apply Qmax_0_of_nonpos; lra).
    assert (Eh : Qmax 0 (x - hi) == 0) by (apply Qmax_0_of_nonpos; lra).
    rewrite !bracketLoop_done by lra. rewrite Em, Eh. lra.
Qed.

(** The unbounded bracket takes what remains. *)
Lemma bracketLoop_lastBracket (lo r tax x : Q) :
  bracketLoop [lastBracket lo r] tax (Qmax 0 (x - lo))
  == tax + r * Qmax 0 (x - lo).
Proof.
  simpl. destruct (Qle_bool (Qmax 0 (x - lo)) 0) eqn:E.
  - apply Qle_bool_true in E. pose proof (Qmax_0_nonneg (x - lo)).
    assert (Qmax 0 (x - lo) == 0) as -> by lra. lra.
  - unfold taxableAtThisBracket, lastBracket. cbn [max rate]. lra.
Qed.

(** Of two tables with the same rates, the one with the higher thresholds
    gives the lower tax. *)
Lemma wider_pays_less floor lo1 lo2 (table1 table2 : list TaxBracket) :
  Wider floor lo1 lo2 table1 table2 ->
  forall x tax1 tax2,
    lo1 <= lo2 ->
    tax2 + floor * Qmax 0 (x - lo2) <= tax1 + floor * Qmax 0 (x - lo1) ->
    bracketLoop table2 tax2 (Qmax 0 (x - lo2))
    <= bracketLoop table1 tax1 (Qmax 0 (x - lo1)).
Proof.
  induction 1 as [floor lo1 lo2 r Hr
                 | floor lo1 lo2 hi1 hi2 r rest1 rest2 Hr H1 H2 Hh _ IH];
    intros x tax1 tax2 Hlo Ht.
  - rewrite !bracketLoop_lastBracket.
    assert (M : Qmax 0 (x - lo2) <= Qmax 0 (x - lo1))
      by (apply Q.max_le_compat_l; lra).
    nra.
  - rewrite (bracketLoop_bracket lo1 hi1 r rest1 tax1 x H1).
    rewrite (bracketLoop_bracket lo2 hi2 r rest2 tax2 x H2).
    apply IH; [exact Hh |].
    assert (M : Qmax 0 (x - lo2) <= Qmax 0 (x - lo1))
      by (apply Q.max_le_compat_l; lra).
    nra.
Qed.

Lemma wider_tables_pay_less (table1 table2 : list TaxBracket) (x : Q) :
  Wider 0 0 0 table1 table2 ->
  bracketLoop table2 0 x <= bracketLoop table1 0 x.
Proof.
  intros W. rewrite (bracketLoop_positive_part table2).
  rewrite (bracketLoop_positive_part table1).
  assert (E : Qmax 0 x == Qmax 0 (x - 0)) by (apply Q.max_compat; lra).
  rewrite (bracketLoop_same table2 0 0 _ _ (Qeq_refl 0) E).
  rewrite (bracketLoop_same table1 0 0 _ _ (Qeq_refl 0) E).
  apply (wider_pays_less 0 0 0 table1 table2 W); lra.
Qed.

End BracketTables.

Section TaxLiability.
Import Form1099ToForm1040Mapper TaxTableReadings.
Import AbstractForm1040 (Form1040Methods, getTaxBrackets).
Import AbstractForm1040.Standard1040Form.

Ltac table_facts :=
  repeat first
    [ apply Forall_nil_2
    | apply Forall_cons_2
    | progress (unfold wellFormed, bracket, lastBracket;
                cbn [Form1099ToForm1040Mapper.min Form1099ToForm1040Mapper.max
                     rate])
    | split
    | exact I
    | lra ].

Ltac unbounded_bracket :=
  repeat first [ apply Exists_cons_hd; reflexivity | apply Exists_cons_tl ].

Lemma bracketsDefault_table : rateTable (1 # 10) (37 # 100) bracketsDefault.
Proof.
  split; [unfold bracketsDefault; table_facts |].
  unfold bracketsDefault. unbounded_bracket.
Qed.

Lemma bracketsMarriedFilingJointly_table :
  rateTable (1 # 10) (37 # 100) bracketsMarriedFilingJointly.
Proof.
  split; [unfold bracketsMarriedFilingJointly; table_facts |].
  unfold bracketsMarriedFilingJointly. unbounded_bracket.
Qed.

Lemma taxBrackets_table (status : FilingStatus) :
  rateTable (1 # 10) (37 # 100) (taxBrackets status).
Proof.
  destruct status; (split; [unfold taxBrackets, jointBrackets; table_facts |]);
    unfold taxBrackets, jointBrackets; unbounded_bracket.
Qed.

Lemma mapperTable_table status : rateTable (1 # 10) (37 # 100) (mapperTable status).
Proof.
  destruct status as [[] |];
    first [apply bracketsMarriedFilingJointly_table | apply bracketsDefault_table].
Qed.

Lemma calculateTaxLiability_toCents x status :
  calculateTaxLiability x status = toCents (bracketLoop (mapperTable status) 0 x).
Proof. destruct status as [[] |]; reflexivity. Qed.

Lemma standard_calculateTaxLiability_toCents x status :
  AbstractForm1040.calculateTaxLiability x status
  = toCents (bracketLoop (taxBrackets (default SINGLE status)) 0 x).
Proof. reflexivity. Qed.

(** The liability of a table of rates. *)
Lemma table_liability_monotone bottom top table x y :
  0 <= bottom -> rateTable bottom top table -> x <= y ->
  toCents (bracketLoop table 0 x) <= toCents (bracketLoop table 0 y).
Proof.
  intros Hb [W _] H. apply toCents_monotone.
  apply (bracketLoop_monotone bottom top table Hb W); [lra | exact H].
Qed.

Lemma table_liability_zero table x :
  x <= 0 -> toCents (bracketLoop table 0 x) == 0.
Proof. intros H. rewrite bracketLoop_done by exact H. apply toCents_0. Qed.

Lemma table_liability_bounds bottom top table x :
  0 <= bottom -> bottom <= top -> rateTable bottom top table -> 0 <= x ->
  bottom * x - (1 # 200) < toCents (bracketLoop table 0 x) /\
  toCents (bracketLoop table 0 x) <= top * x + (1 # 200).
Proof.
  intros Hb Hbt [W U] Hx.
  pose proof (bracketLoop_lower bottom top table Hb W U 0 x Hx) as L.
  pose proof (bracketLoop_upper bottom top table Hb Hbt W 0 x Hx) as T.
  destruct (toCents_bounds (bracketLoop table 0 x)) as [B1 B2].
  split; lra.
Qed.

Lemma table_liability_nonneg bottom top table y :
  0 <= bottom -> rateTable bottom top table ->
  0 <= toCents (bracketLoop table 0 y).
Proof.
  intros Hb T. destruct (Qlt_le_dec y 0) as [L | L].
  - rewrite table_liability_zero by lra. lra.
  - pose proof (table_liability_monotone _ _ _ 0 y Hb T L) as Hm.
    rewrite (table_liability_zero _ 0) in Hm by lra. exact Hm.
Qed.

Lemma calculateTaxLiability_nonneg y status : 0 <= calculateTaxLiability y status.
Proof.
  rewrite calculateTaxLiability_toCents.
  apply (table_liability_nonneg (1 # 10) (37 # 100)); [lra |].
  apply mapperTable_table.
Qed.

(** X1.  The tax liability grows with the taxable income: for every filing
    status (or none), a taxable income that is not lower gives a liability
    that is not lower, in the mapper's [calculateTaxLiability] and in the
    one of the form classes alike.  The liability is never negative, and it
    is zero for a taxable income of zero or less. *)
Theorem tax_liability_grows_with_income
    (status : option FilingStatus) (x y : Q) :
  x <= y ->
  calculateTaxLiability x status <= calculateTaxLiability y status /\
  AbstractForm1040.calculateTaxLiability x status
  <= AbstractForm1040.calculateTaxLiability y status /\
  0 <= calculateTaxLiability y status /\
  0 <= AbstractForm1040.calculateTaxLiability y status /\
  (y <= 0 ->
   calculateTaxLiability y status == 0 /\
   AbstractForm1040.calculateTaxLiability y status == 0).
Proof.
  intros H.
  rewrite !calculateTaxLiability_toCents, !standard_calculateTaxLiability_toCents.
  pose proof (mapperTable_table status) as M.
  pose proof (taxBrackets_table (default SINGLE status)) as S.
  assert (Hb : 0 <= 1 # 10) by lra.
  split; [apply (table_liability_monotone _ _ _ _ _ Hb M H) |].
  split; [apply (table_liability_monotone _ _ _ _ _ Hb S H) |].
  split; [apply (table_liability_nonneg _ _ _ _ Hb M) |].
  split; [apply (table_liability_nonneg _ _ _ _ Hb S) |].
  intros Hy. split; apply table_liability_zero, Hy.
Qed.

Lemma liability_growth_witness :
  36150 <= 50000 /\
  calculateTaxLiability 36150 (Some SINGLE)
  <= calculateTaxLiability 50000 (Some SINGLE).
Proof.
  assert (H : 36150 <= 50000) by lra.
  split; [exact H |].
  exact (proj1 (tax_liability_grows_with_income (Some SINGLE) 36150 50000 H)).
Defined.

(** X2.  For every filing status (or none) and every taxable income from
    zero to a thousand millions, the liability lies between the income
    taxed at the lowest rate of the tables, 10%, and the income taxed at the
    highest rate, 37%, within one cent either way; so no part of the income
    is left untaxed and none is taxed twice.  The cent covers the final
    rounding to cents with room to spare, whichever way a half cent is
    rounded and whatever the binary floating point of the code adds or takes
    on an income of this size.  This holds for the mapper's
    [calculateTaxLiability] and for the one of the form classes. *)
Theorem tax_liability_between_lowest_and_highest_rate
    (status : option FilingStatus) (x : Q) :
  0 <= x -> x <= 1000000000 ->
  ((1 # 10) * x - (1 # 100) <= calculateTaxLiability x status /\
   calculateTaxLiability x status <= (37 # 100) * x + (1 # 100)) /\
  ((1 # 10) * x - (1 # 100) <= AbstractForm1040.calculateTaxLiability x status /\
   AbstractForm1040.calculateTaxLiability x status <= (37 # 100) * x + (1 # 100)).
Proof.
  intros H _.
  rewrite !calculateTaxLiability_toCents, !standard_calculateTaxLiability_toCents.
  destruct (table_liability_bounds (1 # 10) (37 # 100) (mapperTable status) x)
    as [M1 M2]; [lra | lra | apply mapperTable_table | exact H |].
  destruct (table_liability_bounds (1 # 10) (37 # 100)
              (taxBrackets (default SINGLE status)) x)
    as [S1 S2]; [lra | lra | apply taxBrackets_table | exact H |].
  repeat split; lra.
Qed.

Lemma liability_rates_witness :
  0 <= 36150 /\ 36150 <= 1000000000 /\
  (1 # 10) * 36150 - (1 # 100) <= calculateTaxLiability 36150 (Some SINGLE) /\
  calculateTaxLiability 36150 (Some SINGLE) <= (37 # 100) * 36150 + (1 # 100).
Proof.
  assert (H : 0 <= 36150) by lra.
  assert (B : 36150 <= 1000000000) by lra.
  split; [exact H |]. split; [exact B |].
  exact (proj1 (tax_liability_between_lowest_and_highest_rate
                  (Some SINGLE) 36150 H B)).
Defined.

Ltac wider_tables :=
  repeat first
    [ apply wider_last; lra
    | apply wider_cons; [lra | lra | lra | lra |] ].

Lemma joint_wider_than_default :
  Wider 0 0 0 bracketsDefault bracketsMarriedFilingJointly.
Proof. unfold bracketsDefault, bracketsMarriedFilingJointly. wider_tables. Qed.

Lemma joint_widest (status : FilingStatus) :
  Wider 0 0 0 (taxBrackets status) jointBrackets.
Proof. destruct status; unfold taxBrackets, jointBrackets; wider_tables. Qed.

Lemma default_wider_than_separate :
  Wider 0 0 0 (taxBrackets MARRIED_FILING_SEPARATELY) bracketsDefault.
Proof. unfold taxBrackets, bracketsDefault. wider_tables. Qed.

(** X3.  For every taxable income, the liability with the filing status
    MARRIED_FILING_JOINTLY is not higher than the liability with any other
    filing status (or none): the joint table has the same rates as the other
    tables and every threshold at or above theirs.  This holds for the
    mapper's [calculateTaxLiability] and for the one of the form classes. *)
Theorem joint_filers_never_owe_more (status : option FilingStatus) (x : Q) :
  calculateTaxLiability x (Some MARRIED_FILING_JOINTLY)
  <= calculateTaxLiability x status /\
  AbstractForm1040.calculateTaxLiability x (Some MARRIED_FILING_JOINTLY)
  <= AbstractForm1040.calculateTaxLiability x status.
Proof.
  rewrite !calculateTaxLiability_toCents, !standard_calculateTaxLiability_toCents.
  split; apply toCents_monotone.
  - destruct status as [[] |]; cbn [mapperTable];
      first [apply Qle_refl | apply wider_tables_pay_less, joint_wider_than_default].
  - apply wider_tables_pay_less. apply joint_widest.
Qed.

(** X4.  The mapper's [calculateTaxLiability] and the one of the standard
    form give the same liability for every taxable income when the filing
    status is missing, SINGLE or MARRIED_FILING_JOINTLY.  They use different
    tables for two other statuses: for QUALIFYING_SURVIVING_SPOUSE the
    mapper, which falls back to the single table, never gives less than the
    form; for MARRIED_FILING_SEPARATELY it never gives more. *)
Theorem mapper_and_standard_form_liability (x : Q) :
  calculateTaxLiability x None = AbstractForm1040.calculateTaxLiability x None /\
  calculateTaxLiability x (Some SINGLE)
  = AbstractForm1040.calculateTaxLiability x (Some SINGLE) /\
  calculateTaxLiability x (Some MARRIED_FILING_JOINTLY)
  = AbstractForm1040.calculateTaxLiability x (Some MARRIED_FILING_JOINTLY) /\
  AbstractForm1040.calculateTaxLiability x (Some QUALIFYING_SURVIVING_SPOUSE)
  <= calculateTaxLiability x (Some QUALIFYING_SURVIVING_SPOUSE) /\
  calculateTaxLiability x (Some MARRIED_FILING_SEPARATELY)
  <= AbstractForm1040.calculateTaxLiability x (Some MARRIED_FILING_SEPARATELY).
Proof.
  split; [reflexivity |]. split; [reflexivity |]. split; [reflexivity |].
  rewrite !calculateTaxLiability_toCents, !standard_calculateTaxLiability_toCents.
  split; apply toCents_monotone; apply wider_tables_pay_less.
  - apply joint_wider_than_default.
  - apply default_wider_than_separate.
Qed.

End TaxLiability.

(** *** The recomputation and the standard form *)

Section Recomputation.
Import Form1099ToForm1040Mapper TaxFormReadings.

(** Line 34 after the recomputation: the whole refund. *)
Lemma recalculate_line34 (f : Form1040Data) :
  get (recalculateForm1040Totals f) "line34"
  = get (recalculateForm1040Totals f) "line33".
Proof.
  unfold recalculateForm1040Totals. cbv zeta.
  rewrite !get_refundOrAmountOwedStep. cbv zeta. decide_lines. reflexivity.
Qed.

Lemma foreignCountry_recalculate (f : Form1040Data) :
  foreignCountry (recalculateForm1040Totals f) = foreignCountry f.
Proof.
  unfold recalculateForm1040Totals, refundOrAmountOwedStep, totalPaymentsStep,
    totalTaxStep, taxLiabilityStep, taxableIncomeStep, adjustedGrossIncomeStep,
    totalIncomeStep.
  cbv zeta. destruct (Qlt_bool _ _); cbn [foreignCountry set setOptional];
    unfold standardDeductionStep;
    destruct (filingStatus _); try destruct (falsyAmount _); reflexivity.
Qed.

(** The standard deduction is never zero. *)
Lemma getStandardDeduction_truthy status :
  falsyAmount (Some (getStandardDeduction status)) = false.
Proof. destruct status as [[] |]; reflexivity. Qed.

(** The deduction line is settled by the first recomputation. *)
Lemma deductionLine_recalculate (f : Form1040Data) :
  deductionLine (recalculateForm1040Totals f) = deductionLine f.
Proof.
  unfold deductionLine at 1.
  rewrite filingStatus_recalculate.
  destruct (recalculate_lines f) as (_ & _ & H12 & _). cbv zeta in H12.
  rewrite H12. unfold deductionLine.
  destruct (filingStatus f) as [st |]; [| reflexivity].
  destruct (falsyAmount (get f "line12")) eqn:E.
  - rewrite getStandardDeduction_truthy. reflexivity.
  - rewrite E. reflexivity.
Qed.

Lemma recalculate_twice_lines (f : Form1040Data) (line : string) :
  get (recalculateForm1040Totals (recalculateForm1040Totals f)) line
  = get (recalculateForm1040Totals f) line.
Proof.
  set (f' := recalculateForm1040Totals f).
  destruct (recalculate_lines f')
    as (A9 & A11 & A12 & A15 & A16 & A24 & A32 & A33 & A37).
  destruct (recalculate_lines f)
    as (B9 & B11 & B12 & B15 & B16 & B24 & B32 & B33 & B37).
  cbv zeta in *. fold f' in B9, B11, B12, B15, B16, B24, B32, B33, B37.
  assert (Ei : calculateTotalIncome f' = calculateTotalIncome f)
    by apply calculateTotalIncome_recalculate.
  assert (Ed : deductionLine f' = deductionLine f)
    by apply deductionLine_recalculate.
  assert (Ep : paymentLines f' = paymentLines f)
    by apply paymentLines_recalculate.
  assert (Es : filingStatus f' = filingStatus f)
    by apply filingStatus_recalculate.
  assert (E13 : get f' "line13" = get f "line13")
    by (apply recalculate_other_lines; not_derived).
  assert (E17 : get f' "line17" = get f "line17")
    by (apply recalculate_other_lines; not_derived).
  assert (E23 : get f' "line23" = get f "line23")
    by (apply recalculate_other_lines; not_derived).
  rewrite Ei, Ed, Ep, Es, E13, E17, E23 in *.
  destruct (decide (line ∈ derivedLines)) as [D | D].
  - unfold derivedLines in D. rewrite !elem_of_cons in D.
    destruct D as [-> | [-> | [-> | [-> | [-> | [-> | [-> | [-> | [-> | [-> | D]]]]]]]]]];
      try congruence.
    + unfold f'. rewrite !recalculate_line34. fold f'. congruence.
    + apply elem_of_nil in D. contradiction.
  - apply recalculate_other_lines. exact D.
Qed.

Lemma Form1040Data_eq (f g : Form1040Data) :
  (forall line, get f line = get g line) ->
  filingStatus f = filingStatus g -> foreignCountry f = foreignCountry g ->
  f = g.
Proof.
  destruct f as [fa fs fc], g as [ga gs gc]. unfold get. simpl.
  intros Ha -> ->. f_equal. apply map_eq. exact Ha.
Qed.

(** X5.  [recalculateForm1040Totals] is idempotent: recomputing the totals
    of a form whose totals have just been recomputed changes nothing, on any
    line, the filing status included. *)
Theorem recalculateForm1040Totals_is_idempotent (f : Form1040Data) :
  recalculateForm1040Totals (recalculateForm1040Totals f)
  = recalculateForm1040Totals f.
Proof.
  apply Form1040Data_eq.
  - apply recalculate_twice_lines.
  - apply filingStatus_recalculate.
  - apply foreignCountry_recalculate.
Qed.

(** X6.  [recalculateForm1040Totals] writes the derived lines only: every
    line outside lines 9, 11, 12, 15, 16, 24, 32, 33, 34 and 37 keeps its
    value, and so do the filing status and the foreign country.  Afterwards
    line 11 equals line 9 and line 34 equals line 33.  Line 12 itself is
    kept when the form has no filing status, and when it already holds an
    amount other than zero. *)
Theorem recalculateForm1040Totals_writes_derived_lines_only (f : Form1040Data) :
  let f' := recalculateForm1040Totals f in
  (forall line, line ∉ derivedLines -> get f' line = get f line) /\
  filingStatus f' = filingStatus f /\
  foreignCountry f' = foreignCountry f /\
  get f' "line11" = get f' "line9" /\
  get f' "line34" = get f' "line33" /\
  (filingStatus f = None -> get f' "line12" = get f "line12") /\
  (falsyAmount (get f "line12") = false -> get f' "line12" = get f "line12").
Proof.
  cbv zeta.
  destruct (recalculate_lines f) as (B9 & B11 & B12 & _). cbv zeta in *.
  split; [intros line; apply recalculate_other_lines |].
  split; [apply filingStatus_recalculate |].
  split; [apply foreignCountry_recalculate |].
  split; [congruence |].
  split; [apply recalculate_line34 |].
  rewrite B12. unfold deductionLine.
  split.
  - intros ->. reflexivity.
  - intros ->. destruct (filingStatus f); reflexivity.
Qed.

End Recomputation.

Section StandardFormCalculation.
Import Form1099ToForm1040Mapper TaxFormReadings TaxTableReadings.
Import AbstractForm1040.Standard1040Form Standard1040FormCalculation.

(** The deduction the mapper applies is never above the one of the standard
    form. *)
Lemma deductionLine_le_standard (f : Form1040Data) :
  or0 (deductionLine f)
  <= Qmax (AbstractForm1040.getStandardDeduction (filingStatus f))
          (or0 (get f "line12")).
Proof.
  unfold deductionLine.
  destruct (filingStatus f) as [st |].
  - destruct (falsyAmount (get f "line12")).
    + cbn [or0 default]. apply Q.le_max_l.
    + apply Q.le_max_r.
  - apply Q.le_max_r.
Qed.

(** The taxable income of the standard form against line 15 of the
    mapper. *)
Lemma standard_taxable_le (f : Form1040Data) :
  0 <= or0 (get f "line10") ->
  AbstractForm1040.calculateTaxableIncome f
  <= Qmax 0 (calculateTotalIncome f - or0 (deductionLine f) - or0 (get f "line13")).
Proof.
  intros H10.
  unfold AbstractForm1040.calculateTaxableIncome, AbstractForm1040.calculateAGI.
  cbv zeta.
  change (AbstractForm1040.calculateTotalIncome f) with (calculateTotalIncome f).
  pose proof (deductionLine_le_standard f) as D.
  apply Q.max_le_compat_l. lra.
Qed.

Lemma standard_taxable_eq (f : Form1040Data) :
  or0 (get f "line10") == 0 ->
  filingStatus f <> None ->
  falsyAmount (get f "line12") = true ->
  AbstractForm1040.calculateTaxableIncome f
  == Qmax 0 (calculateTotalIncome f - or0 (deductionLine f) - or0 (get f "line13")).
Proof.
  intros Z S F.
  unfold AbstractForm1040.calculateTaxableIncome, AbstractForm1040.calculateAGI.
  cbv zeta.
  change (AbstractForm1040.calculateTotalIncome f) with (calculateTotalIncome f).
  apply Q.max_compat; [reflexivity |].
  unfold deductionLine. destruct (filingStatus f) as [st |]; [| contradiction].
  rewrite F. cbn [or0 default].
  assert (E : or0 (get f "line12") == 0).
  { destruct (get f "line12") as [q |]; [| reflexivity].
    simpl in F. apply Qeq_bool_iff in F. exact F. }
  rewrite E, Z.
  rewrite Q.max_l; [destruct st; simpl; lra | destruct st; simpl; lra].
Qed.

(** X7.  For a form whose adjustments on line 10 are not negative, the
    taxable income of the standard form ([calculateTaxableIncome] of the
    form classes) never exceeds line 15 as [recalculateForm1040Totals]
    writes it; the two are equal when line 10 is zero, the form has a filing
    status and line 12 holds no amount. *)
Theorem standard_form_taxes_no_more_income_than_the_mapper (f : Form1040Data) :
  0 <= or0 (get f "line10") ->
  exists line15,
    get (recalculateForm1040Totals f) "line15" = Some line15 /\
    AbstractForm1040.calculateTaxableIncome f <= line15 /\
    (or0 (get f "line10") == 0 ->
     filingStatus f <> None ->
     falsyAmount (get f "line12") = true ->
     AbstractForm1040.calculateTaxableIncome f == line15).
Proof.
  intros H10.
  destruct (recalculate_lines f) as (_ & _ & _ & H15 & _). cbv zeta in H15.
  eexists. split; [exact H15 |].
  split; [apply standard_taxable_le, H10 | apply standard_taxable_eq].
Qed.

Lemma taxable_income_witness :
  0 <= or0 (get wageStatementForm "line10") /\
  exists line15,
    get (recalculateForm1040Totals wageStatementForm) "line15" = Some line15 /\
    AbstractForm1040.calculateTaxableIncome wageStatementForm <= line15.
Proof.
  assert (H : 0 <= or0 (get wageStatementForm "line10"))
    by (vm_compute; discriminate).
  split; [exact H |].
  destruct (standard_form_taxes_no_more_income_than_the_mapper
              wageStatementForm H) as (line15 & E & L & _).
  exists line15. split; [exact E | exact L].
Defined.

Lemma calculateChildTaxCredit_bounds (f : Form1040Data)
    (dependents : option (list Dependent)) :
  0 <= calculateChildTaxCredit f dependents /\
  calculateChildTaxCredit f dependents <= 6000.
Proof.
  unfold calculateChildTaxCredit. cbv zeta.
  destruct (abovePhaseout f _); [lra |].
  unfold maxCredit.
  assert (N : 0 <= inject_Z (Z.of_nat (qualifyingChildren dependents))).
  { change 0 with (inject_Z 0). rewrite <- Zle_Qle. lia. }
  split.
  - apply Q.min_glb; lra.
  - eapply Qle_trans; [apply Q.le_min_r | lra].
Qed.

(** X8.  The result of [calculateTax] of the standard form, for every form
    and every list of dependents: the refund and the amount owed are never
    negative and never both different from zero, and their difference is
    the withholdings less the total tax; the taxable income is never
    negative; the total tax is at least the other taxes of line 23; the
    total credits are the credits of line 20 plus a child tax credit
    between 0 and 6,000. *)
Theorem calculateTax_refund_or_amount_owed (f : Form1040Data)
    (dependents : option (list Dependent)) :
  let result := calculateTax f dependents in
  0 <= refundAmount result /\
  0 <= amountOwed result /\
  (refundAmount result == 0 \/ amountOwed result == 0) /\
  refundAmount result - amountOwed result
  == totalWithholdings result - taxLiability result /\
  0 <= taxableIncome result /\
  or0 (get f "line23") <= taxLiability result /\
  or0 (get f "line20") <= totalCredits result /\
  totalCredits result <= 6000 + or0 (get f "line20").
Proof.
  cbv zeta. unfold calculateTax. cbv zeta.
  cbn [refundAmount amountOwed totalWithholdings taxLiability taxableIncome
       totalCredits].
  destruct (calculateChildTaxCredit_bounds f dependents) as [C0 C1].
  set (tax := Qmax 0 _ + or0 (get f "line23")).
  set (paid := or0 (get f "line25a") + _ + _ + _).
  split; [apply Qmax_0_nonneg |]. split; [apply Qmax_0_nonneg |].
  split.
  { destruct (Qlt_le_dec tax paid) as [L | L].
    - right. apply Qmax_0_of_nonpos. lra.
    - left. apply Qmax_0_of_nonpos. lra. }
  split.
  { destruct (Qlt_le_dec tax paid) as [L | L].
    - rewrite (Qmax_0_of_nonneg (paid - tax)), (Qmax_0_of_nonpos (tax - paid));
        lra.
    - rewrite (Qmax_0_of_nonpos (paid - tax)), (Qmax_0_of_nonneg (tax - paid));
        lra. }
  split; [apply Qmax_0_nonneg |].
  split; [unfold tax; pose proof (Qmax_0_nonneg
            (AbstractForm1040.calculateTaxLiability
               (AbstractForm1040.calculateTaxableIncome f) (filingStatus f)
             + or0 (get f "line17")
             - (calculateChildTaxCredit f dependents + or0 (get f "line20"))));
          lra |].
  split; lra.
Qed.

(** X9.  The standard form and the mapper compute the same return: for a
    form with the filing status SINGLE or MARRIED_FILING_JOINTLY, no
    adjustments on line 10, no amount on line 12, no qualifying child, no
    credits on line 20 and additional taxes on line 17 that are not
    negative, [calculateTax] gives the total income, the adjusted gross
    income, the taxable income, the total tax, the withholdings, the refund
    and the amount owed that [recalculateForm1040Totals] writes on lines 9,
    11, 15, 24, 32, 33 and 37. *)
Theorem standard_form_and_mapper_agree_without_credits
    (f : Form1040Data) (dependents : option (list Dependent)) :
  filingStatus f = Some SINGLE \/ filingStatus f = Some MARRIED_FILING_JOINTLY ->
  or0 (get f "line10") == 0 ->
  falsyAmount (get f "line12") = true ->
  qualifyingChildren dependents = 0%nat ->
  or0 (get f "line20") == 0 ->
  0 <= or0 (get f "line17") ->
  let result := calculateTax f dependents in
  let f' := recalculateForm1040Totals f in
  totalIncome result == or0 (get f' "line9") /\
  adjustedGrossIncome result == or0 (get f' "line11") /\
  taxableIncome result == or0 (get f' "line15") /\
  taxLiability result == or0 (get f' "line24") /\
  totalWithholdings result == or0 (get f' "line32") /\
  refundAmount result == or0 (get f' "line33") /\
  amountOwed result == or0 (get f' "line37").
Proof.
  intros Hs H10 H12 Hc H20 H17. cbv zeta.
  destruct (recalculate_lines f)
    as (B9 & B11 & _ & B15 & _ & B24 & B32 & B33 & B37).
  cbv zeta in *. rewrite B9, B11, B15, B24, B32, B33, B37.
  repeat match goal with
         | |- context [or0 (Some ?x)] => change (or0 (Some x)) with x
         end.
  assert (Hn : filingStatus f <> None) by (destruct Hs as [-> | ->]; discriminate).
  pose proof (standard_taxable_eq f H10 Hn H12) as Et.
  set (taxable := Qmax 0 (calculateTotalIncome f - or0 (deductionLine f)
                          - or0 (get f "line13"))) in *.
  assert (El : AbstractForm1040.calculateTaxLiability
                 (AbstractForm1040.calculateTaxableIncome f) (filingStatus f)
               == calculateTaxLiability taxable (filingStatus f)).
  { transitivity (calculateTaxLiability
                    (AbstractForm1040.calculateTaxableIncome f) (filingStatus f)).
    - destruct Hs as [-> | ->]; reflexivity.
    - apply calculateTaxLiability_same, Et. }
  pose proof (calculateTaxLiability_nonneg taxable (filingStatus f)) as L0.
  set (liability := calculateTaxLiability taxable (filingStatus f)) in *.
  assert (Ec : calculateChildTaxCredit f dependents == 0).
  { unfold calculateChildTaxCredit. cbv zeta. rewrite Hc.
    destruct (abovePhaseout f _); [reflexivity |].
    unfold maxCredit. vm_compute. reflexivity. }
  unfold calculateTax. cbv zeta.
  cbn [totalIncome adjustedGrossIncome taxableIncome taxLiability
       totalWithholdings refundAmount amountOwed].
  fold (paymentLines f).
  assert (E24 : Qmax 0
                  (AbstractForm1040.calculateTaxLiability
                     (AbstractForm1040.calculateTaxableIncome f) (filingStatus f)
                   + or0 (get f "line17")
                   - (calculateChildTaxCredit f dependents + or0 (get f "line20")))
                + or0 (get f "line23")
                == liability + or0 (get f "line17") + or0 (get f "line23")).
  { rewrite El, Ec, H20. rewrite Qmax_0_of_nonneg; lra. }
  split; [reflexivity |].
  split.
  { unfold AbstractForm1040.calculateAGI. cbv zeta.
    change (AbstractForm1040.calculateTotalIncome f) with (calculateTotalIncome f).
    lra. }
  split; [exact Et |].
  split; [exact E24 |].
  split; [reflexivity |].
  rewrite E24.
  set (tax := liability + or0 (get f "line17") + or0 (get f "line23")).
  destruct (Qlt_bool tax (paymentLines f)) eqn:E.
  - apply Qlt_bool_true in E. split.
    + apply Qmax_0_of_nonneg. lra.
    + apply Qmax_0_of_nonpos. lra.
  - apply Qlt_bool_false in E. split.
    + apply Qmax_0_of_nonpos. lra.
    + apply Qmax_0_of_nonneg. lra.
Qed.

Lemma same_return_witness :
  (filingStatus wageStatementForm = Some SINGLE \/
   filingStatus wageStatementForm = Some MARRIED_FILING_JOINTLY) /\
  or0 (get wageStatementForm "line10") == 0 /\
  falsyAmount (get wageStatementForm "line12") = true /\
  qualifyingChildren None = 0%nat /\
  or0 (get wageStatementForm "line20") == 0 /\
  0 <= or0 (get wageStatementForm "line17") /\
  refundAmount (calculateTax wageStatementForm None)
  == or0 (get (recalculateForm1040Totals wageStatementForm) "line33").
Proof.
  assert (Hs : filingStatus wageStatementForm = Some SINGLE \/
               filingStatus wageStatementForm = Some MARRIED_FILING_JOINTLY)
    by (left; reflexivity).
  assert (H10 : or0 (get wageStatementForm "line10") == 0) by reflexivity.
  assert (H12 : falsyAmount (get wageStatementForm "line12") = true)
    by reflexivity.
  assert (Hc : qualifyingChildren None = 0%nat) by reflexivity.
  assert (H20 : or0 (get wageStatementForm "line20") == 0) by reflexivity.
  assert (H17 : 0 <= or0 (get wageStatementForm "line17"))
    by (vm_compute; discriminate).
  repeat (split; [assumption |]).
  destruct (standard_form_and_mapper_agree_without_credits
              wageStatementForm None Hs H10 H12 Hc H20 H17)
    as (_ & _ & _ & _ & _ & R & _).
  exact R.
Defined.

End StandardFormCalculation.

(** *** One document *)

Section MappingOfOneDocument.
Import Form1099ToForm1040Mapper TaxFormReadings MappingReadings.

Lemma addTo_skip line v f : v <= 0 -> addTo line v f = f.
Proof.
  intros H. unfold addTo. apply Qlt_bool_false in H. rewrite H. reflexivity.
Qed.

Lemma assignTo_skip line v f : v <= 0 -> assignTo line v f = f.
Proof.
  intros H. unfold assignTo. apply Qlt_bool_false in H. rewrite H. reflexivity.
Qed.

Lemma reduceBy_skip line v f : v <= 0 -> reduceBy line v f = f.
Proof.
  intros H. unfold reduceBy. apply Qlt_bool_false in H. rewrite H. reflexivity.
Qed.

Lemma addForeignTax_skip d v f : v <= 0 -> addForeignTax d v f = f.
Proof.
  intros H. unfold addForeignTax. apply Qlt_bool_false in H. rewrite H.
  reflexivity.
Qed.

(** The withholding the mapper reads is one of the properties, or nothing. *)
Lemma federalTaxWithheldValue_prop (a : gmap string JsValue) :
  exists key, federalTaxWithheldValue a = prop a key.
Proof.
  unfold federalTaxWithheldValue, jsOr.
  destruct (truthy (prop a "federalTaxWithheld")).
  - destruct (truthy (prop a "federalTaxWithheld")); eexists; reflexivity.
  - destruct (truthy (prop a "FederalIncomeTaxWithheld")); eexists; reflexivity.
Qed.

(** The rules of a document without a positive amount leave the amounts
    of the form alone. *)
Lemma mapIncome_without_positive_amount (a : gmap string JsValue)
    (f : Form1040Data) :
  (forall key, Form1099ToForm1040Mapper.parseAmount (prop a key) <= 0) ->
  mapIncome a f = f.
Proof.
  intros H. unfold mapIncome. cbv zeta.
  destruct (federalTaxWithheldValue_prop a) as [key ->].
  rewrite !addTo_skip, ?addForeignTax_skip, ?reduceBy_skip, ?assignTo_skip
    by apply H.
  reflexivity.
Qed.

(** X10.  A document whose amounts are all zero, negative or unreadable
    adds no amount: when no property of the document parses to a positive
    amount, every amount line of the form [map1099ToForm1040] returns is
    the line that [recalculateForm1040Totals] alone gives, whatever the
    form held; so every line outside the derived ones keeps its value, and
    the filing status is kept.  (The name, the identifier and the address
    that the mapper also fills are no amounts and are not part of this
    statement.) *)
Theorem map1099ToForm1040_ignores_amounts_that_are_not_positive
    (d : Form1099Data) (f : Form1040Data) :
  (forall key, Form1099ToForm1040Mapper.parseAmount (prop (actual1099Data d) key) <= 0) ->
  let f' := map1099ToForm1040 d f in
  (forall line, get f' line = get (recalculateForm1040Totals f) line) /\
  (forall line, line ∉ derivedLines -> get f' line = get f line) /\
  filingStatus f' = filingStatus f.
Proof.
  intros H. cbv zeta. unfold map1099ToForm1040.
  rewrite (mapIncome_without_positive_amount _ f H).
  split; [reflexivity |].
  split; [intros line; apply recalculate_other_lines |].
  apply filingStatus_recalculate.
Qed.

Lemma negative_amount_witness :
  (forall key,
     Form1099ToForm1040Mapper.parseAmount
       (prop (actual1099Data refundedRentDocument) key) <= 0) /\
  get (map1099ToForm1040 refundedRentDocument wageStatementForm) "line8"
  = get wageStatementForm "line8" /\
  get (map1099ToForm1040 refundedRentDocument wageStatementForm) "line9"
  = get (recalculateForm1040Totals wageStatementForm) "line9".
Proof.
  assert (H : forall key,
             Form1099ToForm1040Mapper.parseAmount
               (prop (actual1099Data refundedRentDocument) key) <= 0).
  { intros key. unfold prop. cbn [actual1099Data refundedRentDocument document
                                  extractedData fields].
    destruct (decide (key = "rents")) as [-> | N].
    - vm_compute. discriminate.
    - rewrite lookup_singleton_ne by congruence. vm_compute. discriminate. }
  split; [exact H |].
  destruct (map1099ToForm1040_ignores_amounts_that_are_not_positive
              refundedRentDocument wageStatementForm H) as (A & B & _).
  split; [apply B; apply (bool_decide_unpack _); vm_compute; exact I | apply A].
Defined.

Lemma mapIncome_line3a_value (a : gmap string JsValue) (f : Form1040Data) :
  or0 (get (mapIncome a f) "line3a") ==
  or0 (get f "line3a")
  + positivePart (Form1099ToForm1040Mapper.parseAmount (prop a "qualifiedDividends")).
Proof. unfold mapIncome. cbv zeta. read_added. reflexivity. Qed.

Lemma mapIncome_line2a_value (a : gmap string JsValue) (f : Form1040Data) :
  or0 (get (mapIncome a f) "line2a") ==
  or0 (get f "line2a")
  + positivePart (Form1099ToForm1040Mapper.parseAmount (prop a "taxExemptInterest")).
Proof. unfold mapIncome. cbv zeta. read_added. reflexivity. Qed.

(** Line 2b after the rules of one document: the interest added, less the
    bond premium, floored at zero. *)
Lemma mapIncome_line2b_floor (d : Form1099Data) (f : Form1040Data) :
  0 <= or0 (get f "line2b") ->
  or0 (get (mapIncome (actual1099Data d) f) "line2b") ==
  Qmax 0 (or0 (get f "line2b") + taxableInterestAdded d
          - positivePart (amountOf d "bondPremium")).
Proof.
  intros L. unfold taxableInterestAdded, amountOf.
  rewrite mapIncome_line2b. cbv zeta.
  rewrite get_reduceBy_eq. unfold positivePart at 4.
  pose proof (positivePart_nonneg
                (Form1099ToForm1040Mapper.parseAmount
                   (prop (actual1099Data d) "interestIncome"))).
  pose proof (positivePart_nonneg
                (Form1099ToForm1040Mapper.parseAmount
                   (prop (actual1099Data d) "interestOnUSavingsBonds"))).
  pose proof (positivePart_nonneg
                (Form1099ToForm1040Mapper.parseAmount
                   (prop (actual1099Data d) "marketDiscount"))).
  destruct (Qlt_bool 0 _) eqn:E.
  - change (or0 (Some ?x)) with x. apply Q.max_compat; [reflexivity |].
    read_added. lra.
  - read_added. rewrite Qmax_0_of_nonneg; lra.
Qed.

(** X11.  What one document adds to a form whose line 2b is not negative.
    After [map1099ToForm1040], lines 2a, 3a, 3b and 7 hold their former
    value plus the positive part of the tax-exempt interest, the qualified
    dividends, the ordinary dividends and the capital gain; line 8 gains the
    positive parts of rents, royalties, other income and nonemployee
    compensation, and line 25a the federal tax withheld; line 2b is its
    former value plus the three kinds of taxable interest less the bond
    premium, floored at zero.  Total income on line 9 and total payments on
    line 32 are the former totals with the same additions. *)
Theorem map1099ToForm1040_adds_the_positive_amounts
    (d : Form1099Data) (f : Form1040Data) :
  0 <= or0 (get f "line2b") ->
  let f' := map1099ToForm1040 d f in
  let added key := positivePart (amountOf d key) in
  let line2b :=
    Qmax 0 (or0 (get f "line2b") + taxableInterestAdded d - added "bondPremium") in
  or0 (get f' "line2b") == line2b /\
  or0 (get f' "line2a") == or0 (get f "line2a") + added "taxExemptInterest" /\
  or0 (get f' "line3b") == or0 (get f "line3b") + added "ordinaryDividends" /\
  or0 (get f' "line3a") == or0 (get f "line3a") + added "qualifiedDividends" /\
  or0 (get f' "line7") == or0 (get f "line7") + added "totalCapitalGain" /\
  or0 (get f' "line8")
  == or0 (get f "line8") + added "rents" + added "royalties"
     + added "otherIncome" + added "nonemployeeCompensation" /\
  or0 (get f' "line25a") == or0 (get f "line25a") + withholdingAdded d /\
  or0 (get f' "line9")
  == calculateTotalIncome f - or0 (get f "line2b") + line2b
     + added "ordinaryDividends" + added "totalCapitalGain"
     + added "rents" + added "royalties" + added "otherIncome"
     + added "nonemployeeCompensation" /\
  or0 (get f' "line32") == paymentLines f + withholdingAdded d.
Proof.
  intros L. cbv zeta. unfold map1099ToForm1040, amountOf.
  pose proof (mapIncome_line2b_floor d f L) as E2b. unfold amountOf in E2b.
  set (a := actual1099Data d) in *.
  destruct (recalculate_lines (mapIncome a f)) as (B9 & _ & _ & _ & _ & _ & B32 & _).
  cbv zeta in *. rewrite B9, B32.
  rewrite !recalculate_other_lines by not_derived.
  split; [exact E2b |].
  split; [apply mapIncome_line2a_value |].
  split; [apply mapIncome_line3b_value |].
  split; [apply mapIncome_line3a_value |].
  split; [apply mapIncome_line7_value |].
  split; [rewrite mapIncome_line8_value; cbv zeta; lra |].
  split; [apply mapIncome_line25a_value |].
  split.
  - change (or0 (Some ?x)) with x. unfold calculateTotalIncome.
    rewrite E2b, mapIncome_line3b_value, mapIncome_line7_value,
      mapIncome_line8_value.
    rewrite !mapIncome_other_lines by not_mapped. cbv zeta. lra.
  - change (or0 (Some ?x)) with x. unfold a. rewrite paymentLines_mapIncome.
    reflexivity.
Qed.

Lemma dividend_document_witness :
  0 <= or0 (get wageStatementForm "line2b") /\
  or0 (get (map1099ToForm1040 dividendDocument wageStatementForm) "line3b")
  == or0 (get wageStatementForm "line3b")
     + positivePart (amountOf dividendDocument "ordinaryDividends").
Proof.
  assert (H : 0 <= or0 (get wageStatementForm "line2b"))
    by (vm_compute; discriminate).
  split; [exact H |].
  destruct (map1099ToForm1040_adds_the_positive_amounts
              dividendDocument wageStatementForm H) as (_ & _ & E & _).
  exact E.
Defined.

End MappingOfOneDocument.

Section ValidationBeforeMapping.
Import Form1099ToForm1040Mapper TaxFormReadings Form1099Validation.
Import MappingReadings.

(** A value that is not truthy reads as the amount zero. *)
Lemma parseAmount_falsy (v : JsValue) :
  truthy v = false -> Form1099ToForm1040Mapper.parseAmount v == 0.
Proof.
  destruct v as [| | | q | s | xs | v c]; simpl; try discriminate;
    try reflexivity.
  - intros H. apply negb_false_iff, Qeq_bool_iff in H. exact H.
  - intros H. apply negb_false_iff, String.eqb_eq in H. subst s. reflexivity.
Qed.

Lemma jsOr_falsy (a b : JsValue) :
  truthy (jsOr a b) = false -> truthy a = false /\ truthy b = false.
Proof.
  unfold jsOr. destruct (truthy a) eqn:E; [intros H; congruence |].
  intros H. split; [reflexivity | exact H].
Qed.

Lemma hasIncomeData_falsy (d : gmap string JsValue) (key : string) :
  truthy (hasIncomeData d) = false -> key ∈ incomeFields ->
  truthy (prop d key) = false.
Proof.
  unfold hasIncomeData. cbv zeta. intros H.
  repeat (apply jsOr_falsy in H as [H ?]).
  unfold incomeFields. rewrite !elem_of_cons.
  intros [-> | [-> | [-> | [-> | [-> | [-> | [-> | [-> | K]]]]]]]];
    try assumption.
  apply elem_of_nil in K. contradiction.
Qed.

Lemma isValid_hasIncomeData (d : gmap string JsValue) :
  isValid (validate1099DataForMapping d) = truthy (hasIncomeData d).
Proof.
  unfold validate1099DataForMapping. cbv zeta. cbn [isValid].
  destruct (truthy (hasIncomeData d)); reflexivity.
Qed.

Lemma positivePart_of_zero (v : Q) : v == 0 -> positivePart v == 0.
Proof.
  intros E. unfold positivePart. destruct (Qlt_bool 0 v) eqn:L; [| reflexivity].
  apply Qlt_bool_true in L. lra.
Qed.

(** X12.  [validate1099DataForMapping] is no guard for the mapping.  For a
    document without nested [extractedData] that the validation rejects,
    the only error is that no income data was found, each of the eight
    income properties the validation reads parses to zero, and
    [map1099ToForm1040] leaves lines 3a, 3b, 7 and 8 as they were; but the
    mapper also reads two properties the validation does not, the interest
    on savings bonds and the market discount, and adds them to line 2b of a
    form whose line 2b is not negative (less the bond premium, floored at
    zero), and with line 2b to the total income of line 9. *)
Theorem rejected_document_adds_only_what_the_validation_does_not_read
    (d : gmap string JsValue) (f : Form1040Data) :
  isValid (validate1099DataForMapping d) = false ->
  0 <= or0 (get f "line2b") ->
  let f' := map1099ToForm1040 (document d) f in
  let added key := positivePart (amountOf (document d) key) in
  let line2b :=
    Qmax 0 (or0 (get f "line2b") + added "interestOnUSavingsBonds"
            + added "marketDiscount" - added "bondPremium") in
  errors (validate1099DataForMapping d) = ["No income data found in 1099 form"] /\
  (forall key, key ∈ incomeFields ->
     Form1099ToForm1040Mapper.parseAmount (prop d key) == 0) /\
  get f' "line3b" = get f "line3b" /\
  get f' "line3a" = get f "line3a" /\
  get f' "line7" = get f "line7" /\
  get f' "line8" = get f "line8" /\
  or0 (get f' "line2b") == line2b /\
  or0 (get f' "line9") == calculateTotalIncome f - or0 (get f "line2b") + line2b.
Proof.
  intros H L. rewrite isValid_hasIncomeData in H.
  split.
  { unfold validate1099DataForMapping. cbv zeta. cbn [errors]. rewrite H.
    reflexivity. }
  assert (Z : forall key, key ∈ incomeFields ->
                Form1099ToForm1040Mapper.parseAmount (prop d key) == 0).
  { intros key K. apply parseAmount_falsy, (hasIncomeData_falsy d key H K). }
  split; [exact Z |].
  assert (P : forall key, key ∈ incomeFields ->
                positivePart (Form1099ToForm1040Mapper.parseAmount (prop d key)) == 0).
  { intros key K. apply positivePart_of_zero, Z, K. }
  assert (S : forall key line g, key ∈ incomeFields ->
                addTo line (Form1099ToForm1040Mapper.parseAmount (prop d key)) g = g).
  { intros key line g K. apply addTo_skip. rewrite (Z key K). lra. }
  assert (E2b : or0 (get (mapIncome d f) "line2b") ==
                Qmax 0 (or0 (get f "line2b")
                        + positivePart (amountOf (document d) "interestOnUSavingsBonds")
                        + positivePart (amountOf (document d) "marketDiscount")
                        - positivePart (amountOf (document d) "bondPremium"))).
  { pose proof (mapIncome_line2b_floor (document d) f L) as E.
    change (actual1099Data (document d)) with d in E. rewrite E.
    unfold taxableInterestAdded, amountOf.
    change (actual1099Data (document d)) with d.
    rewrite (P "interestIncome") by (apply (bool_decide_unpack _); vm_compute; exact I).
    apply Q.max_compat; [reflexivity | lra]. }
  cbv zeta. unfold map1099ToForm1040.
  destruct (recalculate_lines (mapIncome (actual1099Data (document d)) f))
    as (B9 & _).
  cbv zeta in B9. rewrite B9.
  rewrite !recalculate_other_lines by not_derived.
  change (actual1099Data (document d)) with d.
  split; [| split; [| split; [| split]]].
  1-4: unfold mapIncome; cbv zeta;
    rewrite (S "ordinaryDividends"), (S "qualifiedDividends"),
      (S "totalCapitalGain"), (S "rents"), (S "royalties"), (S "otherIncome"),
      (S "nonemployeeCompensation")
      by (apply (bool_decide_unpack _); vm_compute; exact I);
    read_rules; reflexivity.
  split; [exact E2b |].
  change (or0 (Some ?x)) with x. unfold calculateTotalIncome.
  rewrite E2b, mapIncome_line3b_value, mapIncome_line7_value,
    mapIncome_line8_value.
  rewrite !mapIncome_other_lines by not_mapped. cbv zeta.
  rewrite (P "ordinaryDividends"), (P "totalCapitalGain"), (P "rents"),
    (P "royalties"), (P "otherIncome"), (P "nonemployeeCompensation")
    by (apply (bool_decide_unpack _); vm_compute; exact I).
  lra.
Qed.

Lemma savings_bond_witness :
  isValid (validate1099DataForMapping savingsBondData) = false /\
  0 <= or0 (get wageStatementForm "line2b") /\
  or0 (get (map1099ToForm1040 (document savingsBondData) wageStatementForm)
           "line2b") == 100 /\
  or0 (get (map1099ToForm1040 (document savingsBondData) wageStatementForm)
           "line9") == 50100.
Proof.
  assert (H : isValid (validate1099DataForMapping savingsBondData) = false)
    by (vm_compute; reflexivity).
  assert (L : 0 <= or0 (get wageStatementForm "line2b"))
    by (vm_compute; discriminate).
  split; [exact H |]. split; [exact L |].
  destruct (rejected_document_adds_only_what_the_validation_does_not_read
              savingsBondData wageStatementForm H L)
    as (_ & _ & _ & _ & _ & _ & E2b & E9).
  split; [rewrite E2b | rewrite E9]; vm_compute; reflexivity.
Defined.

End ValidationBeforeMapping.

End TaxComputation.

(** ** Reconciliation of the 1099-MISC fields *)

Section Reconciliation.
Import AzureDocumentIntelligenceService ExtractionReadings.

Lemma correctCriticalField_eq structuredData ocrData
    (correctedData : ExtractedFieldData) (field : string) :
  correctCriticalField structuredData ocrData correctedData field !! field =
  criticalFieldResult structuredData ocrData field (correctedData !! field).
Proof.
  unfold correctCriticalField, criticalFieldResult. cbv zeta.
  destruct (Qlt_bool 100 _); [apply lookup_insert_eq |].
  destruct (_ && _); [apply lookup_insert_eq | reflexivity].
Qed.

Lemma correctCriticalField_ne structuredData ocrData
    (correctedData : ExtractedFieldData) (field other : string) :
  field <> other ->
  correctCriticalField structuredData ocrData correctedData field !! other =
  correctedData !! other.
Proof.
  intros N. unfold correctCriticalField. cbv zeta.
  destruct (Qlt_bool 100 _); [apply lookup_insert_ne; exact N |].
  destruct (_ && _); [apply lookup_insert_ne; exact N | reflexivity].
Qed.

(** Fields outside the list are left alone by the loop. *)
Lemma correctCriticalFields_frame structuredData ocrData (fields : list string) :
  forall (correctedData : ExtractedFieldData) (other : string),
    other ∉ fields ->
    foldl (correctCriticalField structuredData ocrData) correctedData fields
      !! other = correctedData !! other.
Proof.
  induction fields as [| field rest IH]; intros correctedData other N; simpl.
  - reflexivity.
  - apply not_elem_of_cons in N as [N1 N2].
    rewrite IH by exact N2.
    apply correctCriticalField_ne. congruence.
Qed.

(** Each field of the list is treated once, by its own rule. *)
Lemma correctCriticalFields_lookup structuredData ocrData (fields : list string) :
  NoDup fields ->
  forall (correctedData : ExtractedFieldData) (field : string),
    field ∈ fields ->
    foldl (correctCriticalField structuredData ocrData) correctedData fields
      !! field =
    criticalFieldResult structuredData ocrData field (correctedData !! field).
Proof.
  induction 1 as [| x rest Hx Hnd IH]; intros correctedData field Hin.
  - apply elem_of_nil in Hin. contradiction.
  - simpl. apply elem_of_cons in Hin as [-> | Hin].
    + rewrite correctCriticalFields_frame by exact Hx.
      apply correctCriticalField_eq.
    + rewrite IH by exact Hin.
      assert (x <> field) as N by (intros ->; contradiction).
      rewrite correctCriticalField_ne by exact N. reflexivity.
Qed.

Lemma criticalFields_NoDup : NoDup criticalFields.
Proof. apply (bool_decide_unpack _). vm_compute. exact I. Qed.

(** *** The second pass writes text-pattern readings only *)

Lemma truthy_parseAmount (v : JsValue) :
  truthy v = true -> parseAmount v = Some (amountOr0 v).
Proof. destruct v; simpl; intros T; try reflexivity; discriminate T. Qed.

Lemma insert_holdsTextReading ocrData (correctedData : ExtractedFieldData)
    (written field : string) :
  holdsTextReading ocrData correctedData field ->
  holdsTextReading ocrData
    (<[written := textReading ocrData written]> correctedData) field.
Proof.
  unfold holdsTextReading. intros H.
  destruct (decide (written = field)) as [-> | N].
  - apply lookup_insert_eq.
  - rewrite lookup_insert_ne by exact N. exact H.
Qed.

Lemma correctOtherIncomeFishingSwap_keeps structuredData ocrData
    (correctedData : ExtractedFieldData) (field : string) :
  holdsTextReading ocrData correctedData field ->
  holdsTextReading ocrData
    (correctOtherIncomeFishingSwap structuredData ocrData correctedData) field.
Proof.
  intros H. unfold correctOtherIncomeFishingSwap.
  destruct (truthy (prop structuredData "fishingBoatProceeds")) eqn:T1;
    [| exact H].
  destruct (truthy (prop structuredData "otherIncome")) eqn:T2; [exact H |].
  destruct (truthy (prop ocrData "otherIncome")) eqn:T3; [| exact H].
  destruct (truthy (prop ocrData "fishingBoatProceeds")) eqn:T4; [| exact H].
  cbn [andb negb].
  rewrite (truthy_parseAmount _ T1), (truthy_parseAmount _ T3),
    (truthy_parseAmount _ T4).
  destruct (_ && _); [| exact H].
  apply (insert_holdsTextReading ocrData _ "fishingBoatProceeds").
  apply (insert_holdsTextReading ocrData _ "otherIncome"). exact H.
Qed.

Lemma correctAdjacentSwap_keeps structuredData ocrData
    (correctedData : ExtractedFieldData) (pair : string * string)
    (field : string) :
  holdsTextReading ocrData correctedData field ->
  holdsTextReading ocrData
    (correctAdjacentSwap structuredData ocrData correctedData pair) field.
Proof.
  intros H. destruct pair as [field1 field2].
  unfold correctAdjacentSwap. cbv zeta.
  destruct (_ && _); [| exact H].
  destruct (_ && _); [| exact H].
  apply (insert_holdsTextReading ocrData _ field2).
  apply (insert_holdsTextReading ocrData _ field1). exact H.
Qed.

Lemma adjacentSwaps_keep structuredData ocrData (pairs : list (string * string)) :
  forall (correctedData : ExtractedFieldData) (field : string),
    holdsTextReading ocrData correctedData field ->
    holdsTextReading ocrData
      (foldl (correctAdjacentSwap structuredData ocrData) correctedData pairs)
      field.
Proof.
  induction pairs as [| pair rest IH]; intros correctedData field H; simpl.
  - exact H.
  - apply IH. apply correctAdjacentSwap_keeps. exact H.
Qed.

(** Once a field holds its text-pattern reading after the first pass, it
    holds it at the end. *)
Lemma second_pass_keeps structuredData ocrData (field : string) :
  holdsTextReading ocrData (correctCriticalFields structuredData ocrData) field ->
  holdsTextReading ocrData
    (validateAndCorrect1099MiscFields structuredData ocrData) field.
Proof.
  intros H. unfold validateAndCorrect1099MiscFields. cbv zeta.
  apply adjacentSwaps_keep. apply correctOtherIncomeFishingSwap_keeps. exact H.
Qed.

(** C5, as stated, fails: the structured reader reports rents 500 and the
    text has no rent that a pattern finds.  The structured value is present
    and the text-pattern value is absent, so the stated rules keep 500; the
    loop over the critical fields compares 500 with the absent reading
    counted as 0, finds them more than 100 apart and stores 0. *)
Lemma C5_counterexample_absent_text_reading :
  prop rentOnlyStructured "rents" = JsNumber 500 /\
  noAmountText !! "rents" = None /\
  reconcileAsStated (prop rentOnlyStructured "rents") (prop noAmountText "rents")
    = JsNumber 500 /\
  correctCriticalFields rentOnlyStructured noAmountText !! "rents"
    = Some (JsNumber 0) /\
  validateAndCorrect1099MiscFields rentOnlyStructured noAmountText !! "rents"
    = Some (JsNumber 0).
Proof. repeat split; vm_compute; reflexivity. Qed.

(** C5, amended.  For every critical field, with an absent reading counted
    as 0 on either side: (1) when the structured value is zero or absent and
    the text-pattern value is positive, the text-pattern value is adopted;
    (2) when the two values are more than 100 apart, the text-pattern value
    is adopted (0 when the text has none); (3) otherwise the loop keeps the
    structured entry as it is.  An adopted text-pattern value is still there
    after the swap corrections. *)
Theorem C5_critical_field_rules
    (structuredData ocrData : ExtractedFieldData) (field : string) :
  field ∈ criticalFields ->
  let structuredValue := amountOr0 (prop structuredData field) in
  let ocrValue := amountOr0 (prop ocrData field) in
  let firstPass := correctCriticalFields structuredData ocrData in
  let final := validateAndCorrect1099MiscFields structuredData ocrData in
  ((structuredValue == 0 \/ truthy (prop structuredData field) = false) ->
   0 < ocrValue ->
   firstPass !! field = Some (JsNumber ocrValue) /\
   final !! field = Some (JsNumber ocrValue)) /\
  (100 < Qabs (structuredValue - ocrValue) ->
   firstPass !! field = Some (JsNumber ocrValue) /\
   final !! field = Some (JsNumber ocrValue)) /\
  (Qabs (structuredValue - ocrValue) <= 100 ->
   ~ ((structuredValue == 0 \/ truthy (prop structuredData field) = false)
      /\ 0 < ocrValue) ->
   firstPass !! field = structuredData !! field).
Proof.
  intros Hin. cbv zeta.
  pose proof (correctCriticalFields_lookup structuredData ocrData criticalFields
                criticalFields_NoDup structuredData field Hin) as L.
  fold (correctCriticalFields structuredData ocrData) in L.
  unfold criticalFieldResult in L. cbv zeta in L.
  assert (K : correctCriticalFields structuredData ocrData !! field
              = Some (JsNumber (amountOr0 (prop ocrData field))) ->
              correctCriticalFields structuredData ocrData !! field
              = Some (JsNumber (amountOr0 (prop ocrData field))) /\
              validateAndCorrect1099MiscFields structuredData ocrData !! field
              = Some (JsNumber (amountOr0 (prop ocrData field)))).
  { intros H. split; [exact H |].
    apply (second_pass_keeps structuredData ocrData field). exact H. }
  destruct (Qlt_bool 100 _) eqn:E100.
  - apply Qlt_bool_true in E100.
    split; [intros _ _; apply K; exact L |].
    split; [intros _; apply K; exact L |].
    intros Hle. lra.
  - apply Qlt_bool_false in E100.
    split.
    { intros Hz Hpos. apply K. rewrite L.
      assert (B : (Qeq_bool (amountOr0 (prop structuredData field)) 0
                   || negb (truthy (prop structuredData field))) = true).
      { destruct Hz as [Hz | Hz].
        - apply Qeq_bool_iff in Hz. rewrite Hz. reflexivity.
        - rewrite Hz. apply orb_true_r. }
      rewrite B. apply Qlt_bool_true in Hpos. rewrite Hpos. reflexivity. }
    split; [intros Hgt; lra |].
    intros _ Hnot. rewrite L.
    destruct (_ && _) eqn:B; [| reflexivity].
    exfalso. apply Hnot. apply andb_true_iff in B as [B1 B2].
    apply Qlt_bool_true in B2. split; [| exact B2].
    apply orb_true_iff in B1 as [B1 | B1].
    + left. apply Qeq_bool_iff. exact B1.
    + right. apply negb_true_iff. exact B1.
Qed.

Lemma C5_witness_rents_replaced :
  "rents" ∈ criticalFields /\
  correctCriticalFields rentOnlyStructured noAmountText !! "rents"
    = Some (JsNumber 0).
Proof.
  assert (Hin : "rents" ∈ criticalFields)
    by (apply (bool_decide_unpack _); vm_compute; exact I).
  split; [exact Hin |].
  refine (proj1 (proj1 (proj2 (C5_critical_field_rules
                                 rentOnlyStructured noAmountText "rents" Hin)) _)).
  vm_compute. reflexivity.
Defined.

(** *** The swap corrections *)

Lemma correctAdjacentSwap_fires structuredData ocrData
    (correctedData : ExtractedFieldData) (field1 field2 : string) :
  0 < amountOr0 (prop structuredData field1) ->
  0 < amountOr0 (prop structuredData field2) ->
  0 < amountOr0 (prop ocrData field1) ->
  0 < amountOr0 (prop ocrData field2) ->
  Qabs (amountOr0 (prop structuredData field1) - amountOr0 (prop ocrData field2))
    < 100 ->
  Qabs (amountOr0 (prop structuredData field2) - amountOr0 (prop ocrData field1))
    < 100 ->
  let corrected :=
    correctAdjacentSwap structuredData ocrData correctedData (field1, field2) in
  holdsTextReading ocrData corrected field1 /\
  holdsTextReading ocrData corrected field2.
Proof.
  intros P1 P2 P3 P4 D1 D2. cbv zeta. unfold correctAdjacentSwap. cbv zeta.
  apply Qlt_bool_true in P1, P2, P3, P4, D1, D2.
  rewrite P1, P2, P3, P4, D1, D2. cbn [andb].
  split.
  - apply (insert_holdsTextReading ocrData _ field2).
    unfold holdsTextReading. apply lookup_insert_eq.
  - unfold holdsTextReading. apply lookup_insert_eq.
Qed.

Lemma adjacentSwaps_fire structuredData ocrData (field1 field2 : string)
    (pairs : list (string * string)) :
  (field1, field2) ∈ pairs ->
  0 < amountOr0 (prop structuredData field1) ->
  0 < amountOr0 (prop structuredData field2) ->
  0 < amountOr0 (prop ocrData field1) ->
  0 < amountOr0 (prop ocrData field2) ->
  Qabs (amountOr0 (prop structuredData field1) - amountOr0 (prop ocrData field2))
    < 100 ->
  Qabs (amountOr0 (prop structuredData field2) - amountOr0 (prop ocrData field1))
    < 100 ->
  forall correctedData : ExtractedFieldData,
    let corrected :=
      foldl (correctAdjacentSwap structuredData ocrData) correctedData pairs in
    holdsTextReading ocrData corrected field1 /\
    holdsTextReading ocrData corrected field2.
Proof.
  intros Hin P1 P2 P3 P4 D1 D2.
  induction pairs as [| pair rest IH]; intros correctedData; cbv zeta.
  - apply elem_of_nil in Hin. contradiction.
  - simpl. apply elem_of_cons in Hin as [<- | Hin].
    + destruct (correctAdjacentSwap_fires structuredData ocrData correctedData
                  field1 field2 P1 P2 P3 P4 D1 D2) as [H1 H2].
      split; apply adjacentSwaps_keep; assumption.
    + apply (IH Hin).
Qed.

Lemma correctOtherIncomeFishingSwap_fires structuredData ocrData
    (correctedData : ExtractedFieldData) :
  truthy (prop structuredData "fishingBoatProceeds") = true ->
  truthy (prop structuredData "otherIncome") = false ->
  truthy (prop ocrData "otherIncome") = true ->
  truthy (prop ocrData "fishingBoatProceeds") = true ->
  Qabs (amountOr0 (prop structuredData "fishingBoatProceeds")
        - amountOr0 (prop ocrData "otherIncome")) < 100 ->
  ~ amountOr0 (prop ocrData "fishingBoatProceeds")
    == amountOr0 (prop structuredData "fishingBoatProceeds") ->
  let corrected :=
    correctOtherIncomeFishingSwap structuredData ocrData correctedData in
  holdsTextReading ocrData corrected "otherIncome" /\
  holdsTextReading ocrData corrected "fishingBoatProceeds".
Proof.
  intros T1 T2 T3 T4 D N. cbv zeta. unfold correctOtherIncomeFishingSwap.
  rewrite T1, T2, T3, T4. cbn [andb negb].
  rewrite (truthy_parseAmount _ T1), (truthy_parseAmount _ T3),
    (truthy_parseAmount _ T4).
  apply Qlt_bool_true in D. rewrite D.
  destruct (Qeq_bool _ _) eqn:E;
    [apply Qeq_bool_iff in E; contradiction |].
  cbn [andb negb].
  split.
  - apply (insert_holdsTextReading ocrData _ "fishingBoatProceeds").
    unfold holdsTextReading. apply lookup_insert_eq.
  - unfold holdsTextReading. apply lookup_insert_eq.
Qed.

(** C6, as stated, fails on the case it names: the structured reader gives
    box 5 (fishing boat proceeds) the 50 that the text patterns read in box 3
    (other income), and box 3 the 20 that they read in box 5.  The swap
    signature holds exactly, yet no correction fires: boxes 3 and 5 are not
    in the table of adjacent pairs, the rule written for them requires the
    structured other income to be missing, and the values are too close for
    the first pass.  Both fields keep their structured values. *)
Lemma C6_counterexample_box3_box5_swap_kept :
  swapSignature swappedStructured swappedText "fishingBoatProceeds" "otherIncome" /\
  textReading swappedText "otherIncome" = JsNumber 50 /\
  textReading swappedText "fishingBoatProceeds" = JsNumber 20 /\
  validateAndCorrect1099MiscFields swappedStructured swappedText !! "otherIncome"
    = Some (JsNumber 20) /\
  validateAndCorrect1099MiscFields swappedStructured swappedText
    !! "fishingBoatProceeds" = Some (JsNumber 50).
Proof.
  split.
  { split; vm_compute; discriminate. }
  repeat split; vm_compute; reflexivity.
Qed.

(** C6, amended.  For every pair of the table of adjacent boxes
    (rents/royalties, royalties/other income, other income/federal tax
    withheld, federal tax withheld/fishing boat proceeds, fishing boat
    proceeds/medical payments): when the four readings are positive, the
    structured value of each field is less than 100 from the text-pattern
    value of the other, both fields end with their text-pattern values.
    Boxes 3 and 5 are not such a pair; for them, when the structured fishing
    boat proceeds are present, the structured other income is missing or
    zero, both text-pattern readings are present, the structured fishing
    boat proceeds are less than 100 from the text-pattern other income and
    differ from the text-pattern fishing boat proceeds, both fields end with
    their text-pattern values. *)
Theorem C6_swap_corrections (structuredData ocrData : ExtractedFieldData) :
  let final := validateAndCorrect1099MiscFields structuredData ocrData in
  (forall field1 field2 : string,
     (field1, field2) ∈ adjacentBoxPairs ->
     0 < amountOr0 (prop structuredData field1) ->
     0 < amountOr0 (prop structuredData field2) ->
     0 < amountOr0 (prop ocrData field1) ->
     0 < amountOr0 (prop ocrData field2) ->
     Qabs (amountOr0 (prop structuredData field1)
           - amountOr0 (prop ocrData field2)) < 100 ->
     Qabs (amountOr0 (prop structuredData field2)
           - amountOr0 (prop ocrData field1)) < 100 ->
     final !! field1 = Some (textReading ocrData field1) /\
     final !! field2 = Some (textReading ocrData field2)) /\
  (truthy (prop structuredData "fishingBoatProceeds") = true ->
   truthy (prop structuredData "otherIncome") = false ->
   truthy (prop ocrData "otherIncome") = true ->
   truthy (prop ocrData "fishingBoatProceeds") = true ->
   Qabs (amountOr0 (prop structuredData "fishingBoatProceeds")
         - amountOr0 (prop ocrData "otherIncome")) < 100 ->
   ~ amountOr0 (prop ocrData "fishingBoatProceeds")
     == amountOr0 (prop structuredData "fishingBoatProceeds") ->
   final !! "otherIncome" = Some (textReading ocrData "otherIncome") /\
   final !! "fishingBoatProceeds"
     = Some (textReading ocrData "fishingBoatProceeds")).
Proof.
  cbv zeta. split.
  - intros field1 field2 Hin P1 P2 P3 P4 D1 D2.
    unfold validateAndCorrect1099MiscFields. cbv zeta.
    apply (adjacentSwaps_fire structuredData ocrData field1 field2
             adjacentBoxPairs Hin P1 P2 P3 P4 D1 D2).
  - intros T1 T2 T3 T4 D N.
    unfold validateAndCorrect1099MiscFields. cbv zeta.
    destruct (correctOtherIncomeFishingSwap_fires structuredData ocrData
                (correctCriticalFields structuredData ocrData)
                T1 T2 T3 T4 D N) as [H1 H2].
    split; apply adjacentSwaps_keep; assumption.
Qed.

Lemma C6_witness_rents_royalties_and_displaced_income :
  (validateAndCorrect1099MiscFields adjacentStructured adjacentText !! "rents"
     = Some (JsNumber 35000) /\
   validateAndCorrect1099MiscFields adjacentStructured adjacentText !! "royalties"
     = Some (JsNumber 12500)) /\
  (validateAndCorrect1099MiscFields displacedStructured displacedText
     !! "otherIncome" = Some (JsNumber 80) /\
   validateAndCorrect1099MiscFields displacedStructured displacedText
     !! "fishingBoatProceeds" = Some (JsNumber 30)).
Proof.
  split.
  - refine (proj1 (C6_swap_corrections adjacentStructured adjacentText)
              "rents" "royalties" _ _ _ _ _ _ _).
    + apply (bool_decide_unpack _). vm_compute. exact I.
    + vm_compute. reflexivity.
    + vm_compute. reflexivity.
    + vm_compute. reflexivity.
    + vm_compute. reflexivity.
    + vm_compute. reflexivity.
    + vm_compute. reflexivity.
  - refine (proj2 (C6_swap_corrections displacedStructured displacedText)
              _ _ _ _ _ _).
    + vm_compute. reflexivity.
    + vm_compute. reflexivity.
    + vm_compute. reflexivity.
    + vm_compute. reflexivity.
    + vm_compute. reflexivity.
    + vm_compute. discriminate.
Defined.

End Reconciliation.

(** ** Invariants of the reconciliation *)

Section ReconciliationInvariants.
Import AzureDocumentIntelligenceService ExtractionReadings ReconciliationReadings.

Variables structuredData ocrData : ExtractedFieldData.

Lemma writesText_refl m : writesText ocrData m m.
Proof. intros field. left. reflexivity. Qed.

Lemma writesText_trans m1 m2 m3 :
  writesText ocrData m1 m2 -> writesText ocrData m2 m3 -> writesText ocrData m1 m3.
Proof.
  intros H12 H23 field.
  destruct (H23 field) as [E | T]; [| right; exact T].
  rewrite E. apply H12.
Qed.

Lemma writesText_insert m written :
  written ∈ criticalFields ->
  writesText ocrData m (<[written := textReading ocrData written]> m).
Proof.
  intros C field. destruct (decide (written = field)) as [-> | N].
  - right. split; [exact C | apply lookup_insert_eq].
  - left. apply lookup_insert_ne. exact N.
Qed.

Ltac critical := apply (bool_decide_unpack _); vm_compute; exact I.

Lemma correctCriticalField_writesText m field :
  field ∈ criticalFields ->
  writesText ocrData m (correctCriticalField structuredData ocrData m field).
Proof.
  intros C. unfold correctCriticalField. cbv zeta.
  destruct (Qlt_bool 100 _); [apply writesText_insert, C |].
  destruct (_ && _); [apply writesText_insert, C | apply writesText_refl].
Qed.

Lemma correctCriticalFields_writesText (fields : list string) :
  (forall field, field ∈ fields -> field ∈ criticalFields) ->
  forall m,
    writesText ocrData m
      (foldl (correctCriticalField structuredData ocrData) m fields).
Proof.
  induction fields as [| field rest IH]; intros C m; simpl.
  - apply writesText_refl.
  - eapply writesText_trans.
    + apply (correctCriticalField_writesText m field).
      apply C, list_elem_of_here.
    + apply IH. intros g Hg. apply C, list_elem_of_further, Hg.
Qed.

Lemma correctOtherIncomeFishingSwap_writesText m :
  writesText ocrData m (correctOtherIncomeFishingSwap structuredData ocrData m).
Proof.
  unfold correctOtherIncomeFishingSwap.
  destruct (truthy (prop structuredData "fishingBoatProceeds")) eqn:T1;
    [| apply writesText_refl].
  destruct (truthy (prop structuredData "otherIncome")) eqn:T2;
    [apply writesText_refl |].
  destruct (truthy (prop ocrData "otherIncome")) eqn:T3; [| apply writesText_refl].
  destruct (truthy (prop ocrData "fishingBoatProceeds")) eqn:T4;
    [| apply writesText_refl].
  cbn [andb negb].
  rewrite (truthy_parseAmount _ T1), (truthy_parseAmount _ T3),
    (truthy_parseAmount _ T4).
  destruct (_ && _); [| apply writesText_refl].
  eapply writesText_trans.
  - apply (writesText_insert m "otherIncome"). critical.
  - apply (writesText_insert _ "fishingBoatProceeds"). critical.
Qed.

Lemma adjacentBoxPairs_critical field1 field2 :
  (field1, field2) ∈ adjacentBoxPairs ->
  field1 ∈ criticalFields /\ field2 ∈ criticalFields.
Proof.
  unfold adjacentBoxPairs. rewrite !elem_of_cons.
  intros [H | [H | [H | [H | [H | H]]]]];
    try (injection H as -> ->; split; critical).
  apply elem_of_nil in H. contradiction.
Qed.

Lemma correctAdjacentSwap_writesText m pair :
  pair ∈ adjacentBoxPairs ->
  writesText ocrData m (correctAdjacentSwap structuredData ocrData m pair).
Proof.
  destruct pair as [field1 field2]. intros H.
  apply adjacentBoxPairs_critical in H as [C1 C2].
  unfold correctAdjacentSwap. cbv zeta.
  destruct (_ && _); [| apply writesText_refl].
  destruct (_ && _); [| apply writesText_refl].
  eapply writesText_trans.
  - apply (writesText_insert m field1 C1).
  - apply (writesText_insert _ field2 C2).
Qed.

Lemma adjacentSwaps_writesText (pairs : list (string * string)) :
  (forall pair, pair ∈ pairs -> pair ∈ adjacentBoxPairs) ->
  forall m,
    writesText ocrData m
      (foldl (correctAdjacentSwap structuredData ocrData) m pairs).
Proof.
  induction pairs as [| pair rest IH]; intros C m; simpl.
  - apply writesText_refl.
  - eapply writesText_trans.
    + apply (correctAdjacentSwap_writesText m pair). apply C, list_elem_of_here.
    + apply IH. intros q Hq. apply C, list_elem_of_further, Hq.
Qed.

Lemma second_pass_writesText :
  writesText ocrData (correctCriticalFields structuredData ocrData)
    (validateAndCorrect1099MiscFields structuredData ocrData).
Proof.
  unfold validateAndCorrect1099MiscFields. cbv zeta.
  eapply writesText_trans.
  - apply correctOtherIncomeFishingSwap_writesText.
  - apply adjacentSwaps_writesText. intros pair H. exact H.
Qed.

Lemma reconciliation_writesText :
  writesText ocrData structuredData
    (validateAndCorrect1099MiscFields structuredData ocrData).
Proof.
  eapply writesText_trans; [| apply second_pass_writesText].
  apply correctCriticalFields_writesText. intros field H. exact H.
Qed.

Lemma amountOr0_textReading field :
  amountOr0 (default JsUndefined (Some (textReading ocrData field)))
  = amountOr0 (prop ocrData field).
Proof. reflexivity. Qed.

Lemma Qabs_diag (x : Q) : Qabs (x - x) <= 100.
Proof.
  assert (E : x - x == 0) by lra. rewrite E. vm_compute. discriminate.
Qed.

(** X13.  After [validateAndCorrect1099MiscFields] every field holds the
    value the structured reading had for it, or the number that the
    text-pattern reading of the same field parses to; that number is 0 when
    the text has no reading for the field, so a structured amount can be
    replaced by 0, a value neither reading shows.  A field outside the six
    critical fields always keeps the structured value. *)
Theorem reconciliation_keeps_a_value_or_writes_the_text_amount (field : string) :
  let final := validateAndCorrect1099MiscFields structuredData ocrData in
  (final !! field = structuredData !! field \/
   final !! field = Some (JsNumber (amountOr0 (prop ocrData field)))) /\
  (ocrData !! field = None ->
   final !! field = structuredData !! field \/
   final !! field = Some (JsNumber 0)) /\
  (field ∉ criticalFields -> final !! field = structuredData !! field).
Proof.
  cbv zeta.
  pose proof (reconciliation_writesText field) as W.
  unfold textReading in W.
  split; [| split].
  - destruct W as [E | [_ T]]; [left | right]; assumption.
  - intros N. destruct W as [E | [_ T]]; [left; exact E | right].
    rewrite T. unfold prop. rewrite N. reflexivity.
  - intros N. destruct W as [E | [C _]]; [exact E | contradiction].
Qed.

(** X14.  After the reconciliation, the amount of every critical field is
    within the threshold of 100 of the text-pattern reading of that field,
    whatever the structured reading was. *)
Theorem reconciled_amount_is_within_threshold_of_text_reading (field : string) :
  field ∈ criticalFields ->
  withinThreshold
    (amountOr0 (prop (validateAndCorrect1099MiscFields structuredData ocrData)
                     field))
    (amountOr0 (prop ocrData field)).
Proof.
  intros C. unfold withinThreshold, prop.
  destruct (second_pass_writesText field) as [E | [_ T]].
  - rewrite E. unfold correctCriticalFields.
    rewrite (correctCriticalFields_lookup structuredData ocrData criticalFields
               criticalFields_NoDup structuredData field C).
    unfold criticalFieldResult. cbv zeta.
    destruct (Qlt_bool 100 _) eqn:E100;
      [exact (Qabs_diag (amountOr0 (prop ocrData field))) |].
    destruct (_ && _);
      [exact (Qabs_diag (amountOr0 (prop ocrData field))) |].
    apply Qlt_bool_false in E100. exact E100.
  - rewrite T, amountOr0_textReading. apply Qabs_diag.
Qed.

(** X15.  When the structured reading and the text-pattern reading give
    the same amount for every critical field, the reconciliation changes no
    amount: every field has the amount of the structured reading. *)
Theorem reconciliation_changes_no_amount_when_readings_agree (field : string) :
  (forall critical, critical ∈ criticalFields ->
     amountOr0 (prop structuredData critical)
     == amountOr0 (prop ocrData critical)) ->
  amountOr0 (prop (validateAndCorrect1099MiscFields structuredData ocrData) field)
  == amountOr0 (prop structuredData field).
Proof.
  intros A. unfold prop at 1.
  destruct (reconciliation_writesText field) as [E | [C T]].
  - rewrite E. reflexivity.
  - rewrite T, amountOr0_textReading. symmetry. apply A, C.
Qed.

End ReconciliationInvariants.

Section ReconciliationExamples.
Import AzureDocumentIntelligenceService ExtractionReadings.

Lemma swapped_boxes_witness :
  "otherIncome" ∈ criticalFields /\
  withinThreshold
    (amountOr0 (prop (validateAndCorrect1099MiscFields swappedStructured
                        swappedText) "otherIncome"))
    (amountOr0 (prop swappedText "otherIncome")).
Proof.
  assert (C : "otherIncome" ∈ criticalFields) by apply list_elem_of_here.
  split; [exact C |].
  exact (reconciled_amount_is_within_threshold_of_text_reading
           swappedStructured swappedText "otherIncome" C).
Defined.

Lemma same_readings_witness :
  (forall critical, critical ∈ criticalFields ->
     amountOr0 (prop rentOnlyStructured critical)
     == amountOr0 (prop rentOnlyStructured critical)) /\
  amountOr0 (prop (validateAndCorrect1099MiscFields rentOnlyStructured
                     rentOnlyStructured) "rents")
  == amountOr0 (prop rentOnlyStructured "rents").
Proof.
  assert (A : forall critical, critical ∈ criticalFields ->
                amountOr0 (prop rentOnlyStructured critical)
                == amountOr0 (prop rentOnlyStructured critical))
    by (intros critical _; reflexivity).
  split; [exact A |].
  exact (reconciliation_changes_no_amount_when_readings_agree
           rentOnlyStructured rentOnlyStructured "rents" A).
Defined.

End ReconciliationExamples.

(** ** Classification from the recognised text *)

Section Classification.
Import AzureDocumentIntelligenceService ExtractionReadings.

(** The scoring loop keeps the first pattern with the highest score, or the
    starting match when no pattern scores strictly higher. *)
Lemma best_match_fold (text : string) (patterns : list FormPattern) :
  forall start : string * nat,
    let best := foldl (scoreFormPattern text) start patterns in
    (forall p, p ∈ patterns -> (countIndicators text (indicators p) <= best.2)%nat) /\
    (start.2 <= best.2)%nat /\
    (best = start \/
     exists p, p ∈ patterns /\
               best = (type p, countIndicators text (indicators p)) /\
               (start.2 < countIndicators text (indicators p))%nat).
Proof.
  induction patterns as [| p rest IH]; intros start; cbv zeta; simpl.
  - split; [intros q Hq; apply elem_of_nil in Hq; contradiction |].
    split; [lia | left; reflexivity].
  - specialize (IH (scoreFormPattern text start p)). cbv zeta in IH.
    destruct IH as (Hall & Hge & Hcase).
    assert (Hstep : (start.2 <= (scoreFormPattern text start p).2)%nat /\
                    (countIndicators text (indicators p)
                     <= (scoreFormPattern text start p).2)%nat).
    { unfold scoreFormPattern. cbv zeta.
      destruct (start.2 <? countIndicators text (indicators p))%nat eqn:E.
      - apply Nat.ltb_lt in E. simpl. lia.
      - apply Nat.ltb_ge in E. lia. }
    destruct Hstep as [Hs1 Hs2].
    split.
    { intros q Hq. apply elem_of_cons in Hq as [-> | Hq]; [lia | apply Hall, Hq]. }
    split; [lia |].
    destruct Hcase as [Hsame | (q & Hq & Hbest & Hlt)].
    + rewrite Hsame. unfold scoreFormPattern. cbv zeta.
      destruct (start.2 <? countIndicators text (indicators p))%nat eqn:E.
      * apply Nat.ltb_lt in E. right. exists p.
        split; [apply list_elem_of_here |]. split; [reflexivity | exact E].
      * left. reflexivity.
    + right. exists q. split; [apply list_elem_of_further, Hq |].
      split; [exact Hbest | lia].
Qed.

Lemma formTypePatterns_types (p : FormPattern) :
  p ∈ formTypePatterns -> type p ∈ subtypes1099.
Proof.
  unfold formTypePatterns, subtypes1099. rewrite !elem_of_cons.
  intros [-> | [-> | [-> | [-> | H]]]]; simpl.
  - left. reflexivity.
  - right. left. reflexivity.
  - right. right. left. reflexivity.
  - right. right. right. left. reflexivity.
  - apply elem_of_nil in H. contradiction.
Qed.

Lemma miscPattern_listed : miscPattern ∈ formTypePatterns.
Proof. unfold formTypePatterns, miscPattern. rewrite !elem_of_cons. tauto. Qed.

(** The subtype returned is one of the four, and its pattern has the highest
    score. *)
Lemma detectSpecific1099Type_best (ocrText : string) :
  exists p, p ∈ formTypePatterns /\
            type p = detectSpecific1099Type ocrText /\
            (forall q, q ∈ formTypePatterns ->
                       (subtypeScore ocrText q <= subtypeScore ocrText p)%nat) /\
            ((forall q, q ∈ formTypePatterns -> subtypeScore ocrText q = 0%nat) ->
             p = miscPattern).
Proof.
  unfold detectSpecific1099Type, subtypeScore. cbv zeta.
  destruct (best_match_fold (toLowerCase ocrText) formTypePatterns
              ("FORM_1099_MISC", 0%nat)) as (Hall & _ & Hcase).
  cbv zeta in *.
  destruct Hcase as [Hsame | (p & Hp & Hbest & Hlt)].
  - exists miscPattern. rewrite Hsame in *. simpl in Hall.
    split; [apply miscPattern_listed |]. split; [reflexivity |].
    split; [| intros _; reflexivity].
    intros q Hq. specialize (Hall q Hq). lia.
  - exists p. rewrite Hbest in *. simpl in Hall, Hlt.
    split; [exact Hp |]. split; [reflexivity |].
    split; [exact Hall |].
    intros Hzero. specialize (Hzero p Hp). lia.
Qed.

Lemma detectSpecific1099Type_subtype (ocrText : string) :
  detectSpecific1099Type ocrText ∈ subtypes1099.
Proof.
  destruct (detectSpecific1099Type_best ocrText) as (p & Hp & Ht & _).
  rewrite <- Ht. apply formTypePatterns_types. exact Hp.
Qed.

Lemma subtype_not_W2_or_UNKNOWN (t : string) :
  t ∈ subtypes1099 -> t <> "W2" /\ t <> "UNKNOWN".
Proof.
  unfold subtypes1099. rewrite !elem_of_cons.
  intros [-> | [-> | [-> | [-> | H]]]];
    [split; discriminate .. | apply elem_of_nil in H; contradiction].
Qed.

(** C7, as stated, fails: on "Form W-2 payer" the wage-statement list and
    the information-return list score one hit each.  Declaration order would
    give the wage statement; [detectFormType] gives the tie to the
    information returns, and the classifier answers the default subtype. *)
Lemma C7_counterexample_tie_goes_to_1099 :
  w2Score tiedText = 1%nat /\
  form1099Score tiedText = 1%nat /\
  detectFormType tiedText = "1099" /\
  analyzeDocumentTypeFromOCR tiedText = "FORM_1099_MISC" /\
  analyzeDocumentTypeFromOCR tiedText <> "W2".
Proof. repeat split; vm_compute; try reflexivity. discriminate. Qed.

(** C7, amended.  For every text the classifier counts the keywords of each
    list that occur in the lower-cased text, so the answer does not depend
    on letter case.  The wage statement wins only with strictly more hits
    than the information-return list; on a tie with at least one hit, and
    whenever the information-return list scores more, the answer is the
    1099 subtype of the second pass; the answer is "UNKNOWN" exactly when
    neither list scores.  The functions are total: there is an answer for
    every text. *)
Theorem C7_classification (ocrText : string) :
  let w2 := w2Score ocrText in
  let f1099 := form1099Score ocrText in
  (detectFormType ocrText = "W2" <-> (f1099 < w2)%nat) /\
  (detectFormType ocrText = "1099" <-> (w2 <= f1099)%nat /\ (0 < f1099)%nat) /\
  (detectFormType ocrText = "UNKNOWN" <-> w2 = 0%nat /\ f1099 = 0%nat) /\
  (analyzeDocumentTypeFromOCR ocrText = "W2" <-> (f1099 < w2)%nat) /\
  ((w2 <= f1099)%nat /\ (0 < f1099)%nat ->
   analyzeDocumentTypeFromOCR ocrText = detectSpecific1099Type ocrText) /\
  (analyzeDocumentTypeFromOCR ocrText = "UNKNOWN" <->
   w2 = 0%nat /\ f1099 = 0%nat) /\
  (forall other : string,
     toLowerCase other = toLowerCase ocrText ->
     analyzeDocumentTypeFromOCR other = analyzeDocumentTypeFromOCR ocrText).
Proof.
  cbv zeta.
  destruct (subtype_not_W2_or_UNKNOWN _ (detectSpecific1099Type_subtype ocrText))
    as [NW2 NUN].
  unfold analyzeDocumentTypeFromOCR, detectFormType, w2Score, form1099Score.
  cbv zeta.
  set (w2 := countIndicators (toLowerCase ocrText) w2Indicators).
  set (f1099 := countIndicators (toLowerCase ocrText) form1099Indicators).
  split; [| split; [| split; [| split; [| split; [| split]]]]].
  7: { intros other H. unfold detectSpecific1099Type. rewrite H. reflexivity. }
  all: destruct (f1099 <? w2)%nat eqn:E1;
    [apply Nat.ltb_lt in E1 | apply Nat.ltb_ge in E1];
    destruct (0 <? f1099)%nat eqn:E2;
    [apply Nat.ltb_lt in E2 | apply Nat.ltb_ge in E2
    |apply Nat.ltb_lt in E2 | apply Nat.ltb_ge in E2];
    cbn [String.eqb Ascii.eqb Bool.eqb andb];
    try (split; [intros H; first [discriminate H | lia | tauto]
                | intros H; first [reflexivity | lia | tauto]]);
    try (intros H; first [reflexivity | lia]).
  all: try (split; [intros H; exfalso; first [apply NW2, H | apply NUN, H]
                   | intros H; lia]).
Qed.


(** A text without any indicator, and texts of each subtype. *)
Example detectSpecific1099Type_examples :
  detectSpecific1099Type "" = "FORM_1099_MISC" /\
  detectSpecific1099Type "no indicator here" = "FORM_1099_MISC" /\
  detectSpecific1099Type "Form 1099-INT Interest Income" = "FORM_1099_INT" /\
  detectSpecific1099Type "Form 1099-NEC Nonemployee compensation"
    = "FORM_1099_NEC" /\
  detectSpecific1099Type "Nonemployee compensation" = "FORM_1099_MISC" /\
  analyzeDocumentTypeFromOCR "" = "UNKNOWN" /\
  analyzeDocumentTypeFromOCR "FORM W-2 Wage and Tax Statement, payer" = "W2".
Proof. repeat split; vm_compute; reflexivity. Qed.

End Classification.

(** ** Text-pattern extraction of the 1099-INT fields *)

Section InterestStatement.
Import AzureDocumentIntelligenceService ExtractionReadings.

(** C8, as stated, fails: in a text that shows box 4 alone, no pattern
    matches box 1, yet [interestIncome] is in the result, with the number
    0. *)
Lemma C8_counterexample_unmatched_field_is_zero :
  sectionMatch "1" (compileLabel "Interest income") "2" withholdingOnlyText
    = None /\
  extract1099IntFieldsFromOCR noPersonalInfo withholdingOnlyText ∅
    !! "interestIncome" = Some (JsNumber 0) /\
  extract1099IntFieldsFromOCR noPersonalInfo withholdingOnlyText ∅
    !! "interestIncome" <> None /\
  extract1099IntFieldsFromOCR noPersonalInfo withholdingOnlyText ∅
    !! "federalTaxWithheld" = Some (JsNumber 12.00).
Proof.
  split; [vm_compute; reflexivity |].
  split; [vm_compute; reflexivity |].
  split; [vm_compute; discriminate |].
  vm_compute. reflexivity.
Qed.

(** C8, amended.  For every text and every numeric field of the interest
    statement, the field is always present in the result of the text-pattern
    extractor, with what [extractFieldValue] returns for its box; when no
    pattern matches the box, or the section of the box holds no amount, the
    value is the number 0, so an unmatched field reads as zero and is not
    absent. *)
Theorem C8_numeric_fields_always_present
    (personalInfo : PersonalInfo.t) (ocrText : string)
    (baseData : ExtractedFieldData)
    (field boxNumber fieldLabel nextBoxNumber : string) :
  (field, (boxNumber, fieldLabel, nextBoxNumber)) ∈ numericFields1099Int ->
  let data := extract1099IntFieldsFromOCR personalInfo ocrText baseData in
  let section :=
    sectionMatch boxNumber (compileLabel fieldLabel) nextBoxNumber ocrText in
  data !! field = Some (extractFieldValue ocrText boxNumber fieldLabel nextBoxNumber)
  /\ data !! field <> None
  /\ (section = None -> data !! field = Some (JsNumber 0))
  /\ (forall text, section = Some text -> valueMatch text = None ->
      data !! field = Some (JsNumber 0)).
Proof.
  intros Hin. cbv zeta.
  assert (L : extract1099IntFieldsFromOCR personalInfo ocrText baseData !! field
              = Some (extractFieldValue ocrText boxNumber fieldLabel nextBoxNumber)).
  { unfold numericFields1099Int in Hin. rewrite !elem_of_cons in Hin.
    unfold extract1099IntFieldsFromOCR. cbv zeta.
    repeat (destruct Hin as [Hin | Hin];
            [injection Hin as -> -> -> ->;
             repeat (rewrite lookup_insert_ne by discriminate);
             apply lookup_insert_eq |]).
    apply elem_of_nil in Hin. contradiction. }
  rewrite L. split; [reflexivity |]. split; [discriminate |].
  unfold extractFieldValue. split.
  - intros ->. reflexivity.
  - intros text -> ->. reflexivity.
Qed.

Lemma C8_witness_interest_income_of_withholding_only_text :
  ("interestIncome", ("1", "Interest income", "2")) ∈ numericFields1099Int /\
  extract1099IntFieldsFromOCR noPersonalInfo withholdingOnlyText ∅
    !! "interestIncome" = Some (JsNumber 0).
Proof.
  assert (Hin : ("interestIncome", ("1", "Interest income", "2"))
                ∈ numericFields1099Int) by apply list_elem_of_here.
  split; [exact Hin |].
  refine (proj1 (proj2 (proj2 (C8_numeric_fields_always_present
            noPersonalInfo withholdingOnlyText ∅
            "interestIncome" "1" "Interest income" "2" Hin))) _).
  vm_compute. reflexivity.
Defined.

End InterestStatement.

(** ** Selection of the primary employee record *)

Section PrimaryEmployee.
Import AzureDocumentIntelligenceService ExtractionReadings.
Import Utf16.
Context `{CaseMapping}.

Lemma elem_of_insertByScore (x y : EmployeeRecord * Q)
    (sorted : list (EmployeeRecord * Q)) :
  y ∈ insertByScore x sorted <-> y = x \/ y ∈ sorted.
Proof.
  induction sorted as [| h t IH]; simpl.
  - rewrite elem_of_cons. reflexivity.
  - destruct (Qlt_bool x.2 h.2).
    + rewrite !elem_of_cons, IH. tauto.
    + rewrite !elem_of_cons. tauto.
Qed.

Lemma headIsHighest_insertByScore (x : EmployeeRecord * Q)
    (sorted : list (EmployeeRecord * Q)) :
  headIsHighest sorted -> headIsHighest (insertByScore x sorted).
Proof.
  destruct sorted as [| h t]; simpl.
  - intros _ y Hy. apply elem_of_cons in Hy as [-> | Hy]; [lra |].
    apply elem_of_nil in Hy. contradiction.
  - intros Hmax. destruct (Qlt_bool x.2 h.2) eqn:E.
    + apply Qlt_bool_true in E. intros y Hy.
      apply elem_of_cons in Hy as [-> | Hy]; [lra |].
      apply elem_of_insertByScore in Hy as [-> | Hy]; [lra |].
      apply Hmax. apply list_elem_of_further. exact Hy.
    + apply Qlt_bool_false in E. intros y Hy.
      apply elem_of_cons in Hy as [-> | Hy]; [lra |].
      specialize (Hmax y Hy). lra.
Qed.

Lemma elem_of_sortByFinalScore (y : EmployeeRecord * Q)
    (scored : list (EmployeeRecord * Q)) :
  y ∈ sortByFinalScore scored <-> y ∈ scored.
Proof.
  unfold sortByFinalScore. induction scored as [| x rest IH]; simpl.
  - reflexivity.
  - rewrite elem_of_insertByScore, elem_of_cons, IH. reflexivity.
Qed.

Lemma headIsHighest_sortByFinalScore (scored : list (EmployeeRecord * Q)) :
  headIsHighest (sortByFinalScore scored).
Proof.
  unfold sortByFinalScore. induction scored as [| x rest IH]; simpl.
  - exact I.
  - apply headIsHighest_insertByScore. exact IH.
Qed.

(** The head of the sorted list: a scored record of the list, with the
    highest score. *)
Lemma sortByFinalScore_head (scored : list (EmployeeRecord * Q)) :
  scored <> [] ->
  exists h t, sortByFinalScore scored = h :: t /\ h ∈ scored /\
              forall y, y ∈ scored -> y.2 <= h.2.
Proof.
  intros Hne.
  pose proof (headIsHighest_sortByFinalScore scored) as Hmax.
  destruct (sortByFinalScore scored) as [| h t] eqn:E.
  - destruct scored as [| x rest]; [contradiction |].
    assert (Hx : x ∈ sortByFinalScore (x :: rest))
      by (apply elem_of_sortByFinalScore, list_elem_of_here).
    rewrite E in Hx. apply elem_of_nil in Hx. contradiction.
  - exists h, t. split; [reflexivity |]. split.
    + apply elem_of_sortByFinalScore. rewrite E. apply list_elem_of_here.
    + intros y Hy. apply Hmax. rewrite <- E.
      apply elem_of_sortByFinalScore. exact Hy.
Qed.

(** The scoring branch of the selection. *)
Lemma scoring_selects_highest (target : option String16)
    (employeeRecords : list EmployeeRecord) :
  employeeRecords <> [] ->
  exists r t,
    sortByFinalScore
      (List.map (fun record => (record, finalScore target record)) employeeRecords)
    = (r, finalScore target r) :: t /\
    r ∈ employeeRecords /\
    forall r', r' ∈ employeeRecords -> finalScore target r' <= finalScore target r.
Proof.
  intros Hne.
  destruct (sortByFinalScore_head
              (List.map (fun record => (record, finalScore target record))
                        employeeRecords)) as (h & t & E & Hh & Hmax).
  { destruct employeeRecords; [contradiction | discriminate]. }
  apply list_elem_of_In, in_map_iff in Hh as (r & <- & Hr).
  exists r, t. split; [exact E |].
  split; [apply list_elem_of_In; exact Hr |].
  intros r' Hr'.
  apply (Hmax (r', finalScore target r')).
  apply list_elem_of_In, in_map_iff. exists r'.
  split; [reflexivity | apply list_elem_of_In; exact Hr'].
Qed.

(** [find] returns the first element that passes the test. *)
Lemma find_first {A : Type} (f : A -> bool) (l : list A) (y : A) :
  List.find f l = Some y ->
  exists before after,
    l = before ++ y :: after /\ f y = true /\
    forall x, x ∈ before -> f x = false.
Proof.
  induction l as [| a rest IH]; simpl; [discriminate |].
  destruct (f a) eqn:E.
  - intros [= <-]. exists [], rest. split; [reflexivity |].
    split; [exact E |]. intros x Hx. apply elem_of_nil in Hx. contradiction.
  - intros Hfind. destruct (IH Hfind) as (before & after & -> & Hy & Hb).
    exists (a :: before), after. split; [reflexivity |].
    split; [exact Hy |]. intros x Hx.
    apply elem_of_cons in Hx as [-> | Hx]; [exact E | apply Hb, Hx].
Qed.

Lemma find_finds {A : Type} (f : A -> bool) (l : list A) (x : A) :
  x ∈ l -> f x = true -> exists y, List.find f l = Some y.
Proof.
  intros Hx Hf. destruct (List.find f l) as [y |] eqn:E.
  - exists y. reflexivity.
  - apply list_elem_of_In in Hx.
    pose proof (find_none f l E x Hx) as Hnone. congruence.
Qed.

Lemma find_misses {A : Type} (f : A -> bool) (l : list A) :
  (forall x, x ∈ l -> f x = false) -> List.find f l = None.
Proof.
  intros Hall. destruct (List.find f l) as [y |] eqn:E; [| reflexivity].
  apply find_some in E as [Hy Hfy]. apply list_elem_of_In in Hy.
  rewrite (Hall y Hy) in Hfy. discriminate Hfy.
Qed.

Lemma eqb_true (a b : String16) : eqb a b = true <-> a = b.
Proof. unfold eqb. apply bool_decide_eq_true. Qed.

Lemma eqb_false (a b : String16) : eqb a b = false <-> a <> b.
Proof. unfold eqb. apply bool_decide_eq_false. Qed.

Lemma arrayIncludes_true (words : list String16) (word : String16) :
  arrayIncludes words word = true <-> word ∈ words.
Proof.
  unfold arrayIncludes. rewrite existsb_exists. split.
  - intros (w & Hw & E). apply eqb_true in E. subst w.
    apply list_elem_of_In, Hw.
  - intros Hw. exists word. split; [apply list_elem_of_In, Hw |].
    apply eqb_true. reflexivity.
Qed.

Lemma present_nonempty (text : String16) : text <> [] -> present (Some text) = true.
Proof.
  intros N. unfold present. apply negb_true_iff, eqb_false. exact N.
Qed.

(** The test of the loop is the match of the specification. *)
Lemma matchesTarget_namesMatch (target : String16) (record : EmployeeRecord) :
  matchesTarget (normalizeNameForMatching target) record = true
  <-> namesMatch target record.
Proof.
  unfold matchesTarget, namesMatch, exactMatch, wordSubsetMatch. cbv zeta.
  destruct (name record) as [n |].
  - rewrite andb_true_iff, negb_true_iff, eqb_false, orb_true_iff, eqb_true,
      forallb_forall.
    split.
    + intros [Hn [E | S]].
      * left. exists n. repeat split; assumption.
      * right. exists n. split; [reflexivity |]. split; [exact Hn |].
        intros word Hw. apply arrayIncludes_true, S, list_elem_of_In, Hw.
    + intros [(m & [= <-] & Hn & E) | (m & [= <-] & Hn & S)].
      * split; [exact Hn | left; exact E].
      * split; [exact Hn | right].
        intros word Hw. apply arrayIncludes_true, S, list_elem_of_In, Hw.
  - split; [discriminate |].
    intros [(m & E & _) | (m & E & _)]; discriminate E.
Qed.

Lemma not_namesMatch (target : String16) (record : EmployeeRecord) :
  matchesTarget (normalizeNameForMatching target) record = false
  <-> ~ namesMatch target record.
Proof.
  rewrite <- matchesTarget_namesMatch.
  destruct (matchesTarget _ record); split; congruence.
Qed.

(** [finalScore] is the composite score of the specification. *)
Lemma finalScore_compositeScore (target : option String16)
    (record : EmployeeRecord) :
  finalScore target record == compositeScore target record.
Proof.
  unfold finalScore, compositeScore, bonus. cbv zeta.
  destruct (name record) as [n |], target as [t |];
    cbv [default from_option id].
  - destruct (present (Some n)), (present (Some t)); cbn [andb];
      destruct (present (ssn record)), (present (address record)),
        (length n <? 6)%nat, (negb (looksLikeCompany n)); lra.
  - destruct (present (Some n)); cbn [present andb];
      destruct (present (ssn record)), (present (address record)),
        (length n <? 6)%nat, (negb (looksLikeCompany n)); lra.
  - destruct (present (Some t)); cbn [present andb];
      destruct (present (ssn record)), (present (address record)); lra.
  - cbn [present andb].
    destruct (present (ssn record)), (present (address record)); lra.
Qed.

(** C9.  The selection, under every case mapping of the names.  The test
    of the loop is the match of the specification, an exact or a word-subset
    match of the normalised names, and [finalScore] is the composite score.
    With a target name supplied: when some record of the list matches, the
    selection returns the first record of the list that matches, wherever
    it stands in the list; when no record matches and the list is not
    empty, it returns a record of the list whose composite score is the
    highest.  Without a target name it returns a record with the highest
    composite score as well. *)
Theorem C9_primary_record_selection
    (employeeRecords : list EmployeeRecord) (target : String16) :
  target <> [] ->
  let selected := selectPrimaryEmployeeRecord employeeRecords (Some target) in
  (forall record,
     matchesTarget (normalizeNameForMatching target) record = true
     <-> namesMatch target record) /\
  (forall wanted record,
     finalScore wanted record == compositeScore wanted record) /\
  ((exists r, r ∈ employeeRecords /\ namesMatch target r) ->
   exists before r after,
     employeeRecords = before ++ r :: after /\
     selected = Some r /\ namesMatch target r /\
     forall r', r' ∈ before -> ~ namesMatch target r') /\
  ((forall r, r ∈ employeeRecords -> ~ namesMatch target r) ->
   employeeRecords <> [] ->
   exists r, selected = Some r /\ r ∈ employeeRecords /\
             forall r', r' ∈ employeeRecords ->
                        compositeScore (Some target) r'
                        <= compositeScore (Some target) r) /\
  (employeeRecords <> [] ->
   exists r, selectPrimaryEmployeeRecord employeeRecords None = Some r /\
             r ∈ employeeRecords /\
             forall r', r' ∈ employeeRecords ->
                        compositeScore None r' <= compositeScore None r).
Proof.
  intros Hne. cbv zeta.
  pose proof (present_nonempty target Hne) as Hp.
  split; [intros record; apply matchesTarget_namesMatch |].
  split; [apply finalScore_compositeScore |].
  split; [| split].
  - intros (r & Hr & Hm).
    destruct employeeRecords as [| r0 [| r1 rest]].
    + apply elem_of_nil in Hr. contradiction.
    + apply elem_of_cons in Hr as [-> | Hr];
        [| apply elem_of_nil in Hr; contradiction].
      exists [], r0, []. split; [reflexivity |]. split; [reflexivity |].
      split; [exact Hm |]. intros r' Hr'. apply elem_of_nil in Hr'. contradiction.
    + apply matchesTarget_namesMatch in Hm.
      destruct (find_finds _ (r0 :: r1 :: rest) r Hr Hm) as (y & Hfind).
      destruct (find_first _ _ _ Hfind) as (before & after & E & Hy & Hb).
      exists before, y, after. split; [exact E |].
      split.
      { unfold selectPrimaryEmployeeRecord, findByTargetName.
        rewrite Hp, Hfind. reflexivity. }
      split; [apply matchesTarget_namesMatch, Hy |].
      intros r' Hr'. apply not_namesMatch, Hb, Hr'.
  - intros Hnone Hnonempty.
    destruct employeeRecords as [| r0 [| r1 rest]].
    + contradiction.
    + exists r0. split; [reflexivity |]. split; [apply list_elem_of_here |].
      intros r' Hr'. apply elem_of_cons in Hr' as [-> | Hr'];
        [lra | apply elem_of_nil in Hr'; contradiction].
    + destruct (scoring_selects_highest (Some target) (r0 :: r1 :: rest))
        as (r & t & E & Hr & Hmax); [discriminate |].
      exists r. split; [| split; [exact Hr |]].
      * unfold selectPrimaryEmployeeRecord, findByTargetName.
        rewrite Hp, (find_misses _ _ (fun x Hx => proj2 (not_namesMatch _ _) (Hnone x Hx))).
        cbv zeta. rewrite E. reflexivity.
      * intros r' Hr'. rewrite <- !finalScore_compositeScore. apply Hmax, Hr'.
  - intros Hnonempty.
    destruct employeeRecords as [| r0 [| r1 rest]].
    + contradiction.
    + exists r0. split; [reflexivity |]. split; [apply list_elem_of_here |].
      intros r' Hr'. apply elem_of_cons in Hr' as [-> | Hr'];
        [lra | apply elem_of_nil in Hr'; contradiction].
    + destruct (scoring_selects_highest None (r0 :: r1 :: rest))
        as (r & t & E & Hr & Hmax); [discriminate |].
      exists r. split; [| split; [exact Hr |]].
      * unfold selectPrimaryEmployeeRecord, findByTargetName.
        cbv zeta. rewrite E. reflexivity.
      * intros r' Hr'. rewrite <- !finalScore_compositeScore. apply Hmax, Hr'.
Qed.

End PrimaryEmployee.

Section PrimaryEmployeeOfTwoBlocks.
Import AzureDocumentIntelligenceService ExtractionReadings.
Import Utf16.
#[local] Existing Instance latin1.

Lemma C9_witness_second_block_matches_target :
  utf16 "Jordan Blake" <> [] /\
  (exists r, r ∈ [firstBlock; secondBlock] /\
             namesMatch (utf16 "Jordan Blake") r) /\
  selectPrimaryEmployeeRecord [firstBlock; secondBlock]
    (Some (utf16 "Jordan Blake")) = Some secondBlock /\
  selectPrimaryEmployeeRecord [firstBlock; secondBlock]
    (Some (utf16 "jordan blake")) = Some secondBlock /\
  selectPrimaryEmployeeRecord [firstBlock; secondBlock]
    (Some (utf16 "  Blake ")) = Some secondBlock /\
  selectPrimaryEmployeeRecord [firstBlock; accentedBlock]
    (Some (utf16 "josé garcía")) = Some accentedBlock /\
  (forall r, r ∈ [sparseBlock; secondBlock] ->
             ~ namesMatch (utf16 "Casey Jones") r) /\
  selectPrimaryEmployeeRecord [sparseBlock; secondBlock]
    (Some (utf16 "Casey Jones")) = Some secondBlock /\
  selectPrimaryEmployeeRecord [plainBlock; secondBlock]
    (Some (utf16 "Jordan Smith")) = Some secondBlock /\
  selectPrimaryEmployeeRecord [companyBlock; secondBlock] None
  = Some secondBlock.
Proof.
  (* the second of two blocks is selected when it alone matches *)
  assert (Second : forall (first second : EmployeeRecord) (target : String16),
             target <> [] ->
             matchesTarget (normalizeNameForMatching target) first = false ->
             matchesTarget (normalizeNameForMatching target) second = true ->
             (exists r, r ∈ [first; second] /\ namesMatch target r) /\
             selectPrimaryEmployeeRecord [first; second] (Some target)
             = Some second).
  { intros first second target Hne Hfirst Hsecond.
    destruct (C9_primary_record_selection [first; second] target Hne)
      as (Hmatch & _ & Hselect & _).
    assert (Hex : exists r, r ∈ [first; second] /\ namesMatch target r).
    { exists second. split; [apply list_elem_of_further, list_elem_of_here |].
      apply Hmatch, Hsecond. }
    split; [exact Hex |].
    destruct (Hselect Hex) as (before & r & after & E & Hsel & Hm & _).
    rewrite Hsel. f_equal.
    assert (Hr : r ∈ [first; second])
      by (rewrite E; apply elem_of_app; right; apply list_elem_of_here).
    apply elem_of_cons in Hr as [-> | Hr].
    - apply Hmatch in Hm. congruence.
    - apply list_elem_of_singleton in Hr. exact Hr. }
  (* and when neither matches and it has the higher composite score *)
  assert (Higher : forall (first second : EmployeeRecord) (target : String16),
             target <> [] ->
             matchesTarget (normalizeNameForMatching target) first = false ->
             matchesTarget (normalizeNameForMatching target) second = false ->
             compositeScore (Some target) first
             < compositeScore (Some target) second ->
             (forall r, r ∈ [first; second] -> ~ namesMatch target r) /\
             selectPrimaryEmployeeRecord [first; second] (Some target)
             = Some second).
  { intros first second target Hne Hfirst Hsecond Hlt.
    destruct (C9_primary_record_selection [first; second] target Hne)
      as (Hmatch & _ & _ & Hscore & _).
    assert (Hnone : forall r, r ∈ [first; second] -> ~ namesMatch target r).
    { intros r Hr Hm. apply Hmatch in Hm.
      apply elem_of_cons in Hr as [-> | Hr];
        [| apply list_elem_of_singleton in Hr; subst r]; congruence. }
    split; [exact Hnone |].
    destruct (Hscore Hnone) as (r & Hsel & Hr & Hmax); [discriminate |].
    rewrite Hsel. f_equal.
    apply elem_of_cons in Hr as [-> | Hr];
      [| apply list_elem_of_singleton in Hr; exact Hr].
    assert (Hle : compositeScore (Some target) second
                  <= compositeScore (Some target) first)
      by (apply Hmax, list_elem_of_further, list_elem_of_here).
    lra. }
  (* the same without a target *)
  assert (HigherWithoutTarget : forall first second : EmployeeRecord,
             compositeScore None first < compositeScore None second ->
             selectPrimaryEmployeeRecord [first; second] None = Some second).
  { intros first second Hlt.
    assert (Hne : utf16 "Jordan Blake" <> []) by discriminate.
    destruct (C9_primary_record_selection [first; second]
                (utf16 "Jordan Blake") Hne) as (_ & _ & _ & _ & Hscore).
    destruct Hscore as (r & Hsel & Hr & Hmax); [discriminate |].
    rewrite Hsel. f_equal.
    apply elem_of_cons in Hr as [-> | Hr];
      [| apply list_elem_of_singleton in Hr; exact Hr].
    assert (Hle : compositeScore None second <= compositeScore None first)
      by (apply Hmax, list_elem_of_further, list_elem_of_here).
    lra. }
  assert (N1 : utf16 "Jordan Blake" <> []) by discriminate.
  destruct (Second firstBlock secondBlock (utf16 "Jordan Blake") N1)
    as [Hex1 Hsel1]; [vm_compute; reflexivity | vm_compute; reflexivity |].
  destruct (Second firstBlock secondBlock (utf16 "jordan blake"))
    as [_ Hsel2]; [discriminate | vm_compute; reflexivity
                   | vm_compute; reflexivity |].
  destruct (Second firstBlock secondBlock (utf16 "  Blake "))
    as [_ Hsel3]; [discriminate | vm_compute; reflexivity
                   | vm_compute; reflexivity |].
  destruct (Second firstBlock accentedBlock (utf16 "josé garcía"))
    as [_ Hsel4]; [discriminate | vm_compute; reflexivity
                   | vm_compute; reflexivity |].
  destruct (Higher sparseBlock secondBlock (utf16 "Casey Jones"))
    as [Hnone5 Hsel5]; [discriminate | vm_compute; reflexivity
                        | vm_compute; reflexivity | vm_compute; reflexivity |].
  destruct (Higher plainBlock secondBlock (utf16 "Jordan Smith"))
    as [_ Hsel6]; [discriminate | vm_compute; reflexivity
                   | vm_compute; reflexivity | vm_compute; reflexivity |].
  pose proof (HigherWithoutTarget companyBlock secondBlock) as Hsel7.
  repeat (split; [assumption |]).
  apply Hsel7. vm_compute. reflexivity.
Defined.

(** The scenario of two blocks: the second block is selected for the target
    "Jordan Blake" although the first block scores higher (150 against 100);
    without a target, and for a target that matches no block, the first
    block is selected. *)
Example primary_record_of_two_blocks :
  selectPrimaryEmployeeRecord [firstBlock; secondBlock]
    (Some (utf16 "Jordan Blake")) = Some secondBlock /\
  selectPrimaryEmployeeRecord [firstBlock; secondBlock]
    (Some (utf16 "Blake")) = Some secondBlock /\
  normalizeNameForMatching (utf16 "  josé   garcía ") = utf16 "JOSÉ GARCÍA" /\
  finalScore None firstBlock == 150 /\
  finalScore None secondBlock == 100 /\
  finalScore None sparseBlock == 95 /\
  finalScore (Some (utf16 "Jordan Smith")) secondBlock == 115 /\
  selectPrimaryEmployeeRecord [firstBlock; secondBlock] None = Some firstBlock /\
  selectPrimaryEmployeeRecord [firstBlock; secondBlock]
    (Some (utf16 "Casey Jones")) = Some firstBlock.
Proof. repeat split; vm_compute; reflexivity. Qed.

End PrimaryEmployeeOfTwoBlocks.

(** ** The scores of the records *)

Section NameSimilarity.
Import AzureDocumentIntelligenceService ExtractionReadings.
Import Utf16.
Context `{CaseMapping}.

Lemma split_length (sep : N) (s : String16) : (1 <= length (split sep s))%nat.
Proof.
  induction s as [| c rest IH]; simpl; [lia |].
  destruct (c =? sep)%N; simpl; [lia |].
  destruct (split sep rest); simpl in *; lia.
Qed.

Lemma ratio_bounds (a b : nat) :
  (a <= b)%nat -> (1 <= b)%nat ->
  0 <= inject_Z (Z.of_nat a) / inject_Z (Z.of_nat b) <= 1.
Proof.
  intros Hab Hb.
  assert (Hb' : 0 < inject_Z (Z.of_nat b)).
  { change 0 with (inject_Z 0). rewrite <- Zlt_Qlt. lia. }
  assert (Ha' : 0 <= inject_Z (Z.of_nat a)).
  { change 0 with (inject_Z 0). rewrite <- Zle_Qle. lia. }
  assert (Hab' : inject_Z (Z.of_nat a) <= inject_Z (Z.of_nat b)).
  { rewrite <- Zle_Qle. lia. }
  split.
  - apply Qle_shift_div_l; [exact Hb' | lra].
  - apply Qle_shift_div_r; [exact Hb' | lra].
Qed.

Lemma calculateNameSimilarity_bounds (name1 name2 : String16) :
  0 <= calculateNameSimilarity name1 name2 <= 1.
Proof.
  unfold calculateNameSimilarity. cbv zeta.
  destruct (eqb _ _); [lra |].
  apply ratio_bounds.
  - etransitivity; [apply List.filter_length_le | apply Nat.le_max_l].
  - etransitivity; [apply split_length | apply Nat.le_max_l].
Qed.

(** X16.  [calculateNameSimilarity] is a ratio, under every case mapping:
    the number of words it divides by is at least one, so the division is
    always defined, and the result lies between 0 and 1; a name compared
    with itself gives 1, and so do two names that
    [normalizeNameForMatching] makes equal. *)
Theorem calculateNameSimilarity_is_a_ratio (name1 name2 : String16) :
  let words1 := split 32 (normalizeNameForMatching name1) in
  let words2 := split 32 (normalizeNameForMatching name2) in
  (1 <= Nat.max (length words1) (length words2))%nat /\
  0 <= calculateNameSimilarity name1 name2 <= 1 /\
  calculateNameSimilarity name1 name1 == 1 /\
  (normalizeNameForMatching name1 = normalizeNameForMatching name2 ->
   calculateNameSimilarity name1 name2 == 1).
Proof.
  cbv zeta.
  split; [etransitivity; [apply split_length | apply Nat.le_max_l] |].
  split; [apply calculateNameSimilarity_bounds |].
  assert (S : forall a b, normalizeNameForMatching a = normalizeNameForMatching b ->
                calculateNameSimilarity a b == 1).
  { intros a b E. unfold calculateNameSimilarity. cbv zeta.
    rewrite E, (proj2 (eqb_true _ _) eq_refl). reflexivity. }
  split; [apply S; reflexivity | apply S].
Qed.

(** X17.  The composite score of a record, [finalScore], lies between the
    confidence of the record and the confidence plus 80, with or without a
    target name and under every case mapping: the bonuses add up to 80 at
    most, and the penalty for a short name never outweighs the bonus for
    having a name. *)
Theorem finalScore_between_confidence_and_80_more
    (target : option String16) (record : EmployeeRecord) :
  confidence record <= finalScore target record <= confidence record + 80.
Proof.
  unfold finalScore. cbv zeta.
  destruct (name record) as [n |].
  - assert (B : forall t, 0 <= calculateNameSimilarity t n * 30 <= 30).
    { intros t. pose proof (calculateNameSimilarity_bounds t n). lra. }
    destruct (present (Some n)); cbn [andb];
      destruct (present (ssn record)), (present (address record));
      destruct (length n <? 6)%nat, (negb (looksLikeCompany n));
      destruct target as [t |];
      try (destruct (present (Some t)); cbn [andb]);
      try (specialize (B t)); lra.
  - cbn [present].
    destruct (present (ssn record)), (present (address record));
      destruct target; lra.
Qed.

End NameSimilarity.

(** ** Form eligibility *)

Section Eligibility.
Import FormEligibilityService EligibilityReadings.

Lemma isEligible_1040 profile :
  (checkFormEligibility profile FORM_1040).1
  = negb (bool_decide (residencyStatus profile = NON_RESIDENT_ALIEN)).
Proof.
  unfold checkFormEligibility, checkMinAge, checkMaxAge, checkRequiredResidency,
    checkExcludedResidency, checkFormSpecific. cbn.
  destruct (residencyStatus profile); reflexivity.
Qed.

Lemma isEligible_1040_SR profile :
  (checkFormEligibility profile FORM_1040_SR).1
  = negb (knownBelow65 profile)
    && negb (bool_decide (residencyStatus profile = NON_RESIDENT_ALIEN)).
Proof.
  unfold checkFormEligibility, checkMinAge, checkMaxAge, checkRequiredResidency,
    checkExcludedResidency, checkFormSpecific, knownBelow65, isSenior. cbn.
  destruct (age profile) as [years |]; cbn.
  - change (inject_Z 65) with 65.
    destruct (Qlt_bool years 65) eqn:E; cbn;
      destruct (residencyStatus profile); cbn;
      destruct (Qle_bool 65 years); reflexivity.
  - destruct (residencyStatus profile); reflexivity.
Qed.

Lemma isEligible_1040_NR profile :
  (checkFormEligibility profile FORM_1040_NR).1
  = bool_decide (residencyStatus profile = NON_RESIDENT_ALIEN).
Proof.
  unfold checkFormEligibility, checkMinAge, checkMaxAge, checkRequiredResidency,
    checkExcludedResidency, checkFormSpecific. cbn.
  destruct (residencyStatus profile); reflexivity.
Qed.

Lemma isEligible_1040_EZ profile :
  (checkFormEligibility profile FORM_1040_EZ).1 = false.
Proof. reflexivity. Qed.

(** The forms the loop of [determineEligibility] collects. *)
Lemma tallyForms_fold profile forms t :
  tallyForms (foldl (tallyForm profile) t forms)
  = tallyForms t
    ++ List.filter (fun f => (checkFormEligibility profile f).1) forms.
Proof.
  revert t. induction forms as [| f rest IH]; intros t; simpl.
  - rewrite app_nil_r. reflexivity.
  - rewrite IH. unfold tallyForm.
    destruct (checkFormEligibility profile f) as [[|] rs]; simpl.
    + rewrite <- app_assoc. reflexivity.
    + destruct rs; reflexivity.
Qed.

Lemma eligibleForms_filter profile :
  eligibleForms (determineEligibility profile)
  = List.filter (fun f => (checkFormEligibility profile f).1) formTypes.
Proof.
  unfold determineEligibility. cbn [eligibleForms].
  rewrite tallyForms_fold. reflexivity.
Qed.

Lemma eligibleForms_cases profile :
  eligibleForms (determineEligibility profile)
  = if bool_decide (residencyStatus profile = NON_RESIDENT_ALIEN)
    then [FORM_1040_NR]
    else if knownBelow65 profile then [FORM_1040]
    else [FORM_1040; FORM_1040_SR].
Proof.
  rewrite eligibleForms_filter. unfold formTypes. cbn [List.filter].
  rewrite isEligible_1040, isEligible_1040_SR, isEligible_1040_NR,
    isEligible_1040_EZ.
  destruct (bool_decide _); destruct (knownBelow65 profile); reflexivity.
Qed.

End Eligibility.

Section EligibilityTheorems.
Import FormEligibilityService EligibilityReadings.

Lemma includesMember_true `{EqDecision A} (xs : list A) (x : A) :
  includesMember xs x = true <-> x ∈ xs.
Proof. unfold includesMember. apply bool_decide_eq_true. Qed.

Lemma wantedAndEligible_Some wanted forms f :
  wantedAndEligible wanted forms = Some f -> wanted = Some f /\ f ∈ forms.
Proof.
  unfold wantedAndEligible. destruct wanted as [w |]; [| discriminate].
  destruct (includesMember forms w) eqn:E; [| discriminate].
  intros [= <-]. split; [reflexivity | apply includesMember_true, E].
Qed.

Lemma wantedAndEligible_of_elem forms f :
  f ∈ forms -> wantedAndEligible (Some f) forms = Some f.
Proof.
  intros H. unfold wantedAndEligible.
  apply includesMember_true in H. rewrite H. reflexivity.
Qed.

(** The recommended form is taken from the eligible ones, when there is
    one. *)
Lemma determineRecommendedForm_elem forms rs profile :
  forms <> [] -> determineRecommendedForm forms rs profile ∈ forms.
Proof.
  intros Hne. unfold determineRecommendedForm.
  destruct (wantedAndEligible (preferredFormType profile) forms) eqn:E1;
    [apply wantedAndEligible_Some in E1 as [_ H]; exact H |].
  destruct (wantedAndEligible (lastUsedFormType profile) forms) eqn:E2;
    [apply wantedAndEligible_Some in E2 as [_ H]; exact H |].
  destruct (bool_decide _ && includesMember forms FORM_1040_NR) eqn:E3;
    [apply andb_true_iff in E3 as [_ H]; apply includesMember_true, H |].
  destruct (isSenior profile && includesMember forms FORM_1040_SR) eqn:E4;
    [apply andb_true_iff in E4 as [_ H]; apply includesMember_true, H |].
  destruct (includesMember forms FORM_1040) eqn:E5;
    [apply includesMember_true, E5 |].
  destruct forms as [| f rest]; [contradiction |]. apply list_elem_of_here.
Qed.

Lemma recommendedForm_unfold profile :
  recommendedForm (determineEligibility profile)
  = determineRecommendedForm (eligibleForms (determineEligibility profile))
      (tallyReasons
         (foldl (tallyForm profile)
            {| tallyForms := []; tallyReasons := []; tallyWarnings := [] |}
            formTypes))
      profile.
Proof. reflexivity. Qed.

Lemma eligibleForms_nonempty profile :
  eligibleForms (determineEligibility profile) <> [].
Proof.
  rewrite eligibleForms_cases.
  destruct (bool_decide _); [| destruct (knownBelow65 profile)]; discriminate.
Qed.

Lemma recommendedForm_elem profile :
  recommendedForm (determineEligibility profile)
  ∈ eligibleForms (determineEligibility profile).
Proof.
  rewrite recommendedForm_unfold.
  apply determineRecommendedForm_elem, eligibleForms_nonempty.
Qed.

(** X18.  The eligible forms of [determineEligibility] depend on the
    residency status and the age alone.  A non-resident alien is eligible
    for Form 1040-NR and for nothing else; anyone else whose age is known
    and below 65 is eligible for Form 1040 alone; anyone else, of age 65 or
    more or of unknown age, is eligible for Form 1040 and Form 1040-SR, in
    this order.  So the list is never empty and never holds Form 1040-EZ. *)
Theorem eligible_forms_by_residency_and_age (profile : UserProfileData) :
  eligibleForms (determineEligibility profile)
  = if bool_decide (residencyStatus profile = NON_RESIDENT_ALIEN)
    then [FORM_1040_NR]
    else if knownBelow65 profile then [FORM_1040]
    else [FORM_1040; FORM_1040_SR].
Proof. apply eligibleForms_cases. Qed.

(** X19.  The form [determineEligibility] recommends is always one of the
    eligible forms it returns: a preferred or last used form that is not
    eligible is passed over.  It is never Form 1040-EZ; it is Form 1040-NR
    exactly for non-resident aliens; and it is Form 1040-SR only for someone
    whose age is not known to be below 65. *)
Theorem recommended_form_is_eligible (profile : UserProfileData) :
  let result := determineEligibility profile in
  recommendedForm result ∈ eligibleForms result /\
  recommendedForm result <> FORM_1040_EZ /\
  (recommendedForm result = FORM_1040_NR
   <-> residencyStatus profile = NON_RESIDENT_ALIEN) /\
  (recommendedForm result = FORM_1040_SR -> knownBelow65 profile = false).
Proof.
  cbv zeta. pose proof (recommendedForm_elem profile) as H.
  rewrite eligibleForms_cases in H.
  split; [rewrite eligibleForms_cases; exact H |].
  destruct (bool_decide (residencyStatus profile = NON_RESIDENT_ALIEN)) eqn:E.
  - apply bool_decide_eq_true in E.
    apply list_elem_of_singleton in H. rewrite H.
    split; [discriminate |]. split; [tauto | discriminate].
  - apply bool_decide_eq_false in E.
    destruct (knownBelow65 profile).
    + apply list_elem_of_singleton in H. rewrite H.
      split; [discriminate |]. split; [| discriminate].
      split; [discriminate | contradiction].
    + apply elem_of_cons in H as [H | H];
        [| apply list_elem_of_singleton in H]; rewrite H;
        (split; [discriminate |]); (split; [| reflexivity]);
        (split; [discriminate | contradiction]).
Qed.

End EligibilityTheorems.

Section EligibilityReasons.
Import FormEligibilityService EligibilityReadings.

Lemma about_note f text p v : about f v -> about f (note (automatic f text p) v).
Proof.
  unfold about, note. simpl. intros H. apply Forall_app. split; [exact H |].
  apply Forall_singleton. reflexivity.
Qed.

Lemma about_reject f text p v : about f v -> about f (reject (automatic f text p) v).
Proof.
  unfold about, reject. simpl. intros H. apply Forall_app. split; [exact H |].
  apply Forall_singleton. reflexivity.
Qed.

(** Every reason [checkFormEligibility] gives is about the form it checks. *)
Lemma checkFormEligibility_about profile f :
  about f (checkFormEligibility profile f).
Proof.
  unfold checkFormEligibility. cbv zeta.
  assert (H0 : about f (true, [])) by apply Forall_nil_2.
  assert (H1 : about f (checkMinAge profile f (true, []))).
  { unfold checkMinAge. destruct (minAge _); [| exact H0].
    destruct (age profile); [| exact H0].
    destruct (Qlt_bool _ _); [apply about_reject | apply about_note]; exact H0. }
  assert (H2 : about f (checkMaxAge profile f (checkMinAge profile f (true, [])))).
  { unfold checkMaxAge. destruct (maxAge _); [| exact H1].
    destruct (age profile); [| exact H1].
    destruct (Qlt_bool _ _); [apply about_reject |]; exact H1. }
  assert (H3 : about f (checkRequiredResidency profile f
                          (checkMaxAge profile f
                             (checkMinAge profile f (true, []))))).
  { unfold checkRequiredResidency at 1.
    destruct (requiredResidencyStatus _); [| exact H2].
    destruct (includesMember _ _); [apply about_note | apply about_reject];
      exact H2. }
  assert (H4 : about f (checkExcludedResidency profile f
                          (checkRequiredResidency profile f
                             (checkMaxAge profile f
                                (checkMinAge profile f (true, [])))))).
  { unfold checkExcludedResidency at 1.
    destruct (excludedResidencyStatus _); [| exact H3].
    destruct (includesMember _ _); [apply about_reject |]; exact H3. }
  unfold checkFormSpecific at 1.
  destruct f.
  - destruct (_.1); [apply about_note |]; exact H4.
  - destruct (isSenior profile); [apply about_note |]; exact H4.
  - destruct (bool_decide _); [apply about_note |]; exact H4.
  - apply about_reject. exact H4.
Qed.

(** The reasons collected are about the forms collected. *)
Lemma tallyReasons_fold profile forms t :
  Forall (fun r => formType r ∈ tallyForms t) (tallyReasons t) ->
  let t' := foldl (tallyForm profile) t forms in
  Forall (fun r => formType r ∈ tallyForms t') (tallyReasons t').
Proof.
  revert t. induction forms as [| f rest IH]; intros t H; simpl; [exact H |].
  apply IH. unfold tallyForm.
  pose proof (checkFormEligibility_about profile f) as A. unfold about in A.
  destruct (checkFormEligibility profile f) as [[|] rs]; simpl in *.
  - apply Forall_app. split.
    + eapply Forall_impl; [exact H |]. intros r Hr. simpl in Hr.
      apply elem_of_app. left. exact Hr.
    + eapply Forall_impl; [exact A |]. intros r Hr. simpl in Hr.
      apply elem_of_app. right. rewrite Hr. apply list_elem_of_here.
  - destruct rs; exact H.
Qed.

Lemma elem_of_insertByPriority r x sorted :
  x ∈ insertByPriority r sorted <-> x = r \/ x ∈ sorted.
Proof.
  induction sorted as [| s rest IH]; simpl.
  - rewrite list_elem_of_singleton. rewrite elem_of_nil. tauto.
  - destruct (priority r <? priority s)%Z.
    + rewrite !elem_of_cons, IH. tauto.
    + rewrite !elem_of_cons. tauto.
Qed.

Lemma elem_of_sortByPriority x rs : x ∈ sortByPriority rs <-> x ∈ rs.
Proof.
  induction rs as [| r rest IH]; simpl; [reflexivity |].
  rewrite elem_of_insertByPriority, IH, elem_of_cons. reflexivity.
Qed.

Lemma insertByPriority_sorted r sorted :
  StronglySorted (fun a b => (priority b <= priority a)%Z) sorted ->
  StronglySorted (fun a b => (priority b <= priority a)%Z)
    (insertByPriority r sorted).
Proof.
  induction sorted as [| s rest IH]; intros H; simpl.
  - constructor; [constructor | constructor].
  - apply StronglySorted_inv in H as [Hrest Hs].
    destruct (priority r <? priority s)%Z eqn:E.
    + apply Z.ltb_lt in E. constructor; [apply IH, Hrest |].
      apply List.Forall_forall. intros x Hx.
      apply list_elem_of_In, elem_of_insertByPriority in Hx as [-> | Hx];
        [lia |].
      rewrite List.Forall_forall in Hs. apply Hs, list_elem_of_In, Hx.
    + apply Z.ltb_ge in E. constructor; [constructor; assumption |].
      constructor; [exact E |].
      eapply List.Forall_impl; [| exact Hs]. simpl. intros a Ha. lia.
Qed.

Lemma sortByPriority_sorted rs :
  StronglySorted (fun a b => (priority b <= priority a)%Z) (sortByPriority rs).
Proof.
  induction rs as [| r rest IH]; simpl; [constructor |].
  apply insertByPriority_sorted, IH.
Qed.

Lemma note_reasons r v : (note r v).2 <> [].
Proof. unfold note. simpl. intros H. apply app_eq_nil in H as [_ H]. discriminate. Qed.

Lemma reject_reasons r v : (reject r v).2 <> [].
Proof. unfold reject. simpl. intros H. apply app_eq_nil in H as [_ H]. discriminate. Qed.

Lemma checkFormEligibility_reasons profile f :
  (checkFormEligibility profile f).2 <> [].
Proof.
  unfold checkFormEligibility. cbv zeta.
  set (v := checkMaxAge profile f (checkMinAge profile f (true, []))).
  assert (H : (checkExcludedResidency profile f
                 (checkRequiredResidency profile f v)).2 <> []).
  { unfold checkExcludedResidency, checkRequiredResidency.
    destruct f; cbn [FORM_REQUIREMENTS excludedResidencyStatus
                     requiredResidencyStatus];
      destruct (includesMember _ _);
      first [apply note_reasons | apply reject_reasons]. }
  unfold checkFormSpecific.
  destruct f; try apply reject_reasons;
    match goal with
    | |- context [if ?c then _ else _] => destruct c
    end; first [apply note_reasons | exact H].
Qed.

(** Every form collected has a reason among the reasons collected. *)
Lemma tallyForms_have_reasons profile forms t :
  Forall (fun f => exists r, r ∈ tallyReasons t /\ formType r = f) (tallyForms t) ->
  let t' := foldl (tallyForm profile) t forms in
  Forall (fun f => exists r, r ∈ tallyReasons t' /\ formType r = f) (tallyForms t').
Proof.
  revert t. induction forms as [| f rest IH]; intros t H; simpl; [exact H |].
  apply IH. unfold tallyForm.
  pose proof (checkFormEligibility_about profile f) as A. unfold about in A.
  pose proof (checkFormEligibility_reasons profile f) as N.
  destruct (checkFormEligibility profile f) as [[|] rs]; simpl in *.
  - apply Forall_app. split.
    + eapply Forall_impl; [exact H |]. intros g (r & Hr & Hg). simpl.
      exists r. split; [apply elem_of_app; left; exact Hr | exact Hg].
    + apply Forall_singleton. destruct rs as [| r rs']; [contradiction |].
      exists r. split; [apply elem_of_app; right; apply list_elem_of_here |].
      apply Forall_cons in A as [A _]. exact A.
  - destruct rs; exact H.
Qed.

(** X20.  The reasons [determineEligibility] returns are sorted by
    priority, highest first; each of them is about a form that is eligible,
    and every eligible form has at least one reason. *)
Theorem reasons_sorted_and_about_eligible_forms (profile : UserProfileData) :
  let result := determineEligibility profile in
  StronglySorted (fun a b => (priority b <= priority a)%Z) (reasons result) /\
  Forall (fun r => formType r ∈ eligibleForms result) (reasons result) /\
  Forall (fun f => exists r, r ∈ reasons result /\ formType r = f)
         (eligibleForms result).
Proof.
  cbv zeta. split; [apply sortByPriority_sorted |].
  unfold determineEligibility. cbn [reasons eligibleForms].
  split.
  - apply Forall_forall. intros r Hr.
    apply (proj1 (elem_of_sortByPriority _ _)) in Hr.
    pose proof (tallyReasons_fold profile formTypes
                  {| tallyForms := []; tallyReasons := []; tallyWarnings := [] |}
                  (Forall_nil_2 _)) as H.
    cbv zeta in H. rewrite Forall_forall in H. apply H, Hr.
  - pose proof (tallyForms_have_reasons profile formTypes
                  {| tallyForms := []; tallyReasons := []; tallyWarnings := [] |}
                  (Forall_nil_2 _)) as H.
    cbv zeta in H. eapply Forall_impl; [exact H |].
    intros f (r & Hr & Hf). exists r. split; [| exact Hf].
    apply elem_of_sortByPriority. exact Hr.
Qed.

End EligibilityReasons.

Section EligibilityUpdates.
Import FormEligibilityService EligibilityReadings.

(** The eligible forms depend on the age and the residency status alone. *)
Lemma eligibleForms_same p q :
  age p = age q -> residencyStatus p = residencyStatus q ->
  eligibleForms (determineEligibility p) = eligibleForms (determineEligibility q).
Proof.
  intros Ha Hr. rewrite !eligibleForms_cases. unfold knownBelow65.
  rewrite Ha, Hr. reflexivity.
Qed.

Lemma recommendedForm_of_preferred p f :
  preferredFormType p = Some f ->
  f ∈ eligibleForms (determineEligibility p) ->
  recommendedForm (determineEligibility p) = f.
Proof.
  intros Hp Hf. rewrite recommendedForm_unfold. unfold determineRecommendedForm.
  rewrite Hp, (wantedAndEligible_of_elem _ _ Hf). reflexivity.
Qed.

(** X21.  [updateProfileEligibility] is stable: updating an updated
    profile changes nothing but the time stamp, which is outside the model.
    The three flags it sets say whether the filer
    is a non-resident alien (Form 1040-NR) or not (Form 1040), and for Form
    1040-SR whether, not being a non-resident alien, the filer is not known
    to be below 65; the preferred form it sets is eligible for the updated
    profile. *)
Theorem updateProfileEligibility_is_stable (profile : UserProfileData) :
  let updated := updateProfileEligibility profile in
  updateProfileEligibility updated = updated /\
  eligibleFor1040 updated
    = negb (bool_decide (residencyStatus profile = NON_RESIDENT_ALIEN)) /\
  eligibleFor1040SR updated
    = negb (bool_decide (residencyStatus profile = NON_RESIDENT_ALIEN))
      && negb (knownBelow65 profile) /\
  eligibleFor1040NR updated
    = bool_decide (residencyStatus profile = NON_RESIDENT_ALIEN) /\
  exists preferred,
    preferredFormType updated = Some preferred /\
    preferred ∈ eligibleForms (determineEligibility updated).
Proof.
  cbv zeta.
  assert (Hforms : eligibleForms (determineEligibility (updateProfileEligibility profile))
                   = eligibleForms (determineEligibility profile))
    by (apply eligibleForms_same; reflexivity).
  assert (Hrec : recommendedForm
                   (determineEligibility (updateProfileEligibility profile))
                 = recommendedForm (determineEligibility profile)).
  { apply recommendedForm_of_preferred; [reflexivity |].
    rewrite Hforms. apply recommendedForm_elem. }
  split.
  { unfold updateProfileEligibility at 1. cbv zeta. rewrite Hforms, Hrec.
    reflexivity. }
  unfold updateProfileEligibility. cbv zeta.
  cbn [eligibleFor1040 eligibleFor1040SR eligibleFor1040NR preferredFormType].
  fold (updateProfileEligibility profile).
  rewrite Hforms, eligibleForms_cases.
  split; [| split; [| split]].
  - destruct (bool_decide _); [| destruct (knownBelow65 profile)]; reflexivity.
  - destruct (bool_decide _); [| destruct (knownBelow65 profile)]; reflexivity.
  - destruct (bool_decide _); [| destruct (knownBelow65 profile)]; reflexivity.
  - eexists. split; [reflexivity |].
    rewrite <- eligibleForms_cases. apply recommendedForm_elem.
Qed.

Lemma turned65_same p : turned65 p p = false.
Proof.
  unfold turned65. destruct (age p) as [years |]; [| reflexivity].
  destruct (Qlt_bool years 65) eqn:E; [| reflexivity].
  apply Qlt_bool_true in E. simpl.
  destruct (Qle_bool 65 years) eqn:E'; [| reflexivity].
  apply Qle_bool_iff in E'. lra.
Qed.

(** X22.  [shouldRecommendFormSwitch] suggests no switch when the profile
    has not changed.  Whenever it suggests a switch, it names a form, and
    that form is eligible for the new profile; whenever it suggests none, it
    names no form, and the old and the new profile have the same recommended
    form. *)
Theorem form_switch_only_on_change_and_to_eligible_form
    (oldProfile newProfile : UserProfileData) :
  let same := shouldRecommendFormSwitch newProfile newProfile in
  let switch := shouldRecommendFormSwitch oldProfile newProfile in
  (shouldSwitch same = false /\ switchTo same = None) /\
  (shouldSwitch switch = true ->
   exists target,
     switchTo switch = Some target /\
     target ∈ eligibleForms (determineEligibility newProfile)) /\
  (shouldSwitch switch = false ->
   switchTo switch = None /\
   recommendedForm (determineEligibility oldProfile)
   = recommendedForm (determineEligibility newProfile)).
Proof.
  cbv zeta. split; [| split].
  - unfold shouldRecommendFormSwitch. cbv zeta.
    rewrite bool_decide_eq_true_2 by reflexivity. cbn [negb].
    rewrite turned65_same. cbn [andb].
    destruct (bool_decide (residencyStatus newProfile = NON_RESIDENT_ALIEN));
      split; reflexivity.
  - unfold shouldRecommendFormSwitch. cbv zeta.
    destruct (bool_decide (recommendedForm _ = recommendedForm _)); cbn [negb].
    2: { intros _. eexists. split; [reflexivity | apply recommendedForm_elem]. }
    destruct (turned65 _ _ && includesMember _ _) eqn:E65.
    { intros _. eexists. split; [reflexivity |].
      apply andb_true_iff in E65 as [_ H]. apply includesMember_true, H. }
    destruct (negb _ && bool_decide _) eqn:Enr; [| discriminate].
    intros _. eexists. split; [reflexivity |].
    apply andb_true_iff in Enr as [_ H]. apply bool_decide_eq_true in H.
    rewrite eligibleForms_cases, bool_decide_eq_true_2 by exact H.
    apply list_elem_of_here.
  - unfold shouldRecommendFormSwitch. cbv zeta.
    destruct (bool_decide (recommendedForm _ = recommendedForm _)) eqn:E;
      cbn [negb]; [| discriminate].
    apply bool_decide_eq_true in E.
    destruct (turned65 _ _ && includesMember _ _); [discriminate |].
    destruct (negb _ && bool_decide _); [discriminate |].
    intros _. split; [reflexivity | exact E].
Qed.

Lemma form_switch_witness :
  let switch :=
    shouldRecommendFormSwitch (newProfile (Some 40) US_CITIZEN)
                              (newProfile (Some 40) NON_RESIDENT_ALIEN) in
  shouldSwitch switch = true /\
  exists target,
    switchTo switch = Some target /\
    target ∈ eligibleForms
               (determineEligibility (newProfile (Some 40) NON_RESIDENT_ALIEN)).
Proof.
  cbv zeta.
  assert (H : shouldSwitch
                (shouldRecommendFormSwitch (newProfile (Some 40) US_CITIZEN)
                   (newProfile (Some 40) NON_RESIDENT_ALIEN)) = true)
    by (vm_compute; reflexivity).
  split; [exact H |].
  exact (proj1 (proj2 (form_switch_only_on_change_and_to_eligible_form
                         (newProfile (Some 40) US_CITIZEN)
                         (newProfile (Some 40) NON_RESIDENT_ALIEN))) H).
Defined.

End EligibilityUpdates.

Section Factory.
Import FormEligibilityService Form1040Factory EligibilityReadings.
Import Form1099ToForm1040Mapper (Form1040Data).

Lemma isFormTypeSupported_true f : isFormTypeSupported f = true <-> f = FORM_1040.
Proof.
  unfold isFormTypeSupported. rewrite includesMember_true.
  apply list_elem_of_singleton.
Qed.

(** After the three selection steps the standard form is selected. *)
Lemma selection_is_1040 s :
  selectedFormType (replaceUnsupported (defaultTo1040 s)) = Some FORM_1040.
Proof.
  unfold defaultTo1040, replaceUnsupported.
  destruct (selectedFormType s) as [f |] eqn:E; cbn [selectedFormType].
  - rewrite E. destruct (isFormTypeSupported f) eqn:S; [| reflexivity].
    apply isFormTypeSupported_true in S. rewrite E, S. reflexivity.
  - reflexivity.
Qed.

Lemma warnIfNotEligible_keeps options f ws w :
  w ∈ ws -> w ∈ warnIfNotEligible options f ws.
Proof.
  intros H. unfold warnIfNotEligible.
  destruct (optionUserProfile options); [| exact H].
  destruct (includesMember _ _); [exact H |].
  apply elem_of_app. left. exact H.
Qed.

(** X23.  [createForm] always builds the standard form: whatever the
    options are, the form type of the result is FORM_1040, the form holds
    the data given, and its tax year is the one of the options, or 2023.  A
    request for another form type is answered with the warning that this
    form type is not yet implemented, and a profile of a non-resident alien
    with the warning that the user may not be eligible for FORM_1040. *)
Theorem createForm_always_builds_the_standard_form
    (formData : Form1040Data) (options : FormCreationOptions) :
  let result := createForm formData options in
  resultFormType result = FORM_1040 /\
  getFormData (form result) = formData /\
  instanceTaxYear (form result) = default 2023%Z (optionTaxYear options) /\
  (forall requested,
     optionFormType options = Some requested -> requested <> FORM_1040 ->
     ("Form type " +:+ formTypeText requested
      +:+ " not yet implemented, using standard Form 1040")
     ∈ resultWarnings result) /\
  (forall profile,
     optionUserProfile options = Some profile ->
     residencyStatus profile = NON_RESIDENT_ALIEN ->
     "User may not be eligible for FORM_1040, please review form selection"
     ∈ resultWarnings result).
Proof.
  cbv zeta. unfold createForm. cbv zeta.
  cbn [resultFormType form resultWarnings].
  rewrite !selection_is_1040. cbn [default createFormInstance].
  split; [reflexivity |]. split; [reflexivity |]. split; [reflexivity |].
  split.
  - intros requested Hreq Hne. apply warnIfNotEligible_keeps.
    unfold autoDetect. cbn [selectedFormType]. rewrite Hreq.
    unfold defaultTo1040, replaceUnsupported. cbn [selectedFormType].
    destruct (isFormTypeSupported requested) eqn:S;
      [apply isFormTypeSupported_true in S; contradiction |].
    cbn [selectionWarnings]. apply elem_of_app. right. apply list_elem_of_here.
  - intros profile Hp Hnr. unfold warnIfNotEligible. rewrite Hp.
    destruct (includesMember _ _) eqn:E.
    + apply includesMember_true in E.
      rewrite eligibleForms_cases, bool_decide_eq_true_2 in E by exact Hnr.
      apply list_elem_of_singleton in E. discriminate.
    + apply elem_of_app. right. apply list_elem_of_here.
Qed.

Lemma senior_form_request_witness :
  optionFormType (askFor FORM_1040_SR) = Some FORM_1040_SR /\
  FORM_1040_SR <> FORM_1040 /\
  "Form type FORM_1040_SR not yet implemented, using standard Form 1040"
  ∈ resultWarnings
      (createForm Form1099ToForm1040Mapper.emptyForm (askFor FORM_1040_SR)).
Proof.
  assert (H : optionFormType (askFor FORM_1040_SR) = Some FORM_1040_SR)
    by reflexivity.
  assert (N : FORM_1040_SR <> FORM_1040) by discriminate.
  split; [exact H |]. split; [exact N |].
  destruct (createForm_always_builds_the_standard_form
              Form1099ToForm1040Mapper.emptyForm (askFor FORM_1040_SR))
    as (_ & _ & _ & W & _).
  exact (W FORM_1040_SR H N).
Defined.

(** [createForm] for a given form type, without a profile. *)
Lemma createForm_without_profile formData target year :
  let result :=
    createForm formData
      {| optionFormType := Some target; optionTaxYear := Some year;
         optionUserProfile := None; optionAutoDetectForm := Some false |} in
  getFormData (form result) = formData /\
  instanceTaxYear (form result) = year /\
  resultFormType result = FORM_1040 /\
  isRecommended result = false /\
  resultWarnings result
  = if bool_decide (target = FORM_1040) then []
    else ["Form type " +:+ formTypeText target
          +:+ " not yet implemented, using standard Form 1040"].
Proof. destruct target; repeat split; reflexivity. Qed.

(** X24.  [migrateFormData] keeps the data: the form of the result holds
    the data of the source form (a standard form, as every form the factory
    makes), for the tax year given (2023 otherwise);
    its form type is FORM_1040 whatever target was asked for, and it is not
    marked as recommended.  The warnings are the one about the target not
    being implemented, when the target is not FORM_1040, followed by the
    note of the migration. *)
Theorem migrateFormData_keeps_the_data
    (sourceForm : FormInstance) (targetFormType : FormType) (taxYear : option Z) :
  let result := migrateFormData sourceForm targetFormType taxYear in
  getFormData (form result) = getFormData sourceForm /\
  instanceTaxYear (form result) = default 2023%Z taxYear /\
  resultFormType result = FORM_1040 /\
  isRecommended result = false /\
  resultWarnings result
  = (if bool_decide (targetFormType = FORM_1040) then []
     else ["Form type " +:+ formTypeText targetFormType
           +:+ " not yet implemented, using standard Form 1040"])
    ++ ["Form data migrated from FORM_1040 to " +:+ formTypeText targetFormType].
Proof.
  cbv zeta. unfold migrateFormData. cbv zeta.
  cbn [form resultFormType isRecommended resultWarnings].
  destruct (createForm_without_profile
              (getFormData sourceForm) targetFormType (default 2023%Z taxYear))
    as (H1 & H2 & H3 & H4 & H5).
  rewrite H1, H2, H3, H4, H5. repeat split; reflexivity.
Qed.

(** X25.  [recommendFormType] of the factory recommends FORM_1040 for every
    profile, also for a non-resident alien, for whom the list of supported
    eligible forms it returns is empty; for everyone else that list is
    FORM_1040 alone.  The reasons it returns are reasons of
    [determineEligibility] about FORM_1040. *)
Theorem recommendFormType_is_always_the_standard_form
    (userProfile : UserProfileData) :
  let result := recommendFormType userProfile in
  recommended result = FORM_1040 /\
  supportedEligibleForms result
  = (if bool_decide (residencyStatus userProfile = NON_RESIDENT_ALIEN)
     then [] else [FORM_1040]) /\
  Forall (fun text =>
            exists r, r ∈ reasons (determineEligibility userProfile) /\
                      formType r = FORM_1040 /\ reason r = text)
         (recommendationReasons result).
Proof.
  cbv zeta. unfold recommendFormType. cbv zeta.
  cbn [recommended supportedEligibleForms recommendationReasons].
  assert (Hs : List.filter isFormTypeSupported
                 (eligibleForms (determineEligibility userProfile))
               = if bool_decide (residencyStatus userProfile = NON_RESIDENT_ALIEN)
                 then [] else [FORM_1040]).
  { rewrite eligibleForms_cases.
    destruct (bool_decide _); [| destruct (knownBelow65 userProfile)];
      reflexivity. }
  assert (Hr : (if isFormTypeSupported
                     (recommendedForm (determineEligibility userProfile))
                then recommendedForm (determineEligibility userProfile)
                else firstOr1040
                       (List.filter isFormTypeSupported
                          (eligibleForms (determineEligibility userProfile))))
               = FORM_1040).
  { destruct (isFormTypeSupported _) eqn:E.
    - apply isFormTypeSupported_true, E.
    - rewrite Hs. destruct (bool_decide _); reflexivity. }
  rewrite Hr. split; [reflexivity |]. split; [exact Hs |].
  apply Forall_forall. intros text Ht.
  apply list_elem_of_In, List.in_map_iff in Ht as (r & Hr' & Hin).
  apply List.filter_In in Hin as [Hin Hf].
  apply bool_decide_eq_true in Hf.
  exists r. split; [apply list_elem_of_In, Hin |]. split; [exact Hf | exact Hr'].
Qed.

(** X26.  [validateFormCompatibility]: a form type is compatible exactly
    when it is among the eligible forms of the profile.  When it is not,
    the issues say so and the one recommendation names the recommended
    form.  There is no issue at all exactly when the form type is compatible
    and, for Form 1040-SR, the age is known and at least 65: a filer of
    unknown age is eligible for Form 1040-SR and still gets an issue. *)
Theorem validateFormCompatibility_issues
    (formType : FormType) (userProfile : UserProfileData) :
  let result := validateFormCompatibility formType userProfile in
  let eligibility := determineEligibility userProfile in
  (isCompatible result = true <-> formType ∈ eligibleForms eligibility) /\
  (isCompatible result = false ->
   ("User is not eligible for " +:+ formTypeText formType) ∈ issues result /\
   recommendations result
   = ["Consider using " +:+ formTypeText (recommendedForm eligibility)
      +:+ " instead"]) /\
  (issues result = [] <->
   isCompatible result = true /\
   (formType = FORM_1040_SR -> isSenior userProfile = true)).
Proof.
  cbv zeta. unfold validateFormCompatibility. cbv zeta.
  cbn [isCompatible issues recommendations].
  split; [apply includesMember_true |].
  split.
  - intros E. rewrite E. split.
    + repeat match goal with
             | |- context [if ?c then _ else _] => destruct c
             end;
        repeat (apply elem_of_app; left); apply list_elem_of_here.
    + pose proof (eligibleForms_nonempty userProfile) as N.
      destruct (eligibleForms (determineEligibility userProfile));
        [contradiction | reflexivity].
  - rewrite eligibleForms_cases. unfold isSenior, knownBelow65, Qlt_bool.
    destruct formType, (residencyStatus userProfile),
      (age userProfile) as [years |]; cbn;
      try destruct (Qle_bool 65 years); cbn;
      (split; [intros H; first [discriminate H | split; [reflexivity |];
                                first [discriminate | reflexivity]]
              | intros [H1 H2];
                first [reflexivity | discriminate H1
                      | specialize (H2 eq_refl); discriminate H2]]).
Qed.

Lemma senior_form_below_65_witness :
  let result :=
    validateFormCompatibility FORM_1040_SR (newProfile (Some 40) US_CITIZEN) in
  isCompatible result = false /\
  "User is not eligible for FORM_1040_SR" ∈ issues result /\
  recommendations result = ["Consider using FORM_1040 instead"].
Proof.
  cbv zeta.
  assert (H : isCompatible
                (validateFormCompatibility FORM_1040_SR
                   (newProfile (Some 40) US_CITIZEN)) = false)
    by (vm_compute; reflexivity).
  split; [exact H |].
  destruct (proj1 (proj2 (validateFormCompatibility_issues FORM_1040_SR
                            (newProfile (Some 40) US_CITIZEN))) H) as [I R].
  split; [exact I | exact R].
Defined.

End Factory.

(** ** The taxpayer identification number *)

Section IdentificationNumber.
Import Form1099Validation Form1040Validation IdentificationReadings.

Lemma allDigits_digitsOf (s : string) : allDigits (digitsOf s) = true.
Proof.
  induction s as [| c rest IH]; [reflexivity |].
  unfold digitsOf in *. simpl. destruct (isDigit c) eqn:E; simpl.
  - rewrite E. exact IH.
  - exact IH.
Qed.

Lemma digitsOf_allDigits (s : string) : allDigits s = true -> digitsOf s = s.
Proof.
  induction s as [| c rest IH]; [reflexivity |].
  simpl. intros H. apply andb_true_iff in H as [Hc Hr].
  unfold digitsOf in *. simpl. rewrite Hc. simpl. rewrite (IH Hr). reflexivity.
Qed.

Lemma digitsOf_idempotent (s : string) : digitsOf (digitsOf s) = digitsOf s.
Proof. apply digitsOf_allDigits, allDigits_digitsOf. Qed.

(** A text of nine digits, digit by digit. *)
Lemma nine_digits (s : string) :
  allDigits s = true -> String.length s = 9%nat ->
  exists a b c d e f g h i,
    s = String a (String b (String c (String d (String e (String f
          (String g (String h (String i EmptyString)))))))) /\
    isDigit a = true /\ isDigit b = true /\ isDigit c = true /\
    isDigit d = true /\ isDigit e = true /\ isDigit f = true /\
    isDigit g = true /\ isDigit h = true /\ isDigit i = true.
Proof.
  intros D L.
  do 9 (destruct s as [| ? s]; [discriminate L |]).
  destruct s; [| discriminate L].
  simpl in D. repeat (apply andb_true_iff in D as [? D]).
  repeat eexists; assumption.
Qed.

(** The number as [formatSSN] writes it. *)
Lemma formatSSN_cases (ssn : string) :
  (String.length (digitsOf ssn) = 9%nat /\
   exists a b c d e f g h i,
     digitsOf ssn
     = String a (String b (String c (String d (String e (String f
         (String g (String h (String i EmptyString)))))))) /\
     formatSSN ssn
     = String a (String b (String c (String "-" (String d (String e
         (String "-" (String f (String g (String h (String i EmptyString))))))))))
     /\ isDigit a = true /\ isDigit b = true /\ isDigit c = true /\
     isDigit d = true /\ isDigit e = true /\ isDigit f = true /\
     isDigit g = true /\ isDigit h = true /\ isDigit i = true)
  \/ (String.length (digitsOf ssn) <> 9%nat /\ formatSSN ssn = digitsOf ssn).
Proof.
  destruct (decide (String.length (digitsOf ssn) = 9%nat)) as [L | L].
  - left. split; [exact L |].
    destruct (nine_digits _ (allDigits_digitsOf ssn) L)
      as (a & b & c & d & e & f & g & h & i & E & Ds).
    exists a, b, c, d, e, f, g, h, i. split; [exact E |]. split; [| exact Ds].
    unfold formatSSN. fold (digitsOf ssn).
    destruct (String.eqb ssn "") eqn:Z.
    + apply String.eqb_eq in Z. subst ssn. discriminate L.
    + rewrite E. reflexivity.
  - right. split; [exact L |].
    unfold formatSSN. fold (digitsOf ssn).
    destruct (String.eqb ssn "") eqn:Z.
    + apply String.eqb_eq in Z. subst ssn. reflexivity.
    + apply Nat.eqb_neq in L. rewrite L. reflexivity.
Qed.

Lemma digitsThen_digits (n : nat) (s rest : string) :
  digitsThen n s = Some rest ->
  String.length (digitsOf s) = (n + String.length (digitsOf rest))%nat.
Proof.
  revert s. induction n as [| n IH]; intros s H; simpl in H.
  - injection H as ->. reflexivity.
  - destruct s as [| c s']; [discriminate |].
    destruct (isDigit c) eqn:E; [| discriminate].
    unfold digitsOf in *. simpl. rewrite E. simpl. rewrite (IH s' H). reflexivity.
Qed.

Lemma optionalHyphen_digits (s : string) :
  digitsOf (optionalHyphen s) = digitsOf s.
Proof.
  unfold optionalHyphen. destruct s as [| c s']; [reflexivity |].
  destruct (Ascii.eqb c "-"%char) eqn:E.
  - apply Ascii.eqb_eq in E. subst c. reflexivity.
  - destruct c as [[] [] [] [] [] [] [] []]; try reflexivity; discriminate E.
Qed.

(** A text that passes the test of the form has nine digits. *)
Lemma matchesSSN_digits (s : string) :
  matchesSSN s = true -> String.length (digitsOf s) = 9%nat.
Proof.
  unfold matchesSSN.
  destruct (digitsThen 3 s) as [s1 |] eqn:E1; [| discriminate].
  destruct (digitsThen 2 (optionalHyphen s1)) as [s2 |] eqn:E2; [| discriminate].
  destruct (digitsThen 4 (optionalHyphen s2)) as [s3 |] eqn:E3; [| discriminate].
  destruct s3; [| discriminate]. intros _.
  apply digitsThen_digits in E1, E2, E3.
  rewrite optionalHyphen_digits in E2, E3.
  rewrite E1, E2, E3. reflexivity.
Qed.

Lemma digit_not_white (c : ascii) : isDigit c = true -> isWhiteSpace c = false.
Proof. destruct c as [[] [] [] [] [] [] [] []]; intros H; try reflexivity; discriminate H. Qed.

Lemma formatSSN_digits (ssn : string) : digitsOf (formatSSN ssn) = digitsOf ssn.
Proof.
  destruct (formatSSN_cases ssn)
    as [(L & a & b & c & d & e & f & g & h & i & E & F & Da & Db & Dc & Dd & De
         & Df & Dg & Dh & Di) | (L & F)].
  - rewrite F, E. unfold digitsOf.
    repeat (simpl; rewrite ?Da, ?Db, ?Dc, ?Dd, ?De, ?Df, ?Dg, ?Dh, ?Di).
    reflexivity.
  - rewrite F. apply digitsOf_idempotent.
Qed.

Lemma matchesSSN_formatSSN (ssn : string) :
  matchesSSN (formatSSN ssn) = true <-> String.length (digitsOf ssn) = 9%nat.
Proof.
  split.
  - intros H. apply matchesSSN_digits in H. rewrite formatSSN_digits in H.
    exact H.
  - intros L.
    destruct (formatSSN_cases ssn)
      as [(_ & a & b & c & d & e & f & g & h & i & E & F & Da & Db & Dc & Dd & De
           & Df & Dg & Dh & Di) | (L' & _)]; [| contradiction].
    rewrite F. unfold matchesSSN.
    repeat (simpl; rewrite ?Da, ?Db, ?Dc, ?Dd, ?De, ?Df, ?Dg, ?Dh, ?Di).
    reflexivity.
Qed.

(** X27.  [formatSSN] keeps the digits of its argument and nothing else
    but the two hyphens it writes: formatting twice is formatting once; the
    result is accepted by the pattern of the form validation exactly when
    the argument has nine digits, and then it is eleven characters long;
    with any other number of digits the result is the digits alone. *)
Theorem formatSSN_is_idempotent_and_keeps_the_digits (ssn : string) :
  formatSSN (formatSSN ssn) = formatSSN ssn /\
  digitsOf (formatSSN ssn) = digitsOf ssn /\
  (matchesSSN (formatSSN ssn) = true <-> String.length (digitsOf ssn) = 9%nat) /\
  (String.length (digitsOf ssn) = 9%nat -> String.length (formatSSN ssn) = 11%nat) /\
  (String.length (digitsOf ssn) <> 9%nat -> formatSSN ssn = digitsOf ssn).
Proof.
  split.
  { destruct (formatSSN_cases (formatSSN ssn))
      as [(L & a & b & c & d & e & f & g & h & i & E & F & _) | (L & F)];
      rewrite formatSSN_digits in *.
    - destruct (formatSSN_cases ssn)
        as [(_ & a' & b' & c' & d' & e' & f' & g' & h' & i' & E' & F' & _)
           | (L' & _)]; [| contradiction].
      rewrite F, F'. rewrite E in E'. injection E' as -> -> -> -> -> -> -> -> ->.
      reflexivity.
    - rewrite F.
      destruct (formatSSN_cases ssn) as [(L' & _) | (_ & F')];
        [contradiction | symmetry; exact F']. }
  split; [apply formatSSN_digits |].
  split; [apply matchesSSN_formatSSN |].
  split.
  - intros L.
    destruct (formatSSN_cases ssn)
      as [(_ & a & b & c & d & e & f & g & h & i & _ & F & _) | (L' & _)];
      [| contradiction].
    rewrite F. reflexivity.
  - intros L.
    destruct (formatSSN_cases ssn) as [(L' & _) | (_ & F)];
      [contradiction | exact F].
Qed.

Lemma trim_not_blank (a : ascii) (rest : string) :
  isWhiteSpace a = false -> String.eqb (trim (String a rest)) "" = false.
Proof.
  intros W. unfold trim. simpl. rewrite W. simpl.
  destruct (trimEnd rest); [rewrite W |]; reflexivity.
Qed.

Lemma ssnIssues_formatSSN (tin : string) :
  ssnIssues (Some (formatSSN tin)) = [] <-> String.length (digitsOf tin) = 9%nat.
Proof.
  unfold ssnIssues.
  destruct (formatSSN_cases tin)
    as [(L & a & b & c & d & e & f & g & h & i & E & F & Da & Db & Dc & Dd & De
         & Df & Dg & Dh & Di) | (L & F)].
  - assert (M : matchesSSN (formatSSN tin) = true)
      by (apply matchesSSN_formatSSN, L).
    rewrite M. rewrite F at 1. rewrite trim_not_blank by apply digit_not_white, Da.
    simpl. tauto.
  - destruct (String.eqb (trim (formatSSN tin)) ""); [split; [discriminate | tauto] |].
    destruct (matchesSSN (formatSSN tin)) eqn:M.
    + apply matchesSSN_formatSSN in M. contradiction.
    + simpl. split; [discriminate | tauto].
Qed.

Lemma validateCommonFields_isValid (texts : FormTexts)
    (formData : Form1099ToForm1040Mapper.Form1040Data) :
  isValid (validateCommonFields texts formData) = true <->
  blank (firstName texts) = false /\ blank (lastName texts) = false /\
  ssnIssues (ssn texts) = [] /\
  0 <= or0 (Form1099ToForm1040Mapper.get formData "line1").
Proof.
  unfold validateCommonFields. cbv zeta. cbn [isValid].
  rewrite Nat.eqb_eq.
  destruct (blank (firstName texts)), (blank (lastName texts)),
    (ssnIssues (ssn texts)) as [| e es],
    (Qlt_bool (or0 (Form1099ToForm1040Mapper.get formData "line1")) 0) eqn:E;
    simpl; rewrite ?length_app; simpl;
    first [apply Qlt_bool_true in E | apply Qlt_bool_false in E];
    (split; [intros H; first [lia | repeat split; first [reflexivity | lra]]
            | intros (H1 & H2 & H3 & H4);
              first [reflexivity | discriminate | lra]]).
Qed.

(** X28.  The form validation accepts the identification number the
    mapper writes: for a form whose number is [formatSSN] of a text,
    [validateCommonFields] is valid exactly when the first and the last
    name are not blank, the text has nine digits and the wages on line 1 are
    not negative.  With nine digits no error is about the number; with any
    other number of digits there is an error about it. *)
Theorem validateCommonFields_accepts_a_formatted_number
    (texts : FormTexts) (formData : Form1099ToForm1040Mapper.Form1040Data)
    (tin : string) :
  ssn texts = Some (formatSSN tin) ->
  let result := validateCommonFields texts formData in
  (isValid result = true <->
   blank (firstName texts) = false /\ blank (lastName texts) = false /\
   String.length (digitsOf tin) = 9%nat /\
   0 <= or0 (Form1099ToForm1040Mapper.get formData "line1")) /\
  (String.length (digitsOf tin) = 9%nat ->
   Forall (fun e => field e <> "ssn") (errors result)) /\
  (String.length (digitsOf tin) <> 9%nat ->
   Exists (fun e => field e = "ssn") (errors result)).
Proof.
  intros S. cbv zeta.
  split; [rewrite validateCommonFields_isValid, S, ssnIssues_formatSSN; tauto |].
  unfold validateCommonFields. cbv zeta. cbn [errors]. rewrite S.
  split.
  - intros L. apply ssnIssues_formatSSN in L. rewrite L.
    repeat match goal with
           | |- context [if ?c then _ else _] => destruct c
           end;
      repeat first [ apply Forall_app_2 | apply Forall_cons_2 | apply Forall_nil_2 ];
      discriminate.
  - intros L.
    assert (N : ssnIssues (Some (formatSSN tin)) <> [])
      by (intros N; apply ssnIssues_formatSSN in N; contradiction).
    assert (A : Forall (fun e => field e = "ssn") (ssnIssues (Some (formatSSN tin)))).
    { unfold ssnIssues.
      repeat match goal with
             | |- context [if ?c then _ else _] => destruct c
             end;
        repeat first [ apply Forall_cons_2 | apply Forall_nil_2 ]; reflexivity. }
    destruct (ssnIssues (Some (formatSSN tin))) as [| e es]; [contradiction |].
    apply Forall_cons in A as [A _].
    apply Exists_exists. exists e. split; [| exact A].
    repeat match goal with
           | |- context [if ?c then _ else _] => destruct c
           end;
      rewrite ?elem_of_app, ?elem_of_cons; tauto.
Qed.

Lemma formatted_number_witness :
  ssn jordanBlake = Some (formatSSN "123 45 6789") /\
  Forall (fun e => field e <> "ssn")
         (errors (validateCommonFields jordanBlake
                    Form1099ToForm1040Mapper.emptyForm)).
Proof.
  assert (H : ssn jordanBlake = Some (formatSSN "123 45 6789")) by reflexivity.
  split; [exact H |].
  destruct (validateCommonFields_accepts_a_formatted_number
              jordanBlake Form1099ToForm1040Mapper.emptyForm "123 45 6789" H)
    as (_ & A & _).
  apply A. vm_compute. reflexivity.
Defined.

End IdentificationNumber.

(** ** The validation of a recomputed form *)

Section ValidationOfRecomputedForm.
Import Form1099ToForm1040Mapper TaxFormReadings.
Import Form1040Validation Standard1040FormValidation IdentificationReadings.

Ltac split_tests :=
  repeat match goal with
         | |- context [if ?c then _ else _] => destruct c
         end.

(** The errors of the common validation are about the names, the
    identification number and the wages. *)
Lemma validateCommonFields_fields (texts : FormTexts) (formData : Form1040Data) :
  Forall (fun e => field e ∈ ["firstName"; "lastName"; "ssn"; "line1"])
         (errors (validateCommonFields texts formData)).
Proof.
  unfold validateCommonFields, ssnIssues. cbv zeta. cbn [errors].
  destruct (ssn texts); split_tests;
    repeat first [ apply Forall_app_2 | apply Forall_cons_2 | apply Forall_nil_2 ];
    apply (bool_decide_unpack _); vm_compute; exact I.
Qed.

(** The error about the bank account among the errors of the standard
    form. *)
Lemma bankError_specific (texts : FormTexts) (formData : Form1040Data) :
  bankError ∈ errors (validateStandardFormFields texts formData) <->
  Qlt_bool 0 (or0 (get formData "line33"))
  && Qlt_bool 0 (or0 (get formData "line34")) = true /\
  truthy (line35a texts) && truthy (line35c texts) = false.
Proof.
  unfold validateStandardFormFields. cbv zeta. cbn [errors].
  destruct (Qlt_bool 0 (or0 (get formData "line33"))
            && Qlt_bool 0 (or0 (get formData "line34")));
    destruct (truthy (line35a texts)), (truthy (line35c texts));
    destruct (filesJointly formData), (blank (spouseFirstName texts)),
      (blank (spouseLastName texts)), (blank (spouseSSN texts));
    cbn [negb orb andb app];
    (split;
     [ intros H;
       first [ split; reflexivity
             | repeat (apply elem_of_cons in H as [H | H]; [discriminate H |]);
               apply elem_of_nil in H; contradiction ]
     | intros [H1 H2];
       first [ discriminate H1 | discriminate H2
             | apply list_elem_of_here ] ]).
Qed.

Lemma isValid_validateStandardFormFields (texts : FormTexts)
    (formData : Form1040Data) :
  isValid (validateStandardFormFields texts formData)
  = Nat.eqb (length (errors (validateStandardFormFields texts formData))) 0.
Proof. reflexivity. Qed.

(** X29.  A recomputed form that shows a refund needs the bank account:
    for a form as [recalculateForm1040Totals] leaves it (and so for every
    form [map1099ToForm1040] returns), the validation of the standard form,
    [validateForm], reports the missing bank account exactly when line 33
    holds a refund and one of the two entries of the account is missing;
    the form is then not valid.  A form with an amount owed never gets this
    error. *)
Theorem refund_needs_bank_information (texts : FormTexts) (f : Form1040Data) :
  let f' := recalculateForm1040Totals f in
  let result := validateForm texts f' in
  let complete := truthy (line35a texts) && truthy (line35c texts) in
  (bankError ∈ errors result <->
   0 < or0 (get f' "line33") /\ complete = false) /\
  (0 < or0 (get f' "line33") -> complete = false -> isValid result = false) /\
  (0 < or0 (get f' "line37") -> bankError ∉ errors result).
Proof.
  cbv zeta.
  assert (S : bankError
              ∈ errors (validateStandardFormFields texts
                          (recalculateForm1040Totals f)) <->
              0 < or0 (get (recalculateForm1040Totals f) "line33") /\
              truthy (line35a texts) && truthy (line35c texts) = false).
  { rewrite bankError_specific, recalculate_line34, andb_diag, Qlt_bool_true.
    reflexivity. }
  assert (M : bankError
              ∈ errors (validateForm texts (recalculateForm1040Totals f)) <->
              0 < or0 (get (recalculateForm1040Totals f) "line33") /\
              truthy (line35a texts) && truthy (line35c texts) = false).
  { rewrite <- S. unfold validateForm. cbv zeta. cbn [errors].
    rewrite elem_of_app.
    split; [| intros H; right; exact H].
    intros [H | H]; [| exact H].
    pose proof (validateCommonFields_fields texts (recalculateForm1040Totals f))
      as F.
    rewrite Forall_forall in F. specialize (F _ H).
    apply (bool_decide_pack _) in F. vm_compute in F. contradiction. }
  split; [exact M |].
  split.
  - intros R B.
    assert (H : bankError
                ∈ errors (validateStandardFormFields texts
                            (recalculateForm1040Totals f)))
      by (apply S; split; assumption).
    unfold validateForm. cbv zeta. cbn [isValid].
    apply andb_false_iff. right.
    rewrite isValid_validateStandardFormFields.
    destruct (errors (validateStandardFormFields texts
                        (recalculateForm1040Totals f)));
      [apply elem_of_nil in H; contradiction | reflexivity].
  - intros O H. apply M in H as [R _].
    destruct (recalculate_lines f) as (_ & _ & _ & _ & _ & _ & _ & B33 & B37).
    cbv zeta in *. rewrite B33 in R. rewrite B37 in O.
    destruct (Qlt_bool _ _); cbn in *; lra.
Qed.

Lemma refund_without_account_witness :
  0 < or0 (get (recalculateForm1040Totals wageStatementForm) "line33") /\
  truthy (line35a jordanBlake) && truthy (line35c jordanBlake) = false /\
  isValid (validateForm jordanBlake (recalculateForm1040Totals wageStatementForm))
  = false.
Proof.
  assert (R : 0 < or0 (get (recalculateForm1040Totals wageStatementForm) "line33"))
    by (vm_compute; reflexivity).
  assert (B : truthy (line35a jordanBlake) && truthy (line35c jordanBlake) = false)
    by reflexivity.
  split; [exact R |]. split; [exact B |].
  exact (proj1 (proj2 (refund_needs_bank_information jordanBlake
                         wageStatementForm)) R B).
Defined.

End ValidationOfRecomputedForm.
